(** * pg_variables: session variables with savepoint histories

    A shallow embedding of the transactional state engine of
    [pg_variables.c] (the build without [PGPRO_EE], so a state carries the
    subtransaction nesting level only), followed by the properties of the
    engine that the specification states.

    Pointers are modelled by the key under which the pointed entry sits in
    its hash table: a [Package *] is the package key, a [Variable *] is the
    package key, the table flavour and the variable key.  A memory context
    ([hctxRegular], [hctxTransact], [ModuleContext], [changesStackContext])
    lives exactly as long as the table or list allocated in it, so it has no
    field of its own.  [palloc]/[pfree] have no counterpart: a datum is
    modelled by its value. *)

From Stdlib Require Import ZArith.
From stdpp Require Import gmap strings list fin_maps.

Local Open Scope Z_scope.

(** ** Host types and constants *)

Definition Oid := Z.
Definition Datum := Z.

(** [NAMEDATALEN] of the host (pg_config_manual.h). *)
Definition NAMEDATALEN : Z := 64.

(** The [text] arguments are byte strings; [VARSIZE_ANY_EXHDR] is their
    length. *)
Definition text := string.
Definition VARSIZE_ANY_EXHDR (t : text) : Z := Z.of_nat (String.length t).

(** ** Data model (pg_variables.h) *)

Record Levels := mkLevels { level : Z }.

Record ScalarVar := mkScalarVar {
  value : Datum;
  is_null : bool;
  typbyval : bool;
  typlen : Z
}.

(** One row of a record variable: the key is the first column. *)
Record HashRecordEntry := mkHashRecordEntry {
  key_value : Datum;
  key_is_null : bool;
  tuple : Datum
}.

(** [rhash = None] is the NULL table of a record variable that was not
    initialised yet; the list is the table in its internal order. *)
Record RecordVar := mkRecordVar {
  tupdesc : option Z;
  rhash : option (list HashRecordEntry)
}.

(** The union [value] of a [VarState], with the tag that the code keeps in
    [Variable.is_record]. *)
Inductive VarValue :=
| scalar (sv : ScalarVar)
| record (rv : RecordVar).

(** What follows the common [TransState] header in a [PackState] or in a
    [VarState]. *)
Inductive StateBody :=
| PackBody (trans_var_num : Z)
| VarBody (v : VarValue).

Record TransState := mkTransState {
  is_valid : bool;
  levels : Levels;
  body : StateBody
}.

(** [states] is the dlist, head first: the head is the actual state. *)
Record TransObject := mkTransObject {
  name : string;
  states : list TransState
}.

(** The struct [Variable] ([Variable] is a reserved word here). *)
Record VariableEntry := mkVariable {
  var_transObject : TransObject;
  package : string;
  typid : Oid;
  is_record : bool;
  is_transactional : bool;
  is_deleted : bool
}.

Record Package := mkPackage {
  transObject : TransObject;
  varHashRegular : option (gmap string VariableEntry);
  varHashTransact : option (gmap string VariableEntry)
}.

Inductive TransObjectType := TRANS_PACKAGE | TRANS_VARIABLE.

(** A [TransObject *]. *)
Inductive ObjPtr :=
| PackPtr (pkey : string)
| VarPtr (pkey : string) (is_trans : bool) (vkey : string).

Definition ptrType (o : ObjPtr) : TransObjectType :=
  match o with PackPtr _ => TRANS_PACKAGE | VarPtr _ _ _ => TRANS_VARIABLE end.

Record ChangesStackNode := mkChangesStackNode {
  changedVarsList : list ObjPtr;
  changedPacksList : list ObjPtr
}.

(** A [HASH_SEQ_STATUS]: the table scanned and the rows not yet returned. *)
Record HASH_SEQ_STATUS := mkHashSeqStatus {
  remaining : list HashRecordEntry
}.

Record VariableStatEntry := mkVariableStatEntry {
  vse_status : nat;
  vse_variable : ObjPtr;
  vse_package : string;
  vse_levels : Levels;
  vse_user_fctx : option nat
}.

Record PackageStatEntry := mkPackageStatEntry {
  pse_status : nat;
  pse_levels : Levels;
  pse_user_fctx : option nat
}.

(** ** Session state

    The file-level statics of pg_variables.c, with the host state they read:
    [nestLevel] is [GetCurrentTransactionNestLevel()], [typcache] what
    [get_typlenbyval] answers, [seq_scans] the scans that dynahash has
    registered ([hash_seq_init] adds one, [hash_seq_term] drops it),
    [seq_status] the allocated [HASH_SEQ_STATUS] blocks and [user_fctx] the
    [funcctx->user_fctx] cell of each set-returning call in progress. *)

Record Session := mkSession {
  nestLevel : Z;
  packagesHash : option (gmap string Package);
  changesStack : option (list ChangesStackNode);
  variables_stats : list VariableStatEntry;
  packages_stats : list PackageStatEntry;
  LastPackage : option string;
  LastVariable : option ObjPtr;
  seq_scans : list nat;
  seq_status : gmap nat HASH_SEQ_STATUS;
  user_fctx : gmap nat (option nat);
  typcache : Oid -> Z * bool
}.

Definition set_nestLevel (n : Z) (s : Session) : Session :=
  mkSession n (packagesHash s) (changesStack s) (variables_stats s)
    (packages_stats s) (LastPackage s) (LastVariable s) (seq_scans s)
    (seq_status s) (user_fctx s) (typcache s).

Definition set_packagesHash (h : option (gmap string Package)) (s : Session) : Session :=
  mkSession (nestLevel s) h (changesStack s) (variables_stats s)
    (packages_stats s) (LastPackage s) (LastVariable s) (seq_scans s)
    (seq_status s) (user_fctx s) (typcache s).

Definition set_changesStack (c : option (list ChangesStackNode)) (s : Session) : Session :=
  mkSession (nestLevel s) (packagesHash s) c (variables_stats s)
    (packages_stats s) (LastPackage s) (LastVariable s) (seq_scans s)
    (seq_status s) (user_fctx s) (typcache s).

Definition set_variables_stats (l : list VariableStatEntry) (s : Session) : Session :=
  mkSession (nestLevel s) (packagesHash s) (changesStack s) l
    (packages_stats s) (LastPackage s) (LastVariable s) (seq_scans s)
    (seq_status s) (user_fctx s) (typcache s).

Definition set_packages_stats (l : list PackageStatEntry) (s : Session) : Session :=
  mkSession (nestLevel s) (packagesHash s) (changesStack s) (variables_stats s)
    l (LastPackage s) (LastVariable s) (seq_scans s)
    (seq_status s) (user_fctx s) (typcache s).

Definition set_cache (lp : option string) (lv : option ObjPtr) (s : Session) : Session :=
  mkSession (nestLevel s) (packagesHash s) (changesStack s) (variables_stats s)
    (packages_stats s) lp lv (seq_scans s) (seq_status s) (user_fctx s) (typcache s).

Definition set_seq_scans (l : list nat) (s : Session) : Session :=
  mkSession (nestLevel s) (packagesHash s) (changesStack s) (variables_stats s)
    (packages_stats s) (LastPackage s) (LastVariable s) l
    (seq_status s) (user_fctx s) (typcache s).

Definition set_seq_status (m : gmap nat HASH_SEQ_STATUS) (s : Session) : Session :=
  mkSession (nestLevel s) (packagesHash s) (changesStack s) (variables_stats s)
    (packages_stats s) (LastPackage s) (LastVariable s) (seq_scans s)
    m (user_fctx s) (typcache s).

Definition set_user_fctx (m : gmap nat (option nat)) (s : Session) : Session :=
  mkSession (nestLevel s) (packagesHash s) (changesStack s) (variables_stats s)
    (packages_stats s) (LastPackage s) (LastVariable s) (seq_scans s)
    (seq_status s) m (typcache s).

(** The session before the module was first used. *)
Definition emptySession (cat : Oid -> Z * bool) (lvl : Z) : Session :=
  mkSession lvl None None [] [] None None [] ∅ ∅ cat.

(** ** Errors and the session monad

    Every [ereport(ERROR, ...)] of the file has the code
    [ERRCODE_INVALID_PARAMETER_VALUE]; the constructors follow the messages.
    An error leaves the statics as they are at the [ereport]: undoing is the
    work of the transaction callbacks.  [Undefined] stands for what C leaves
    undefined: the head of an empty dlist, a NULL table, an entry that is no
    longer in its table.  The [Assert]s are those of a production build:
    compiled out. *)

Inductive PgvError :=
| NameTooLong (nm : string)
| UnrecognizedPackage (key : string)
| UnrecognizedVariable (key : string)
| RequiresValueOfType (key : string) (t : Oid)
| IsntAVariableOfKind (key : string) (is_rec : bool)
| AlreadyCreatedAs (key : string) (as_transactional : bool).

Inductive outcome (A : Type) :=
| Done (a : A)
| Raise (e : PgvError)
| Undefined.
Arguments Done {A} a.
Arguments Raise {A} e.
Arguments Undefined {A}.

Definition M (A : Type) : Type := Session -> outcome A * Session.

Definition ret {A} (a : A) : M A := fun s => (Done a, s).

Definition bind {A B} (c : M A) (k : A -> M B) : M B :=
  fun s =>
    match c s with
    | (Done a, s') => k a s'
    | (Raise e, s') => (Raise e, s')
    | (Undefined, s') => (Undefined, s')
    end.

Definition ereport {A} (e : PgvError) : M A := fun s => (Raise e, s).
Definition undefined {A} : M A := fun s => (Undefined, s).
Definition gets {A} (f : Session -> A) : M A := fun s => (Done (f s), s).
Definition modify (f : Session -> Session) : M unit := fun s => (Done tt, f s).

(** A value that C reads through a pointer that must not be NULL. *)
Definition deref {A} (o : option A) : M A :=
  match o with Some a => ret a | None => undefined end.

Declare Scope pgv_scope.
Delimit Scope pgv_scope with pgv.
Notation "x <- c ;; k" := (bind c (fun x => k))
  (at level 100, c at next level, right associativity) : pgv_scope.
Notation "c ;;; k" := (bind c (fun _ => k))
  (at level 100, right associativity) : pgv_scope.
Local Open Scope pgv_scope.

Definition when (b : bool) (c : M unit) : M unit := if b then c else ret tt.

(** ** Reading and writing through pointers *)

Definition pack_htab (pack : Package) (is_trans : bool) : option (gmap string VariableEntry) :=
  if is_trans then varHashTransact pack else varHashRegular pack.

Definition set_pack_htab (is_trans : bool) (h : option (gmap string VariableEntry))
    (pack : Package) : Package :=
  if is_trans then mkPackage (transObject pack) (varHashRegular pack) h
  else mkPackage (transObject pack) h (varHashTransact pack).

Definition set_transObject (o : TransObject) (pack : Package) : Package :=
  mkPackage o (varHashRegular pack) (varHashTransact pack).

Definition set_var_transObject (o : TransObject) (var : VariableEntry) : VariableEntry :=
  mkVariable o (package var) (typid var) (is_record var) (is_transactional var)
    (is_deleted var).

Definition set_is_deleted (b : bool) (var : VariableEntry) : VariableEntry :=
  mkVariable (var_transObject var) (package var) (typid var) (is_record var)
    (is_transactional var) b.

Definition findPackage (key : string) (s : Session) : option Package :=
  match packagesHash s with
  | Some h => h !! key
  | None => None
  end.

Definition findVariable (pkey : string) (is_trans : bool) (vkey : string)
    (s : Session) : option VariableEntry :=
  match findPackage pkey s with
  | Some pack =>
      match pack_htab pack is_trans with
      | Some h => h !! vkey
      | None => None
      end
  | None => None
  end.

(** A write through a [Package *]: the entry under [key] changes in place. *)
Definition updPackage (key : string) (f : Package -> Package) (s : Session) : Session :=
  match packagesHash s with
  | Some h => set_packagesHash (Some (alter f key h)) s
  | None => s
  end.

(** [hash_search(packagesHash, key, HASH_ENTER, ...)] for a new entry, and
    [HASH_REMOVE]. *)
Definition storePackage (key : string) (pack : Package) (s : Session) : Session :=
  set_packagesHash (Some (<[key := pack]> (default ∅ (packagesHash s)))) s.

Definition deletePackage (key : string) (s : Session) : Session :=
  match packagesHash s with
  | Some h => set_packagesHash (Some (delete key h)) s
  | None => s
  end.

(** A write through a [Variable *] of the package. *)
Definition updVariable (is_trans : bool) (vkey : string)
    (g : VariableEntry -> VariableEntry) (pack : Package) : Package :=
  match pack_htab pack is_trans with
  | Some h => set_pack_htab is_trans (Some (alter g vkey h)) pack
  | None => pack
  end.

Definition getObject (o : ObjPtr) (s : Session) : option TransObject :=
  match o with
  | PackPtr pkey => transObject <$> findPackage pkey s
  | VarPtr pkey is_trans vkey => var_transObject <$> findVariable pkey is_trans vkey s
  end.

Definition on_var_transObject (g : TransObject -> TransObject) (var : VariableEntry) :
    VariableEntry :=
  set_var_transObject (g (var_transObject var)) var.

Definition on_transObject (g : TransObject -> TransObject) (pack : Package) : Package :=
  set_transObject (g (transObject pack)) pack.

(** A write to the [TransObject] that [o] points to. *)
Definition modObject (o : ObjPtr) (g : TransObject -> TransObject) (s : Session) : Session :=
  match o with
  | PackPtr pkey => updPackage pkey (on_transObject g) s
  | VarPtr pkey is_trans vkey =>
      updPackage pkey (updVariable is_trans vkey (on_var_transObject g)) s
  end.

(** The dlist of the object, and a write to it. *)
Definition objStates (o : ObjPtr) (s : Session) : option (list TransState) :=
  states <$> getObject o s.

Definition modStates (o : ObjPtr) (h : list TransState -> list TransState)
    (s : Session) : Session :=
  modObject o (fun obj => mkTransObject (name obj) (h (states obj))) s.

Definition readPackage (key : string) : M Package :=
  p <- gets (findPackage key) ;; deref p.

Definition readVariable (o : ObjPtr) : M VariableEntry :=
  match o with
  | VarPtr pkey is_trans vkey => v <- gets (findVariable pkey is_trans vkey) ;; deref v
  | PackPtr _ => undefined
  end.

Definition readStates (o : ObjPtr) : M (list TransState) :=
  l <- gets (objStates o) ;; deref l.

Definition writeStates (o : ObjPtr) (l : list TransState) : M unit :=
  _ <- readStates o ;; modify (modStates o (fun _ => l)).

(** [GetActualState(object)]: the head of the dlist. *)
Definition GetActualState (o : ObjPtr) : M TransState :=
  l <- readStates o ;; deref (head l).

(** An assignment to a field of [GetActualState(object)]. *)
Definition updActualState (o : ObjPtr) (f : TransState -> TransState) : M unit :=
  l <- readStates o ;;
  match l with
  | st :: rest => modify (modStates o (fun _ => f st :: rest))
  | [] => undefined
  end.

Definition with_is_valid (b : bool) (st : TransState) : TransState :=
  mkTransState b (levels st) (body st).

Definition with_level (l : Z) (st : TransState) : TransState :=
  mkTransState (is_valid st) (mkLevels l) (body st).

Definition with_body (b : StateBody) (st : TransState) : TransState :=
  mkTransState (is_valid st) (levels st) b.

(** [GetPackState(package)->trans_var_num]. *)
Definition get_trans_var_num (pkey : string) : M Z :=
  st <- GetActualState (PackPtr pkey) ;;
  match body st with
  | PackBody n => ret n
  | VarBody _ => undefined
  end.

Definition set_trans_var_num (pkey : string) (n : Z) : M unit :=
  updActualState (PackPtr pkey) (with_body (PackBody n)).

Definition GetCurrentTransactionNestLevel : M Z := gets nestLevel.

(** ** Names *)

Definition getKeyFromName (nm : text) : M string :=
  let key_len := VARSIZE_ANY_EXHDR nm in
  if key_len >=? NAMEDATALEN - 1 then ereport (NameTooLong nm)
  else ret nm.

Definition resetVariablesCache : M unit := modify (set_cache None None).

Definition ensurePackagesHashExists : M unit :=
  h <- gets packagesHash ;;
  match h with
  | Some _ => ret tt
  | None => modify (set_packagesHash (Some ∅))
  end.

Definition makePackHTAB (pkey : string) (is_trans : bool) : M unit :=
  _ <- readPackage pkey ;;
  modify (updPackage pkey (set_pack_htab is_trans (Some ∅))).

(** The host's [get_typlenbyval] and [datumCopy].  The session keeps a datum
    as its value, so the copy of a datum is the datum: which chunk of memory
    holds a datum passed by reference, and when that chunk is freed, is not
    part of the session and is followed in [Memory] below. *)
Definition get_typlenbyval (t : Oid) : M (Z * bool) :=
  gets (fun s => typcache s t).

Definition datumCopy (v : Datum) (typByVal : bool) (typLen : Z) : Datum := v.

(** A state as [MemoryContextAllocZero] returns it. *)
Definition zeroVarValue (is_rec : bool) : VarValue :=
  if is_rec then record (mkRecordVar None None)
  else scalar (mkScalarVar 0 false false 0).

Definition initObjectHistory (o : ObjPtr) : M unit :=
  match o with
  | PackPtr _ =>
      writeStates o [mkTransState true (mkLevels 0) (PackBody 0)]
  | VarPtr _ _ _ =>
      variable <- readVariable o ;;
      if is_record variable then
        writeStates o [mkTransState true (mkLevels 0) (VarBody (zeroVarValue true))]
      else
        lb <- get_typlenbyval (typid variable) ;;
        writeStates o [mkTransState true (mkLevels 0)
                         (VarBody (scalar (mkScalarVar 0 true (snd lb) (fst lb))))]
  end.

(** ** Savepoints *)

(** Modelled from the spec: [init_record] and [insert_record_copy]
    (pg_variables_record.c) are not among the sources; "for records, create a
    fresh arena and re-insert every row into a freshly-built row table".
    Scanning the NULL table of the source state is undefined. *)
Definition copyRecord (src : RecordVar) : option RecordVar :=
  match rhash src with
  | Some rows => Some (mkRecordVar (tupdesc src) (Some rows))
  | None => None
  end.

Definition copyValue (src : VarValue) : option VarValue :=
  match src with
  | record rv => record <$> copyRecord rv
  | scalar sv =>
      Some (scalar (mkScalarVar
                      (if is_null sv then 0
                       else datumCopy (value sv) (typbyval sv) (typlen sv))
                      (is_null sv) (typbyval sv) (typlen sv)))
  end.

(** What [createSavepoint] puts in the new state after the header: the
    counter of a package, the copy of the value of a variable. *)
Definition copyBody (type : TransObjectType) (b : StateBody) : option StateBody :=
  match type, b with
  | TRANS_PACKAGE, PackBody n => Some (PackBody n)
  | TRANS_VARIABLE, VarBody v => VarBody <$> copyValue v
  | _, _ => None
  end.

Definition createSavepoint (o : ObjPtr) : M unit :=
  l <- readStates o ;;
  prevState <- deref (head l) ;;
  newBody <- deref (copyBody (ptrType o) (body prevState)) ;;
  modify (modStates o (fun _ =>
            mkTransState (is_valid prevState) (mkLevels 0) newBody :: l)).

Definition numOfRegVars (pkey : string) : M Z :=
  pack <- readPackage pkey ;;
  match varHashRegular pack with
  | Some h => ret (Z.of_nat (size h))
  | None => ret 0
  end.

(** ** The changes stack *)

Definition isObjectChangedInCurrentTrans (o : ObjPtr) : M bool :=
  cs <- gets changesStack ;;
  match cs with
  | None => ret false
  | Some _ =>
      state <- GetActualState o ;;
      lvl <- GetCurrentTransactionNestLevel ;;
      ret (level (levels state) =? lvl)
  end.

Definition isObjectChangedInUpperTrans (o : ObjPtr) : M bool :=
  l <- readStates o ;;
  lvl <- GetCurrentTransactionNestLevel ;;
  match l with
  | [] => undefined
  | cur_state :: rest =>
      match rest with
      | prev_state :: _ =>
          if level (levels cur_state) =? lvl
          then ret (level (levels prev_state) =? lvl - 1)
          else ret (level (levels cur_state) =? lvl - 1)
      | [] => ret (level (levels cur_state) =? lvl - 1)
      end
  end.

Definition pushChangesStack : M unit :=
  modify (fun s =>
    set_changesStack
      (Some (mkChangesStackNode [] [] :: default [] (changesStack s))) s).

Fixpoint repeatM (n : nat) (c : M unit) : M unit :=
  match n with
  | O => ret tt
  | S n' => c ;;; repeatM n' c
  end.

Definition prepareChangesStack : M unit :=
  cs <- gets changesStack ;;
  match cs with
  | Some _ => ret tt
  | None =>
      lvl <- GetCurrentTransactionNestLevel ;;
      repeatM (Z.to_nat lvl) pushChangesStack
  end.

(** The stack that [prepareChangesStack] leaves. *)
Definition emptyFrame : ChangesStackNode := mkChangesStackNode [] [].

Definition preparedStack (s : Session) : option (list ChangesStackNode) :=
  match changesStack s with
  | Some cs => Some cs
  | None =>
      match Z.to_nat (nestLevel s) with
      | O => None
      | S n => Some (replicate (S n) emptyFrame)
      end
  end.

(** [dlist_push_head] on the list of the frame that fits the object's type. *)
Definition pushChanged (o : ObjPtr) (csn : ChangesStackNode) : ChangesStackNode :=
  match ptrType o with
  | TRANS_PACKAGE => mkChangesStackNode (changedVarsList csn) (o :: changedPacksList csn)
  | TRANS_VARIABLE => mkChangesStackNode (o :: changedVarsList csn) (changedPacksList csn)
  end.

(** Push on the head frame of the stack: [get_actual_changes_list()] in
    [addToChangesStack], the parent frame in [addToChangesStackUpperLevel],
    which runs after [processChanges] popped the frame of the level that
    ends. *)
Definition pushOnHeadFrame (o : ObjPtr) : M unit :=
  cs <- gets changesStack ;;
  match cs with
  | Some (csn :: rest) => modify (set_changesStack (Some (pushChanged o csn :: rest)))
  | _ => undefined
  end.

Definition addToChangesStackUpperLevel (o : ObjPtr) : M unit := pushOnHeadFrame o.

Definition addToChangesStack (o : ObjPtr) : M unit :=
  prepareChangesStack ;;;
  changed <- isObjectChangedInCurrentTrans o ;;
  if changed then ret tt
  else
    pushOnHeadFrame o ;;;
    lvl <- GetCurrentTransactionNestLevel ;;
    updActualState o (with_level lvl).

(** ** Packages and variables *)

Fixpoint forM_ {A} (l : list A) (f : A -> M unit) : M unit :=
  match l with
  | [] => ret tt
  | x :: l' => f x ;;; forM_ l' f
  end.

Definition getPackage (nm : text) (strict : bool) : M (option string) :=
  key <- getKeyFromName nm ;;
  h <- gets packagesHash ;;
  found <- match h with
           | Some tbl =>
               match tbl !! key with
               | Some _ =>
                   st <- GetActualState (PackPtr key) ;;
                   ret (is_valid st)
               | None => ret false
               end
           | None => ret false
           end ;;
  if (found : bool) then ret (Some key)
  else if strict then ereport (UnrecognizedPackage key)
  else ret None.

(** The body of the loop of [createPackage] over [varHashTransact]. *)
Definition markVariableRemoved (o : ObjPtr) : M unit :=
  changed <- isObjectChangedInCurrentTrans o ;;
  (if changed then ret tt
   else createSavepoint o ;;; addToChangesStack o) ;;;
  updActualState o (with_is_valid false).

Definition createPackage (nm : text) (is_trans : bool) : M string :=
  key <- getKeyFromName nm ;;
  ensurePackagesHashExists ;;;
  found <- gets (findPackage key) ;;
  match found with
  | Some _ =>
      changed <- isObjectChangedInCurrentTrans (PackPtr key) ;;
      (if changed then ret tt else createSavepoint (PackPtr key)) ;;;
      st <- GetActualState (PackPtr key) ;;
      if is_valid st then ret tt
      else
        updActualState (PackPtr key) (with_is_valid true) ;;;
        pack <- readPackage key ;;
        match varHashTransact pack with
        | Some vars =>
            forM_ (map_to_list vars) (fun kv => markVariableRemoved (VarPtr key true kv.1))
        | None => ret tt
        end
  | None =>
      modify (storePackage key (mkPackage (mkTransObject key []) None None)) ;;;
      initObjectHistory (PackPtr key)
  end ;;;
  pack <- readPackage key ;;
  match pack_htab pack is_trans with
  | Some _ => ret tt
  | None => makePackHTAB key is_trans
  end ;;;
  changed <- isObjectChangedInCurrentTrans (PackPtr key) ;;
  (if changed then ret tt else addToChangesStack (PackPtr key)) ;;;
  ret key.

Definition InvalidOid : Oid := 0.

Definition getVariableInternal (pkey : string) (nm : text) (t : Oid)
    (is_rec strict : bool) : M (option ObjPtr) :=
  key <- getKeyFromName nm ;;
  pack <- readPackage pkey ;;
  let in_regular := match varHashRegular pack with
                    | Some h => bool_decide (is_Some (h !! key))
                    | None => false
                    end in
  let in_transact := match varHashTransact pack with
                     | Some h => bool_decide (is_Some (h !! key))
                     | None => false
                     end in
  if in_regular || in_transact then
    let o := VarPtr pkey (negb in_regular) key in
    variable <- readVariable o ;;
    (if t =? InvalidOid then ret tt
     else if negb (typid variable =? t)
          then ereport (RequiresValueOfType key (typid variable))
          else if negb (eqb (is_record variable) is_rec)
               then ereport (IsntAVariableOfKind key is_rec)
               else ret tt) ;;;
    st <- GetActualState o ;;
    if negb (is_valid st) && strict then ereport (UnrecognizedVariable key)
    else ret (Some o)
  else if strict then ereport (UnrecognizedVariable key)
  else ret None.

Definition createVariableInternal (pkey : string) (nm : text) (t : Oid)
    (is_rec is_trans : bool) : M ObjPtr :=
  key <- getKeyFromName nm ;;
  pack <- readPackage pkey ;;
  match pack_htab pack (negb is_trans) with
  | Some htab =>
      if bool_decide (is_Some (htab !! key))
      then ereport (AlreadyCreatedAs key (negb is_trans))
      else ret tt
  | None => ret tt
  end ;;;
  htab <- deref (pack_htab pack is_trans) ;;
  let o := VarPtr pkey is_trans key in
  let found := bool_decide (is_Some (htab !! key)) in
  (match htab !! key with
   | Some variable =>
       if negb (typid variable =? t)
       then ereport (RequiresValueOfType key (typid variable))
       else if negb (eqb (is_record variable) is_rec)
            then ereport (IsntAVariableOfKind key is_rec)
            else
              changed <- isObjectChangedInCurrentTrans o ;;
              if is_trans && negb changed then createSavepoint o else ret tt
   | None =>
       modify (updPackage pkey
                 (set_pack_htab is_trans
                    (Some (<[key := mkVariable (mkTransObject key []) pkey t
                                       is_rec is_trans false]> htab)))) ;;;
       initObjectHistory o ;;;
       changed <- isObjectChangedInCurrentTrans (PackPtr pkey) ;;
       if changed then ret tt
       else createSavepoint (PackPtr pkey) ;;; addToChangesStack (PackPtr pkey)
   end) ;;;
  st <- GetActualState o ;;
  (if is_trans && (negb found || negb (is_valid st))
   then n <- get_trans_var_num pkey ;; set_trans_var_num pkey (n + 1)
   else ret tt) ;;;
  updActualState o (with_is_valid true) ;;;
  (if is_trans then addToChangesStack o else ret tt) ;;;
  ret o.

(** ** The registry of running scans *)

Global Instance ObjPtr_eq_dec : EqDecision ObjPtr.
Proof. solve_decision. Defined.

(** The host's [hash_seq_term]: the scan is no longer registered.  The host
    looks the scan up in its table of running scans and raises when it is not
    there; here a scan that is not registered is left as it is, so a run of
    the model that ends a scan twice, or ends a scan of a table that was
    freed, says nothing about the host. *)
Definition hash_seq_term (status : nat) : M unit :=
  modify (fun s => set_seq_scans (filter (fun i => i <> status) (seq_scans s)) s).

(** [pfree] of a [HASH_SEQ_STATUS]. *)
Definition pfree_status (status : nat) : M unit :=
  modify (fun s => set_seq_status (delete status (seq_status s)) s).

(** [if (e->user_fctx) *e->user_fctx = NULL]. *)
Definition clear_fctx (cell : option nat) : M unit :=
  match cell with
  | Some c => modify (fun s => set_user_fctx (alter (fun _ => None) c (user_fctx s)) s)
  | None => ret tt
  end.

Definition VariableStatEntry_clear_fctx (e : VariableStatEntry) : M unit :=
  clear_fctx (vse_user_fctx e).

Definition PackageStatEntry_clear_fctx (e : PackageStatEntry) : M unit :=
  clear_fctx (pse_user_fctx e).

(** [eq] is the comparison with [value] already supplied. *)
Record RemoveIfContext (E : Type) := mkRemoveIfContext {
  ric_eq : E -> bool;
  ric_getter : E -> nat;
  ric_match_first : bool;
  ric_term : bool;
  ric_clear_fctx : E -> M unit
}.
Arguments ric_eq {E} _ _.
Arguments ric_getter {E} _ _.
Arguments ric_match_first {E} _.
Arguments ric_term {E} _.
Arguments ric_clear_fctx {E} _ _.

(** The result is the list that the code leaves in [*ctx.list]. *)
Fixpoint list_remove_if {E} (ctx : RemoveIfContext E) (l : list E) : M (list E) :=
  match l with
  | [] => ret []
  | entry :: rest =>
      if ric_eq ctx entry then
        (if ric_term ctx then hash_seq_term (ric_getter ctx entry) else ret tt) ;;;
        ric_clear_fctx ctx entry ;;;
        pfree_status (ric_getter ctx entry) ;;;
        if ric_match_first ctx then ret rest
        else list_remove_if ctx rest
      else
        rest' <- list_remove_if ctx rest ;;
        ret (entry :: rest')
  end.

Definition on_variables_stats (ctx : RemoveIfContext VariableStatEntry) : M unit :=
  l <- gets variables_stats ;;
  l' <- list_remove_if ctx l ;;
  modify (set_variables_stats l').

Definition on_packages_stats (ctx : RemoveIfContext PackageStatEntry) : M unit :=
  l <- gets packages_stats ;;
  l' <- list_remove_if ctx l ;;
  modify (set_packages_stats l').

Definition remove_variables_status (status : nat) : M unit :=
  on_variables_stats
    (mkRemoveIfContext _ (fun e => bool_decide (vse_status e = status)) vse_status
       true false VariableStatEntry_clear_fctx).

Definition remove_variables_variable (variable : ObjPtr) : M unit :=
  on_variables_stats
    (mkRemoveIfContext _ (fun e => bool_decide (vse_variable e = variable)) vse_status
       false true VariableStatEntry_clear_fctx).

Definition remove_variables_package (pkey : string) : M unit :=
  on_variables_stats
    (mkRemoveIfContext _ (fun e => bool_decide (vse_package e = pkey)) vse_status
       false true VariableStatEntry_clear_fctx).

Definition remove_variables_level (lv : Levels) : M unit :=
  on_variables_stats
    (mkRemoveIfContext _ (fun e => level (vse_levels e) =? level lv) vse_status
       false false VariableStatEntry_clear_fctx).

Definition remove_variables_all : M unit :=
  on_variables_stats
    (mkRemoveIfContext _ (fun _ => true) vse_status
       false true VariableStatEntry_clear_fctx).

Definition remove_packages_status (status : nat) : M unit :=
  on_packages_stats
    (mkRemoveIfContext _ (fun e => bool_decide (pse_status e = status)) pse_status
       true false PackageStatEntry_clear_fctx).

Definition remove_packages_level (lv : Levels) : M unit :=
  on_packages_stats
    (mkRemoveIfContext _ (fun e => level (pse_levels e) =? level lv) pse_status
       false true PackageStatEntry_clear_fctx).

(** Only [hash_seq_term]: neither the entries nor the cells the entries point
    to are written. *)
Definition freeStatsLists : M unit :=
  vs <- gets variables_stats ;;
  forM_ vs (fun entry => hash_seq_term (vse_status entry)) ;;;
  modify (set_variables_stats []) ;;;
  ps <- gets packages_stats ;;
  forM_ ps (fun entry => hash_seq_term (pse_status entry)) ;;;
  modify (set_packages_stats []).

(** ** Removing objects *)

Definition isPackageEmpty (pkey : string) : M bool :=
  n <- get_trans_var_num pkey ;;
  pack <- readPackage pkey ;;
  let var_num := match varHashRegular pack with
                 | Some h => n + Z.of_nat (size h)
                 | None => n
                 end in
  ret (var_num =? 0).

(** The states of the object go with its entry; so do, for a package, the
    two tables and what is in them. *)
Definition removeObject (o : ObjPtr) : M bool :=
  match o with
  | PackPtr key =>
      _ <- readPackage key ;;
      modify (deletePackage key) ;;;
      remove_variables_variable o ;;;
      resetVariablesCache ;;;
      ret true
  | VarPtr pkey _ vkey =>
      var <- readVariable o ;;
      pack <- readPackage pkey ;;
      htab <- deref (pack_htab pack (is_transactional var)) ;;
      modify (updPackage pkey
                (set_pack_htab (is_transactional var) (Some (delete vkey htab)))) ;;;
      remove_variables_variable o ;;;
      empty <- isPackageEmpty pkey ;;
      (if empty then updActualState (PackPtr pkey) (with_is_valid false) else ret tt) ;;;
      resetVariablesCache ;;;
      ret true
  end.

(** The loop of [removePackageInternal] over one table: a valid variable is
    marked as deleted. *)
Definition markDeleted (var : VariableEntry) : VariableEntry :=
  match head (states (var_transObject var)) with
  | Some st => if is_valid st then set_is_deleted true var else var
  | None => var
  end.

Definition markAllDeleted (htab : option (gmap string VariableEntry)) :
    option (gmap string VariableEntry) :=
  match htab with
  | Some h => Some (markDeleted <$> h)
  | None => None
  end.

(** Both tables are walked, then the regular one is freed with its context. *)
Definition removePackageInternal (pkey : string) : M unit :=
  _ <- readPackage pkey ;;
  modify (updPackage pkey (fun pack =>
            mkPackage (transObject pack) (markAllDeleted (varHashRegular pack))
              (markAllDeleted (varHashTransact pack)))) ;;;
  pack <- readPackage pkey ;;
  (match varHashRegular pack with
   | Some _ => modify (updPackage pkey (set_pack_htab false None))
   | None => ret tt
   end) ;;;
  changed <- isObjectChangedInCurrentTrans (PackPtr pkey) ;;
  (if changed then ret tt
   else createSavepoint (PackPtr pkey) ;;; addToChangesStack (PackPtr pkey)) ;;;
  updActualState (PackPtr pkey) (with_is_valid false) ;;;
  set_trans_var_num pkey 0.

Definition remove_variable (package_name var_name : text) : M unit :=
  package <- getPackage package_name true ;;
  pkey <- deref package ;;
  variable <- getVariableInternal pkey var_name InvalidOid false true ;;
  o <- deref variable ;;
  changed <- isObjectChangedInCurrentTrans (PackPtr pkey) ;;
  (if changed then ret tt
   else createSavepoint (PackPtr pkey) ;;; addToChangesStack (PackPtr pkey)) ;;;
  var <- readVariable o ;;
  (if is_transactional var then
     changed <- isObjectChangedInCurrentTrans o ;;
     (if changed then ret tt else createSavepoint o ;;; addToChangesStack o) ;;;
     match o with
     | VarPtr pk tr vk => modify (updPackage pk (updVariable tr vk (set_is_deleted true)))
     | PackPtr _ => undefined
     end ;;;
     updActualState o (with_is_valid false) ;;;
     n <- get_trans_var_num pkey ;;
     set_trans_var_num pkey (n - 1) ;;;
     n' <- get_trans_var_num pkey ;;
     r <- numOfRegVars pkey ;;
     if n' + r =? 0 then updActualState (PackPtr pkey) (with_is_valid false) else ret tt
   else
     _ <- removeObject o ;; ret tt) ;;;
  resetVariablesCache.

Definition remove_package (package_name : text) : M unit :=
  package <- getPackage package_name true ;;
  pkey <- deref package ;;
  remove_variables_package pkey ;;;
  removePackageInternal pkey ;;;
  resetVariablesCache.

Definition remove_packages : M unit :=
  h <- gets packagesHash ;;
  match h with
  | None => ret tt
  | Some tbl =>
      remove_variables_all ;;;
      forM_ (map_to_list tbl) (fun kv => removePackageInternal kv.1) ;;;
      resetVariablesCache
  end.

(** ** Rollback and release of one object *)

(** [dlist_is_empty(changesStack)]. *)
Definition changesStackIsEmpty : M bool :=
  cs <- gets changesStack ;;
  l <- deref cs ;;
  ret (bool_decide (l = [])).

(** [removeState]: the state at position [i] leaves the dlist.  The host also
    frees the value of the state ([freeValue]) and the state; the session
    keeps no memory, so this is not followed. *)
Definition removeState (o : ObjPtr) (i : nat) : M unit :=
  _ <- readStates o ;;
  modify (modStates o (delete i)).

Definition rollbackSavepoint (o : ObjPtr) (sub : bool) : M unit :=
  l <- readStates o ;;
  match l with
  | [] => _ <- removeObject o ;; ret tt
  | _ :: rest =>
      removeState o 0 ;;;
      match o with
      | PackPtr pkey =>
          match rest with
          | [] =>
              n <- numOfRegVars pkey ;;
              if n >? 0 then
                initObjectHistory o ;;;
                lvl <- GetCurrentTransactionNestLevel ;;
                updActualState o (with_level (lvl - 1)) ;;;
                e <- changesStackIsEmpty ;;
                if e then ret tt else addToChangesStackUpperLevel o
              else
                _ <- removeObject o ;; ret tt
          | _ :: _ =>
              empty <- isPackageEmpty pkey ;;
              if empty then
                e <- changesStackIsEmpty ;;
                if e then _ <- removeObject o ;; ret tt
                else
                  upper <- isObjectChangedInUpperTrans o ;;
                  (if upper then ret tt
                   else
                     createSavepoint o ;;;
                     addToChangesStackUpperLevel o ;;;
                     lvl <- GetCurrentTransactionNestLevel ;;
                     updActualState o (with_level (lvl - 1))) ;;;
                  updActualState o (with_is_valid false)
              else ret tt
          end
      | VarPtr _ _ _ =>
          match rest with
          | [] => _ <- removeObject o ;; ret tt
          | _ :: _ => ret tt
          end
      end
  end.

Definition releaseSavepoint (o : ObjPtr) (sub : bool) : M unit :=
  l <- readStates o ;;
  st <- deref (head l) ;;
  let has_next := bool_decide (2 <= length l)%nat in
  to_remove <- (if is_valid st then ret false
                else if negb has_next then ret true
                     else changesStackIsEmpty) ;;
  if (to_remove : bool) then _ <- removeObject o ;; ret tt
  else
    upper <- isObjectChangedInUpperTrans o ;;
    (if upper then removeState o 1
     else
       e <- changesStackIsEmpty ;;
       if e then ret tt else addToChangesStackUpperLevel o) ;;;
    updActualState o (fun st => with_level (level (levels st) - 1) st).

(** ** Processing one frame *)

Inductive Action := RELEASE_SAVEPOINT | ROLLBACK_TO_SAVEPOINT.

Definition applyAction (action : Action) (l : list ObjPtr) (sub : bool) : M unit :=
  forM_ l (fun o =>
    match action with
    | ROLLBACK_TO_SAVEPOINT => rollbackSavepoint o sub
    | RELEASE_SAVEPOINT =>
        match o with
        | VarPtr pkey _ _ =>
            pst <- GetActualState (PackPtr pkey) ;;
            if is_valid pst then ret tt
            else updActualState o (with_is_valid false)
        | PackPtr _ => ret tt
        end ;;;
        releaseSavepoint o sub
    end).

Definition processChanges (action : Action) (sub : bool) : M unit :=
  cs <- gets changesStack ;;
  stack <- deref cs ;;
  match stack with
  | [] => undefined
  | bottom_list :: rest =>
      modify (set_changesStack (Some rest)) ;;;
      applyAction action (changedVarsList bottom_list) sub ;;;
      applyAction action (changedPacksList bottom_list) sub ;;;
      e <- changesStackIsEmpty ;;
      (if e then modify (set_changesStack None) else ret tt) ;;;
      h <- gets packagesHash ;;
      tbl <- deref h ;;
      if bool_decide (size tbl = 0%nat) then
        modify (set_packagesHash None) ;;;
        resetVariablesCache ;;;
        modify (set_changesStack None)
      else ret tt
  end.

(** ** Transaction callbacks *)

Inductive SubXactEvent :=
| SUBXACT_EVENT_START_SUB
| SUBXACT_EVENT_COMMIT_SUB
| SUBXACT_EVENT_ABORT_SUB
| SUBXACT_EVENT_PRE_COMMIT_SUB.

Inductive XactEvent :=
| XACT_EVENT_COMMIT
| XACT_EVENT_PARALLEL_COMMIT
| XACT_EVENT_ABORT
| XACT_EVENT_PARALLEL_ABORT
| XACT_EVENT_PREPARE
| XACT_EVENT_PRE_COMMIT
| XACT_EVENT_PARALLEL_PRE_COMMIT
| XACT_EVENT_PRE_PREPARE.

Definition pgvSubTransCallback (event : SubXactEvent) : M unit :=
  cs <- gets changesStack ;;
  match cs with
  | Some _ =>
      match event with
      | SUBXACT_EVENT_START_SUB => pushChangesStack
      | SUBXACT_EVENT_COMMIT_SUB => processChanges RELEASE_SAVEPOINT true
      | SUBXACT_EVENT_ABORT_SUB => processChanges ROLLBACK_TO_SAVEPOINT true
      | SUBXACT_EVENT_PRE_COMMIT_SUB => ret tt
      end
  | None => ret tt
  end ;;;
  lvl <- GetCurrentTransactionNestLevel ;;
  remove_variables_level (mkLevels lvl) ;;;
  remove_packages_level (mkLevels lvl).

Definition pgvTransCallback (event : XactEvent) : M unit :=
  cs <- gets changesStack ;;
  match cs with
  | Some _ =>
      match event with
      | XACT_EVENT_PRE_COMMIT => processChanges RELEASE_SAVEPOINT false
      | XACT_EVENT_ABORT => processChanges ROLLBACK_TO_SAVEPOINT false
      | XACT_EVENT_PARALLEL_PRE_COMMIT => processChanges RELEASE_SAVEPOINT false
      | XACT_EVENT_PARALLEL_ABORT => processChanges ROLLBACK_TO_SAVEPOINT false
      | _ => ret tt
      end
  | None => ret tt
  end ;;;
  match event with
  | XACT_EVENT_PRE_COMMIT | XACT_EVENT_ABORT => freeStatsLists
  | _ => ret tt
  end.

(** The hook runs the executor's own end first, which has no effect on the
    statics. *)
Definition variable_ExecutorEnd : M unit := freeStatsLists.

(** ** Scalar variables *)

Definition variable_set (package_name var_name : text) (t : Oid) (v : Datum)
    (isnull is_trans : bool) : M unit :=
  pkey <- createPackage package_name is_trans ;;
  variable <- createVariableInternal pkey var_name t false is_trans ;;
  st <- GetActualState variable ;;
  match body st with
  | VarBody (scalar sc) =>
      updActualState variable
        (with_body (VarBody (scalar (mkScalarVar
           (if isnull then 0 else datumCopy v (typbyval sc) (typlen sc))
           isnull (typbyval sc) (typlen sc)))))
  | _ => undefined
  end.

(** The result is the datum and [*is_null]. *)
Definition variable_get (package_name var_name : text) (t : Oid) (strict : bool) :
    M (Datum * bool) :=
  package <- getPackage package_name strict ;;
  match package with
  | None => ret (0, true)
  | Some pkey =>
      variable <- getVariableInternal pkey var_name t false strict ;;
      match variable with
      | None => ret (0, true)
      | Some o =>
          st <- GetActualState o ;;
          match body st with
          | VarBody (scalar sc) => ret (value sc, is_null sc)
          | _ => undefined
          end
      end
  end.

Definition variable_exists (package_name var_name : text) : M bool :=
  package <- getPackage package_name false ;;
  match package with
  | None => ret false
  | Some pkey =>
      key <- getKeyFromName var_name ;;
      pack <- readPackage pkey ;;
      let in_regular := match varHashRegular pack with
                        | Some h => bool_decide (is_Some (h !! key))
                        | None => false
                        end in
      let in_transact := match varHashTransact pack with
                         | Some h => bool_decide (is_Some (h !! key))
                         | None => false
                         end in
      if in_regular || in_transact then
        st <- GetActualState (VarPtr pkey (negb in_regular) key) ;;
        ret (is_valid st)
      else ret false
  end.

Definition package_exists (package_name : text) : M bool :=
  package <- getPackage package_name false ;;
  ret (bool_decide (is_Some package)).

(** ** Scans over a record variable *)

Definition RECORDOID : Oid := 2249.

Inductive SRFResult :=
| SRF_RETURN_NEXT (t : Datum)
| SRF_RETURN_DONE.

(** The host's [hash_seq_init] and [hash_seq_search].  The scan returns the
    rows that the table held when the scan began, and ends itself after the
    last of them. *)
Definition hash_seq_init (status : nat) (rows : list HashRecordEntry) : M unit :=
  modify (fun s =>
    set_seq_scans (status :: seq_scans s)
      (set_seq_status (<[status := mkHashSeqStatus rows]> (seq_status s)) s)).

Definition hash_seq_search (status : nat) : M (option HashRecordEntry) :=
  blocks <- gets seq_status ;;
  st <- deref (blocks !! status) ;;
  match remaining st with
  | [] => hash_seq_term status ;;; ret None
  | item :: rest =>
      modify (fun s => set_seq_status (<[status := mkHashSeqStatus rest]> (seq_status s)) s) ;;;
      ret (Some item)
  end.

(** One call of the set-returning function; [call] names the
    [FuncCallContext], which exists from [SRF_FIRSTCALL_INIT] to
    [SRF_RETURN_DONE]. *)
Definition variable_select (package_name var_name : text) (call : nat) : M SRFResult :=
  package <- getPackage package_name true ;;
  pkey <- deref package ;;
  variable <- getVariableInternal pkey var_name RECORDOID true true ;;
  o <- deref variable ;;
  cells <- gets user_fctx ;;
  match cells !! call with
  | None =>
      st <- GetActualState o ;;
      match body st with
      | VarBody (record rv) =>
          rows <- deref (rhash rv) ;;
          rstat <- gets (fun s => fresh (dom (seq_status s))) ;;
          hash_seq_init rstat rows ;;;
          modify (fun s => set_user_fctx (<[call := Some rstat]> (user_fctx s)) s) ;;;
          lvl <- GetCurrentTransactionNestLevel ;;
          modify (fun s =>
            set_variables_stats
              (mkVariableStatEntry rstat o pkey (mkLevels lvl) (Some call)
                 :: variables_stats s) s)
      | _ => undefined
      end
  | Some _ => ret tt
  end ;;;
  cells <- gets user_fctx ;;
  cell <- deref (cells !! call) ;;
  match cell with
  | None =>
      modify (fun s => set_user_fctx (delete call (user_fctx s)) s) ;;;
      ret SRF_RETURN_DONE
  | Some rstat =>
      item <- hash_seq_search rstat ;;
      match item with
      | Some it => ret (SRF_RETURN_NEXT (tuple it))
      | None =>
          remove_variables_status rstat ;;;
          modify (fun s => set_user_fctx (delete call (user_fctx s)) s) ;;;
          ret SRF_RETURN_DONE
      end
  end.

(** ** The host's transaction protocol

    What xact.c does around the callbacks: a callback of a subtransaction
    runs at the nesting level of that subtransaction, and the level drops
    after the commit or abort callback returned. *)

Definition StartTransaction : M unit := modify (set_nestLevel 1).

Definition StartSubTransaction : M unit :=
  modify (fun s => set_nestLevel (nestLevel s + 1) s) ;;;
  pgvSubTransCallback SUBXACT_EVENT_START_SUB.

Definition CommitSubTransaction : M unit :=
  pgvSubTransCallback SUBXACT_EVENT_PRE_COMMIT_SUB ;;;
  pgvSubTransCallback SUBXACT_EVENT_COMMIT_SUB ;;;
  modify (fun s => set_nestLevel (nestLevel s - 1) s).

Definition AbortSubTransaction : M unit :=
  pgvSubTransCallback SUBXACT_EVENT_ABORT_SUB ;;;
  modify (fun s => set_nestLevel (nestLevel s - 1) s).

Definition CommitTransaction : M unit :=
  pgvTransCallback XACT_EVENT_PRE_COMMIT ;;;
  pgvTransCallback XACT_EVENT_COMMIT ;;;
  modify (set_nestLevel 0).

Definition AbortTransaction : M unit :=
  pgvTransCallback XACT_EVENT_ABORT ;;;
  modify (set_nestLevel 0).

(** * Properties *)

Arguments bind {A B} c k s /.
Arguments ret {A} a s /.
Arguments ereport {A} e s /.
Arguments undefined {A} s /.
Arguments gets {A} f s /.
Arguments modify f s /.
Arguments deref {A} o /.

(** ** Reads over writes *)

Lemma findPackage_updPackage k k' f s :
  findPackage k (updPackage k' f s)
  = if decide (k' = k) then f <$> findPackage k s else findPackage k s.
Proof.
  unfold findPackage, updPackage. destruct (packagesHash s) as [h|] eqn:E; cbn.
  - rewrite lookup_alter. repeat case_decide; congruence.
  - rewrite E. by case_decide.
Qed.

Lemma findPackage_updPackage_eq k f s :
  findPackage k (updPackage k f s) = f <$> findPackage k s.
Proof. rewrite findPackage_updPackage. by rewrite decide_True. Qed.

Lemma findPackage_updPackage_ne k k' f s :
  k' <> k -> findPackage k (updPackage k' f s) = findPackage k s.
Proof. intros. rewrite findPackage_updPackage. by rewrite decide_False. Qed.

Lemma findPackage_storePackage k k' pack s :
  findPackage k (storePackage k' pack s)
  = if decide (k' = k) then Some pack else findPackage k s.
Proof.
  unfold findPackage, storePackage. cbn. rewrite lookup_insert.
  case_decide; [done|]. by destruct (packagesHash s).
Qed.

Lemma findPackage_storePackage_eq k pack s :
  findPackage k (storePackage k pack s) = Some pack.
Proof. rewrite findPackage_storePackage. by rewrite decide_True. Qed.

Lemma findPackage_deletePackage k k' s :
  findPackage k (deletePackage k' s)
  = if decide (k' = k) then None else findPackage k s.
Proof.
  unfold findPackage, deletePackage. destruct (packagesHash s) as [h|] eqn:E; cbn.
  - rewrite lookup_delete. by case_decide.
  - rewrite E. by case_decide.
Qed.

Lemma fields_updPackage k f s :
  nestLevel (updPackage k f s) = nestLevel s /\
  changesStack (updPackage k f s) = changesStack s /\
  variables_stats (updPackage k f s) = variables_stats s /\
  packages_stats (updPackage k f s) = packages_stats s /\
  LastPackage (updPackage k f s) = LastPackage s /\
  LastVariable (updPackage k f s) = LastVariable s /\
  seq_scans (updPackage k f s) = seq_scans s /\
  seq_status (updPackage k f s) = seq_status s /\
  user_fctx (updPackage k f s) = user_fctx s /\
  typcache (updPackage k f s) = typcache s.
Proof. unfold updPackage. by destruct (packagesHash s). Qed.

Lemma nestLevel_updPackage k f s : nestLevel (updPackage k f s) = nestLevel s.
Proof. apply fields_updPackage. Qed.

Lemma changesStack_updPackage k f s : changesStack (updPackage k f s) = changesStack s.
Proof. apply fields_updPackage. Qed.

Lemma typcache_updPackage k f s : typcache (updPackage k f s) = typcache s.
Proof. apply fields_updPackage. Qed.

Lemma variables_stats_updPackage k f s :
  variables_stats (updPackage k f s) = variables_stats s.
Proof. apply fields_updPackage. Qed.

Lemma fields_deletePackage k s :
  nestLevel (deletePackage k s) = nestLevel s /\
  changesStack (deletePackage k s) = changesStack s /\
  variables_stats (deletePackage k s) = variables_stats s /\
  packages_stats (deletePackage k s) = packages_stats s /\
  LastPackage (deletePackage k s) = LastPackage s /\
  LastVariable (deletePackage k s) = LastVariable s /\
  seq_scans (deletePackage k s) = seq_scans s /\
  seq_status (deletePackage k s) = seq_status s /\
  user_fctx (deletePackage k s) = user_fctx s /\
  typcache (deletePackage k s) = typcache s.
Proof. unfold deletePackage. by destruct (packagesHash s). Qed.

Lemma fields_storePackage k pack s :
  nestLevel (storePackage k pack s) = nestLevel s /\
  changesStack (storePackage k pack s) = changesStack s /\
  variables_stats (storePackage k pack s) = variables_stats s /\
  packages_stats (storePackage k pack s) = packages_stats s /\
  LastPackage (storePackage k pack s) = LastPackage s /\
  LastVariable (storePackage k pack s) = LastVariable s /\
  seq_scans (storePackage k pack s) = seq_scans s /\
  seq_status (storePackage k pack s) = seq_status s /\
  user_fctx (storePackage k pack s) = user_fctx s /\
  typcache (storePackage k pack s) = typcache s.
Proof. done. Qed.

Lemma nestLevel_storePackage k pack s : nestLevel (storePackage k pack s) = nestLevel s.
Proof. done. Qed.

Lemma changesStack_storePackage k pack s :
  changesStack (storePackage k pack s) = changesStack s.
Proof. done. Qed.

Lemma variables_stats_storePackage k pack s :
  variables_stats (storePackage k pack s) = variables_stats s.
Proof. done. Qed.

Lemma packages_stats_storePackage k pack s :
  packages_stats (storePackage k pack s) = packages_stats s.
Proof. done. Qed.

Lemma typcache_storePackage k pack s : typcache (storePackage k pack s) = typcache s.
Proof. done. Qed.

Lemma nestLevel_deletePackage k s : nestLevel (deletePackage k s) = nestLevel s.
Proof. apply fields_deletePackage. Qed.

Lemma changesStack_deletePackage k s : changesStack (deletePackage k s) = changesStack s.
Proof. apply fields_deletePackage. Qed.

Lemma variables_stats_deletePackage k s :
  variables_stats (deletePackage k s) = variables_stats s.
Proof. apply fields_deletePackage. Qed.

Lemma packages_stats_deletePackage k s :
  packages_stats (deletePackage k s) = packages_stats s.
Proof. apply fields_deletePackage. Qed.

Lemma typcache_deletePackage k s : typcache (deletePackage k s) = typcache s.
Proof. apply fields_deletePackage. Qed.

Lemma fields_modObject o g s :
  nestLevel (modObject o g s) = nestLevel s /\
  changesStack (modObject o g s) = changesStack s /\
  variables_stats (modObject o g s) = variables_stats s /\
  packages_stats (modObject o g s) = packages_stats s /\
  LastPackage (modObject o g s) = LastPackage s /\
  LastVariable (modObject o g s) = LastVariable s /\
  seq_scans (modObject o g s) = seq_scans s /\
  seq_status (modObject o g s) = seq_status s /\
  user_fctx (modObject o g s) = user_fctx s /\
  typcache (modObject o g s) = typcache s.
Proof. destruct o; apply fields_updPackage. Qed.

Lemma set_changesStack_updPackage c k f s :
  set_changesStack c (updPackage k f s) = updPackage k f (set_changesStack c s).
Proof. unfold updPackage. cbn. by destruct (packagesHash s). Qed.

Lemma findPackage_set_changesStack k c s :
  findPackage k (set_changesStack c s) = findPackage k s.
Proof. reflexivity. Qed.

Lemma findPackage_set_cache k lp lv s :
  findPackage k (set_cache lp lv s) = findPackage k s.
Proof. reflexivity. Qed.

Lemma findPackage_set_variables_stats k l s :
  findPackage k (set_variables_stats l s) = findPackage k s.
Proof. reflexivity. Qed.

Lemma findPackage_set_packages_stats k l s :
  findPackage k (set_packages_stats l s) = findPackage k s.
Proof. reflexivity. Qed.

Lemma findPackage_set_seq_scans k l s :
  findPackage k (set_seq_scans l s) = findPackage k s.
Proof. reflexivity. Qed.

Lemma findPackage_set_seq_status k m s :
  findPackage k (set_seq_status m s) = findPackage k s.
Proof. reflexivity. Qed.

Lemma findPackage_set_user_fctx k m s :
  findPackage k (set_user_fctx m s) = findPackage k s.
Proof. reflexivity. Qed.

Lemma findPackage_set_nestLevel k n s :
  findPackage k (set_nestLevel n s) = findPackage k s.
Proof. reflexivity. Qed.

Lemma findPackage_set_packagesHash_new k s :
  packagesHash s = None -> findPackage k (set_packagesHash (Some ∅) s) = findPackage k s.
Proof. intros E. unfold findPackage. cbn. by rewrite E, lookup_empty. Qed.

Lemma packagesHash_lookup k s :
  match packagesHash s with Some tbl => tbl !! k | None => None end = findPackage k s.
Proof. reflexivity. Qed.

(** A write that puts back what was there. *)
Lemma updPackage_same k f s :
  (forall pack, findPackage k s = Some pack -> f pack = pack) -> updPackage k f s = s.
Proof.
  unfold findPackage, updPackage. destruct s as [lvl [h|] ? ? ? ? ? ? ? ? ?]; cbn; [|done].
  intros H. unfold set_packagesHash. cbn. do 2 f_equal.
  apply map_eq. intros i. destruct (decide (i = k)) as [->|].
  - rewrite lookup_alter_eq. destruct (h !! k) eqn:E; cbn; [|done]. by rewrite H.
  - by rewrite lookup_alter_ne.
Qed.

(** Whether the table of packages exists: [packagesHash != NULL]. *)
Definition hash_present (s : Session) : bool := bool_decide (is_Some (packagesHash s)).

Lemma hash_present_updPackage k f s : hash_present (updPackage k f s) = hash_present s.
Proof. unfold hash_present, updPackage. by destruct (packagesHash s) eqn:E; rewrite ?E. Qed.

Lemma hash_present_storePackage k pack s : hash_present (storePackage k pack s) = true.
Proof. done. Qed.

Lemma hash_present_deletePackage k s : hash_present (deletePackage k s) = hash_present s.
Proof. unfold hash_present, deletePackage. by destruct (packagesHash s) eqn:E; rewrite ?E. Qed.

Lemma hash_present_findPackage k pack s : findPackage k s = Some pack -> hash_present s = true.
Proof. unfold hash_present, findPackage. by destruct (packagesHash s). Qed.

Lemma hash_present_set_changesStack c s : hash_present (set_changesStack c s) = hash_present s.
Proof. done. Qed.

Lemma hash_present_set_cache lp lv s : hash_present (set_cache lp lv s) = hash_present s.
Proof. done. Qed.

Lemma hash_present_set_nestLevel n s : hash_present (set_nestLevel n s) = hash_present s.
Proof. done. Qed.

Lemma hash_present_set_variables_stats l s :
  hash_present (set_variables_stats l s) = hash_present s.
Proof. done. Qed.

Lemma hash_present_set_packages_stats l s :
  hash_present (set_packages_stats l s) = hash_present s.
Proof. done. Qed.

Lemma findPackage_set_packagesHash_None k s : findPackage k (set_packagesHash None s) = None.
Proof. done. Qed.

(** The table when it exists; it is empty only when it holds no package. *)
Lemma packagesHash_cases s :
  hash_present s = true ->
  exists tbl, packagesHash s = Some tbl /\
    (size tbl = 0%nat -> forall k, findPackage k s = None).
Proof.
  unfold hash_present, findPackage. destruct (packagesHash s) as [tbl|]; [|done].
  intros _. exists tbl. split; [done|]. intros Hz k.
  apply map_size_empty_iff in Hz. subst tbl. apply lookup_empty.
Qed.

Global Opaque findPackage updPackage storePackage deletePackage.

Create Rewrite HintDb pgv.
#[global] Hint Rewrite nestLevel_storePackage changesStack_storePackage
  variables_stats_storePackage packages_stats_storePackage typcache_storePackage
  nestLevel_deletePackage changesStack_deletePackage variables_stats_deletePackage
  packages_stats_deletePackage typcache_deletePackage : pgv.

#[global] Hint Rewrite findPackage_updPackage_eq findPackage_storePackage_eq
  nestLevel_updPackage changesStack_updPackage typcache_updPackage
  variables_stats_updPackage findPackage_set_changesStack findPackage_set_cache
  findPackage_set_variables_stats findPackage_set_packages_stats
  findPackage_set_seq_scans findPackage_set_seq_status findPackage_set_user_fctx
  findPackage_set_nestLevel : pgv.

(** *** Objects *)

Lemma findPackage_modObject_pack k g s :
  findPackage k (modObject (PackPtr k) g s) = on_transObject g <$> findPackage k s.
Proof. cbn. apply findPackage_updPackage_eq. Qed.

Lemma findPackage_modObject_var k t v g s :
  findPackage k (modObject (VarPtr k t v) g s)
  = updVariable t v (on_var_transObject g) <$> findPackage k s.
Proof. cbn. apply findPackage_updPackage_eq. Qed.

Definition ptrPackage (o : ObjPtr) : string :=
  match o with PackPtr k => k | VarPtr k _ _ => k end.

Lemma findPackage_modObject_ne k o g s :
  ptrPackage o <> k -> findPackage k (modObject o g s) = findPackage k s.
Proof. destruct o; cbn; intros; by rewrite findPackage_updPackage_ne. Qed.

Lemma pack_htab_updVariable t v g pack t' :
  pack_htab (updVariable t v g pack) t'
  = if decide (t = t') then alter g v <$> pack_htab pack t' else pack_htab pack t'.
Proof.
  unfold updVariable. destruct pack as [obj r tr]. destruct t, t'; cbn;
    by repeat (case_match; cbn; simplify_eq).
Qed.

Lemma transObject_updVariable t v g pack :
  transObject (updVariable t v g pack) = transObject pack.
Proof. unfold updVariable. by destruct pack as [obj r tr], t; cbn; case_match. Qed.

Lemma findVariable_modObject p t v o g s :
  findVariable p t v (modObject o g s)
  = if decide (o = VarPtr p t v) then on_var_transObject g <$> findVariable p t v s
    else findVariable p t v s.
Proof.
  unfold findVariable. destruct o as [k|k t' v'].
  - rewrite decide_False by done. cbn.
    rewrite findPackage_updPackage. case_decide; [subst|done].
    by destruct (findPackage p s) as [[]|].
  - cbn. rewrite findPackage_updPackage. case_decide as Hk.
    + subst k. destruct (findPackage p s) as [pack|] eqn:E; cbn.
      * rewrite pack_htab_updVariable. case_decide as Ht.
        -- subst t'. destruct (pack_htab pack t) as [h|]; cbn.
           ++ rewrite lookup_alter. repeat case_decide; simplify_eq; done.
           ++ by case_decide.
        -- rewrite decide_False by congruence. done.
      * by case_decide.
    + by rewrite decide_False by congruence.
Qed.

Lemma getObject_modObject o o' g s :
  getObject o (modObject o' g s)
  = if decide (o' = o) then g <$> getObject o s else getObject o s.
Proof.
  destruct o as [k|k t v].
  - unfold getObject. destruct o' as [k'|k' t' v'].
    + cbn. rewrite findPackage_updPackage.
      repeat case_decide; simplify_eq; try done. by destruct (findPackage k s).
    + rewrite decide_False by done. cbn. rewrite findPackage_updPackage.
      case_decide; [subst|done]. destruct (findPackage k s); cbn; [|done].
      by rewrite transObject_updVariable.
  - unfold getObject. rewrite findVariable_modObject.
    case_decide; [|done]. by destruct (findVariable k t v s).
Qed.

Lemma getObject_modObject_eq o g s : getObject o (modObject o g s) = g <$> getObject o s.
Proof. rewrite getObject_modObject. by rewrite decide_True. Qed.

Lemma getObject_modObject_ne o o' g s :
  o' <> o -> getObject o (modObject o' g s) = getObject o s.
Proof. intros. rewrite getObject_modObject. by rewrite decide_False. Qed.

Lemma findVariable_modObject_eq p t v g s :
  findVariable p t v (modObject (VarPtr p t v) g s)
  = on_var_transObject g <$> findVariable p t v s.
Proof. rewrite findVariable_modObject. by rewrite decide_True. Qed.

Lemma findVariable_modObject_ne p t v o g s :
  o <> VarPtr p t v -> findVariable p t v (modObject o g s) = findVariable p t v s.
Proof. intros. rewrite findVariable_modObject. by rewrite decide_False. Qed.

Lemma nestLevel_modObject o g s : nestLevel (modObject o g s) = nestLevel s.
Proof. apply fields_modObject. Qed.

Lemma changesStack_modObject o g s : changesStack (modObject o g s) = changesStack s.
Proof. apply fields_modObject. Qed.

Lemma typcache_modObject o g s : typcache (modObject o g s) = typcache s.
Proof. apply fields_modObject. Qed.

Lemma getObject_set_changesStack o c s : getObject o (set_changesStack c s) = getObject o s.
Proof. by destruct o. Qed.

Lemma findVariable_set_changesStack p t v c s :
  findVariable p t v (set_changesStack c s) = findVariable p t v s.
Proof. done. Qed.

Lemma getObject_set_cache o lp lv s : getObject o (set_cache lp lv s) = getObject o s.
Proof. by destruct o. Qed.

Lemma findVariable_set_cache p t v lp lv s :
  findVariable p t v (set_cache lp lv s) = findVariable p t v s.
Proof. done. Qed.

Lemma getObject_PackPtr k s : getObject (PackPtr k) s = transObject <$> findPackage k s.
Proof. done. Qed.

Lemma getObject_VarPtr p t v s :
  getObject (VarPtr p t v) s = var_transObject <$> findVariable p t v s.
Proof. done. Qed.

Lemma objStates_modStates o o' h s :
  objStates o (modStates o' h s)
  = if decide (o' = o) then h <$> objStates o s else objStates o s.
Proof.
  unfold objStates, modStates. rewrite getObject_modObject.
  case_decide; [|done]. by destruct (getObject o s).
Qed.

Lemma objStates_modStates_eq o h s :
  objStates o (modStates o h s) = h <$> objStates o s.
Proof. rewrite objStates_modStates. by rewrite decide_True. Qed.

Lemma objStates_modStates_ne o o' h s :
  o' <> o -> objStates o (modStates o' h s) = objStates o s.
Proof. intros. rewrite objStates_modStates. by rewrite decide_False. Qed.

(** The entry of a variable after a write to its dlist. *)
Definition var_with_states (h : list TransState -> list TransState)
    (var : VariableEntry) : VariableEntry :=
  mkVariable
    (mkTransObject (name (var_transObject var)) (h (states (var_transObject var))))
    (package var) (typid var) (is_record var) (is_transactional var) (is_deleted var).

Definition pack_with_states (h : list TransState -> list TransState)
    (pack : Package) : Package :=
  mkPackage
    (mkTransObject (name (transObject pack)) (h (states (transObject pack))))
    (varHashRegular pack) (varHashTransact pack).

Lemma findVariable_modStates p t v o h s :
  findVariable p t v (modStates o h s)
  = if decide (o = VarPtr p t v) then var_with_states h <$> findVariable p t v s
    else findVariable p t v s.
Proof. unfold modStates. by rewrite findVariable_modObject. Qed.

Lemma findVariable_modStates_eq p t v h s :
  findVariable p t v (modStates (VarPtr p t v) h s)
  = var_with_states h <$> findVariable p t v s.
Proof. rewrite findVariable_modStates. by rewrite decide_True. Qed.

Lemma findVariable_modStates_ne p t v o h s :
  o <> VarPtr p t v -> findVariable p t v (modStates o h s) = findVariable p t v s.
Proof. intros. rewrite findVariable_modStates. by rewrite decide_False. Qed.

Lemma findPackage_modStates_pack k h s :
  findPackage k (modStates (PackPtr k) h s) = pack_with_states h <$> findPackage k s.
Proof. unfold modStates. by rewrite findPackage_modObject_pack. Qed.

Lemma findPackage_modStates_var k t v h s :
  findPackage k (modStates (VarPtr k t v) h s)
  = updVariable t v (var_with_states h) <$> findPackage k s.
Proof. unfold modStates. by rewrite findPackage_modObject_var. Qed.

Lemma findPackage_modStates_ne k o h s :
  ptrPackage o <> k -> findPackage k (modStates o h s) = findPackage k s.
Proof. unfold modStates. apply findPackage_modObject_ne. Qed.

Lemma fields_modStates o h s :
  nestLevel (modStates o h s) = nestLevel s /\
  changesStack (modStates o h s) = changesStack s /\
  variables_stats (modStates o h s) = variables_stats s /\
  packages_stats (modStates o h s) = packages_stats s /\
  LastPackage (modStates o h s) = LastPackage s /\
  LastVariable (modStates o h s) = LastVariable s /\
  seq_scans (modStates o h s) = seq_scans s /\
  seq_status (modStates o h s) = seq_status s /\
  user_fctx (modStates o h s) = user_fctx s /\
  typcache (modStates o h s) = typcache s.
Proof. apply fields_modObject. Qed.

Lemma nestLevel_modStates o h s : nestLevel (modStates o h s) = nestLevel s.
Proof. apply fields_modStates. Qed.

Lemma changesStack_modStates o h s : changesStack (modStates o h s) = changesStack s.
Proof. apply fields_modStates. Qed.

Lemma typcache_modStates o h s : typcache (modStates o h s) = typcache s.
Proof. apply fields_modStates. Qed.

Lemma objStates_set_changesStack o c s : objStates o (set_changesStack c s) = objStates o s.
Proof. unfold objStates. by rewrite getObject_set_changesStack. Qed.

Lemma objStates_set_cache o lp lv s : objStates o (set_cache lp lv s) = objStates o s.
Proof. unfold objStates. by rewrite getObject_set_cache. Qed.

Lemma objStates_PackPtr k s :
  objStates (PackPtr k) s = (fun pack => states (transObject pack)) <$> findPackage k s.
Proof. unfold objStates. rewrite getObject_PackPtr. by destruct (findPackage k s). Qed.

Lemma objStates_VarPtr p t v s :
  objStates (VarPtr p t v) s
  = (fun var => states (var_transObject var)) <$> findVariable p t v s.
Proof. unfold objStates. rewrite getObject_VarPtr. by destruct (findVariable p t v s). Qed.

(** *** Writes to the tables of a package *)

Lemma objStates_PackPtr_set_pack_htab k k' t x s :
  objStates (PackPtr k) (updPackage k' (set_pack_htab t x) s) = objStates (PackPtr k) s.
Proof.
  rewrite !objStates_PackPtr, findPackage_updPackage.
  case_decide; [subst|done]. by destruct (findPackage k s) as [[]|], t.
Qed.

Lemma findVariable_unfold p t v s :
  findVariable p t v s
  = match findPackage p s with
    | Some pack => match pack_htab pack t with Some h => h !! v | None => None end
    | None => None
    end.
Proof. done. Qed.

Lemma findVariable_set_pack_htab p t v k t' x s :
  findVariable p t v (updPackage k (set_pack_htab t' x) s)
  = if decide (k = p /\ t' = t)
    then match findPackage p s with
         | Some _ => match x with Some h => h !! v | None => None end
         | None => None
         end
    else findVariable p t v s.
Proof.
  rewrite !findVariable_unfold, findPackage_updPackage.
  destruct (decide (k = p)) as [->|Hk].
  - destruct (findPackage p s) as [[obj r tr]|]; cbn; [|by case_decide].
    destruct t, t'; cbn; case_decide as Hd; try done; try (destruct Hd; done);
      exfalso; apply Hd; done.
  - rewrite decide_False; [done|]. by intros [? _].
Qed.

Lemma findVariable_set_pack_htab_eq p t v x s :
  findVariable p t v (updPackage p (set_pack_htab t x) s)
  = match findPackage p s with
    | Some _ => match x with Some h => h !! v | None => None end
    | None => None
    end.
Proof. rewrite findVariable_set_pack_htab. by rewrite decide_True. Qed.

Lemma findVariable_set_pack_htab_ne p t v k t' x s :
  k <> p \/ t' <> t ->
  findVariable p t v (updPackage k (set_pack_htab t' x) s) = findVariable p t v s.
Proof. intros H. rewrite findVariable_set_pack_htab. rewrite decide_False; [done|]. tauto. Qed.

Lemma objStates_VarPtr_set_pack_htab p t v k t' x s :
  objStates (VarPtr p t v) (updPackage k (set_pack_htab t' x) s)
  = if decide (k = p /\ t' = t)
    then match findPackage p s with
         | Some _ =>
             match x with
             | Some h => (fun var => states (var_transObject var)) <$> h !! v
             | None => None
             end
         | None => None
         end
    else objStates (VarPtr p t v) s.
Proof.
  rewrite !objStates_VarPtr, findVariable_set_pack_htab.
  case_decide; [|done]. destruct (findPackage p s); [|done]. by destruct x.
Qed.

Lemma objStates_PackPtr_storePackage k k' pack s :
  objStates (PackPtr k) (storePackage k' pack s)
  = if decide (k' = k) then Some (states (transObject pack))
    else objStates (PackPtr k) s.
Proof. rewrite !objStates_PackPtr, findPackage_storePackage. by case_decide. Qed.

Lemma objStates_set_packagesHash_new o s :
  packagesHash s = None -> objStates o (set_packagesHash (Some ∅) s) = objStates o s.
Proof.
  intros E. destruct o as [k|k t v].
  - by rewrite !objStates_PackPtr, findPackage_set_packagesHash_new.
  - by rewrite !objStates_VarPtr, !findVariable_unfold, findPackage_set_packagesHash_new.
Qed.

Lemma modStates_same o l s :
  objStates o s = Some l -> modStates o (fun _ => l) s = s.
Proof.
  intros H. destruct o as [k|k t v]; unfold modStates, modObject.
  - rewrite objStates_PackPtr in H. apply updPackage_same. intros pack Hp.
    rewrite Hp in H. cbn in H. destruct pack as [[nm st] r tr]. cbn in *. by simplify_eq.
  - rewrite objStates_VarPtr, findVariable_unfold in H. apply updPackage_same.
    intros pack Hp. rewrite Hp in H. unfold updVariable.
    destruct (pack_htab pack t) as [h|] eqn:Eh; [|done].
    assert (alter (on_var_transObject
                     (fun obj => {| name := name obj; states := l |})) v h = h) as ->.
    { apply map_eq. intros i. destruct (decide (i = v)) as [->|].
      - rewrite lookup_alter_eq.
        destruct (h !! v) as [[[nm st] ? ? ? ? ?]|]; cbn in *; [|done]. by simplify_eq.
      - by rewrite lookup_alter_ne. }
    destruct pack as [obj r tr], t; cbn in *; by subst.
Qed.

Lemma set_changesStack_modStates c o h s :
  set_changesStack c (modStates o h s) = modStates o h (set_changesStack c s).
Proof. destruct o; unfold modStates, modObject; apply set_changesStack_updPackage. Qed.

Lemma copyBody_package n : copyBody TRANS_PACKAGE (PackBody n) = Some (PackBody n).
Proof. done. Qed.

#[global] Hint Rewrite copyBody_package : pgv.

Lemma pack_htab_true pack : pack_htab pack true = varHashTransact pack.
Proof. done. Qed.

Lemma pack_htab_false pack : pack_htab pack false = varHashRegular pack.
Proof. done. Qed.

Lemma pack_htab_set_eq t x pack : pack_htab (set_pack_htab t x pack) t = x.
Proof. by destruct t. Qed.

Lemma pack_htab_set_ne t x pack :
  pack_htab (set_pack_htab t x pack) (negb t) = pack_htab pack (negb t).
Proof. by destruct t. Qed.

Lemma pack_htab_set_ne' t x pack :
  pack_htab (set_pack_htab (negb t) x pack) t = pack_htab pack t.
Proof. by destruct t. Qed.

Lemma transObject_set_pack_htab t x pack :
  transObject (set_pack_htab t x pack) = transObject pack.
Proof. by destruct t. Qed.

#[global] Hint Rewrite pack_htab_true pack_htab_false pack_htab_set_eq pack_htab_set_ne pack_htab_set_ne'
  transObject_set_pack_htab : pgv.

Lemma modStates_as_updPackage o h s :
  exists f, modStates o h s = updPackage (ptrPackage o) f s.
Proof. destruct o; eexists; reflexivity. Qed.

Lemma hash_present_modStates o h s : hash_present (modStates o h s) = hash_present s.
Proof.
  destruct (modStates_as_updPackage o h s) as [f ->]. apply hash_present_updPackage.
Qed.

#[global] Hint Rewrite hash_present_updPackage hash_present_storePackage
  hash_present_deletePackage hash_present_set_changesStack hash_present_set_cache
  hash_present_set_nestLevel hash_present_set_variables_stats
  hash_present_set_packages_stats hash_present_modStates
  findPackage_set_packagesHash_None : pgv.

Global Opaque modObject modStates.
Global Arguments getObject : simpl never.
Global Arguments findVariable : simpl never.
Global Arguments objStates : simpl never.

#[global] Hint Rewrite objStates_PackPtr_set_pack_htab findVariable_set_pack_htab_eq : pgv.
#[global] Hint Rewrite objStates_modStates_eq findVariable_modStates_eq
  findPackage_modStates_pack findPackage_modStates_var nestLevel_modStates
  changesStack_modStates typcache_modStates objStates_set_changesStack
  objStates_set_cache : pgv.

#[global] Hint Rewrite findPackage_modObject_pack findPackage_modObject_var
  getObject_modObject_eq findVariable_modObject_eq nestLevel_modObject
  changesStack_modObject typcache_modObject getObject_set_changesStack
  findVariable_set_changesStack getObject_set_cache findVariable_set_cache : pgv.

(** The fields outside the package table, after a write to the table. *)
Ltac store_fields :=
  repeat match goal with
  | |- context [modObject ?o ?g ?s] =>
      let H := fresh in
      pose proof (fields_modObject o g s) as H;
      destruct H as (? & ? & ? & ? & ? & ? & ? & ? & ? & ?);
      generalize dependent (modObject o g s); intros
  | |- context [modStates ?o ?h ?s] =>
      let H := fresh in
      pose proof (fields_modStates o h s) as H;
      destruct H as (? & ? & ? & ? & ? & ? & ? & ? & ? & ?);
      generalize dependent (modStates o h s); intros
  | |- context [updPackage ?k ?f ?s] =>
      let H := fresh in
      pose proof (fields_updPackage k f s) as H;
      destruct H as (? & ? & ? & ? & ? & ? & ? & ? & ? & ?);
      generalize dependent (updPackage k f s); intros
  | |- context [deletePackage ?k ?s] =>
      let H := fresh in
      pose proof (fields_deletePackage k s) as H;
      destruct H as (? & ? & ? & ? & ? & ? & ? & ? & ? & ?);
      generalize dependent (deletePackage k s); intros
  | |- context [storePackage ?k ?p ?s] =>
      let H := fresh in
      pose proof (fields_storePackage k p s) as H;
      destruct H as (? & ? & ? & ? & ? & ? & ? & ? & ? & ?);
      generalize dependent (storePackage k p s); intros
  end.

(** Symbolic execution: compute, then read through the writes. *)
Ltac pgv := repeat first [ progress cbn -[Z.sub Z.add] | progress autorewrite with pgv ].

(** ** The engine's steps as equations *)

Lemma bind_inv {A B} (c : M A) (k : A -> M B) s b s' :
  bind c k s = (Done b, s') -> exists a s1, c s = (Done a, s1) /\ k a s1 = (Done b, s').
Proof. cbn. destruct (c s) as [[a| |] s1]; [eauto|done..]. Qed.

Lemma bind_run {A B} (c : M A) (k : A -> M B) s a s1 :
  c s = (Done a, s1) -> bind c k s = k a s1.
Proof. intros H. cbn. by rewrite H. Qed.

Ltac leaf :=
  cbn;
  repeat (match goal with
          | |- context [match objStates ?o ?s with _ => _ end] =>
              destruct (objStates o s) as [[|? [|? ?]]|]
          | |- context [match findPackage ?k ?s with _ => _ end] =>
              destruct (findPackage k s)
          | |- context [match findVariable ?p ?t ?v ?s with _ => _ end] =>
              destruct (findVariable p t v s)
          | |- context [match changesStack ?s with _ => _ end] =>
              destruct (changesStack s) as [[|? ?]|]
          | |- context [match ?x with _ => _ end] => destruct x
          end; cbn);
  try done.

Lemma getKeyFromName_eq nm s :
  getKeyFromName nm s
  = if VARSIZE_ANY_EXHDR nm >=? 63 then (Raise (NameTooLong nm), s) else (Done nm, s).
Proof. unfold getKeyFromName, NAMEDATALEN. by destruct (_ >=? _). Qed.

Lemma readPackage_eq k s :
  readPackage k s
  = match findPackage k s with Some p => (Done p, s) | None => (Undefined, s) end.
Proof. unfold readPackage. leaf. Qed.

Lemma readVariable_eq p t v s :
  readVariable (VarPtr p t v) s
  = match findVariable p t v s with Some x => (Done x, s) | None => (Undefined, s) end.
Proof. unfold readVariable. leaf. Qed.

Lemma readStates_eq o s :
  readStates o s
  = match objStates o s with Some l => (Done l, s) | None => (Undefined, s) end.
Proof. unfold readStates. leaf. Qed.

Lemma GetActualState_eq o s :
  GetActualState o s
  = match objStates o s with
    | Some (st :: _) => (Done st, s)
    | _ => (Undefined, s)
    end.
Proof. unfold GetActualState, readStates. leaf. Qed.

Lemma updActualState_eq o f s :
  updActualState o f s
  = match objStates o s with
    | Some (st :: rest) => (Done tt, modStates o (fun _ => f st :: rest) s)
    | _ => (Undefined, s)
    end.
Proof. unfold updActualState, readStates. leaf. Qed.

Lemma writeStates_eq o l s :
  writeStates o l s
  = match objStates o s with
    | Some _ => (Done tt, modStates o (fun _ => l) s)
    | None => (Undefined, s)
    end.
Proof. unfold writeStates, readStates. leaf. Qed.

Lemma removeState_eq o i s :
  removeState o i s
  = match objStates o s with
    | Some _ => (Done tt, modStates o (delete i) s)
    | None => (Undefined, s)
    end.
Proof. unfold removeState, readStates. leaf. Qed.

Lemma createSavepoint_eq o s :
  createSavepoint o s
  = match objStates o s with
    | Some (prev :: rest) =>
        match copyBody (ptrType o) (body prev) with
        | Some b =>
            (Done tt,
             modStates o (fun _ => mkTransState (is_valid prev) (mkLevels 0) b
                                     :: prev :: rest) s)
        | None => (Undefined, s)
        end
    | _ => (Undefined, s)
    end.
Proof.
  unfold createSavepoint, readStates. cbn.
  destruct (objStates o s) as [[|prev rest]|]; cbn; [done| |done].
  by destruct (copyBody _ _).
Qed.

Lemma isObjectChangedInCurrentTrans_eq o s :
  isObjectChangedInCurrentTrans o s
  = match changesStack s with
    | None => (Done false, s)
    | Some _ =>
        match objStates o s with
        | Some (st :: _) => (Done (level (levels st) =? nestLevel s), s)
        | _ => (Undefined, s)
        end
    end.
Proof.
  unfold isObjectChangedInCurrentTrans, GetActualState, readStates,
    GetCurrentTransactionNestLevel. cbn.
  destruct (changesStack s); cbn; [|done]. by destruct (objStates o s) as [[]|].
Qed.

Lemma isObjectChangedInUpperTrans_eq o s :
  isObjectChangedInUpperTrans o s
  = match objStates o s with
    | Some (cur :: prev :: _) =>
        (Done (if level (levels cur) =? nestLevel s
               then level (levels prev) =? nestLevel s - 1
               else level (levels cur) =? nestLevel s - 1), s)
    | Some [cur] => (Done (level (levels cur) =? nestLevel s - 1), s)
    | _ => (Undefined, s)
    end.
Proof.
  unfold isObjectChangedInUpperTrans, readStates, GetCurrentTransactionNestLevel. cbn.
  destruct (objStates o s) as [[|cur [|prev rest]]|]; cbn; try done.
  by destruct (_ =? _).
Qed.

Lemma get_trans_var_num_eq k s :
  get_trans_var_num k s
  = match objStates (PackPtr k) s with
    | Some (st :: _) =>
        match body st with
        | PackBody n => (Done n, s)
        | VarBody _ => (Undefined, s)
        end
    | _ => (Undefined, s)
    end.
Proof.
  unfold get_trans_var_num, GetActualState, readStates. cbn.
  destruct (objStates _ s) as [[|st ?]|]; cbn; try done. by destruct (body st).
Qed.

Lemma changesStackIsEmpty_eq s :
  changesStackIsEmpty s
  = match changesStack s with
    | Some l => (Done (bool_decide (l = [])), s)
    | None => (Undefined, s)
    end.
Proof. unfold changesStackIsEmpty. leaf. Qed.

Lemma pushOnHeadFrame_eq o s :
  pushOnHeadFrame o s
  = match changesStack s with
    | Some (csn :: rest) => (Done tt, set_changesStack (Some (pushChanged o csn :: rest)) s)
    | _ => (Undefined, s)
    end.
Proof. unfold pushOnHeadFrame. leaf. Qed.

Lemma numOfRegVars_eq k s :
  numOfRegVars k s
  = match findPackage k s with
    | Some pack =>
        (Done (match varHashRegular pack with
               | Some h => Z.of_nat (size h)
               | None => 0
               end), s)
    | None => (Undefined, s)
    end.
Proof.
  unfold numOfRegVars, readPackage. cbn.
  destruct (findPackage k s) as [pack|]; cbn; [|done]. by destruct (varHashRegular pack).
Qed.

Lemma set_changesStack_id s : set_changesStack (changesStack s) s = s.
Proof. by destruct s. Qed.

Lemma replicate_snoc {A} n (x : A) : replicate n x ++ [x] = x :: replicate n x.
Proof. induction n; cbn; [done|]. by f_equal. Qed.

Lemma repeatM_pushChangesStack n l s :
  repeatM n pushChangesStack (set_changesStack (Some l) s)
  = (Done tt, set_changesStack (Some (replicate n emptyFrame ++ l)) s).
Proof.
  revert l. induction n as [|n IH]; intros l; [done|].
  cbn [repeatM]. rewrite (bind_run _ _ _ tt (set_changesStack (Some (emptyFrame :: l)) s))
    by (by unfold pushChangesStack).
  rewrite IH. do 3 f_equal. change (emptyFrame :: l) with ([emptyFrame] ++ l).
  rewrite (assoc (++)). by rewrite replicate_snoc.
Qed.

Lemma prepareChangesStack_eq s :
  prepareChangesStack s = (Done tt, set_changesStack (preparedStack s) s).
Proof.
  unfold prepareChangesStack, preparedStack, GetCurrentTransactionNestLevel. cbn.
  destruct (changesStack s) as [cs|] eqn:E; cbn.
  - f_equal. rewrite <- (set_changesStack_id s) at 1. by rewrite E.
  - destruct (Z.to_nat (nestLevel s)) as [|n]; cbn [repeatM].
    + cbn. f_equal. rewrite <- (set_changesStack_id s) at 1. by rewrite E.
    + rewrite (bind_run _ _ _ tt (set_changesStack (Some [emptyFrame]) s))
        by (unfold pushChangesStack; cbn; by rewrite E).
      rewrite repeatM_pushChangesStack. by rewrite replicate_snoc.
Qed.

Lemma addToChangesStack_eq o s :
  addToChangesStack o s
  = match preparedStack s with
    | None => (Undefined, set_changesStack None s)
    | Some cs =>
        match objStates o s with
        | Some (st :: rest) =>
            if level (levels st) =? nestLevel s
            then (Done tt, set_changesStack (Some cs) s)
            else
              match cs with
              | csn :: cs' =>
                  (Done tt,
                   modStates o (fun _ => with_level (nestLevel s) st :: rest)
                     (set_changesStack (Some (pushChanged o csn :: cs')) s))
              | [] => (Undefined, set_changesStack (Some cs) s)
              end
        | _ => (Undefined, set_changesStack (Some cs) s)
        end
    end.
Proof.
  unfold addToChangesStack.
  rewrite (bind_run _ _ _ _ _ (prepareChangesStack_eq s)).
  cbn [bind]. rewrite isObjectChangedInCurrentTrans_eq. cbn [changesStack set_changesStack].
  destruct (preparedStack s) as [cs|]; cbn [bind].
  - rewrite objStates_set_changesStack.
    destruct (objStates o s) as [[|st rest]|] eqn:E; [done| |done].
    cbn [nestLevel set_changesStack].
    destruct (_ =? _); [done|].
    cbn [bind]. rewrite pushOnHeadFrame_eq. cbn [changesStack set_changesStack].
    destruct cs as [|csn cs']; [done|].
    unfold GetCurrentTransactionNestLevel. cbn [bind gets nestLevel set_changesStack].
    rewrite updActualState_eq, !objStates_set_changesStack, E. done.
  - rewrite pushOnHeadFrame_eq. done.
Qed.

Lemma makePackHTAB_eq k t s :
  makePackHTAB k t s
  = match findPackage k s with
    | Some _ => (Done tt, updPackage k (set_pack_htab t (Some ∅)) s)
    | None => (Undefined, s)
    end.
Proof.
  unfold makePackHTAB. cbn [bind]. rewrite readPackage_eq.
  by destruct (findPackage k s).
Qed.

(** Inversion of a run that ended well, one bind at a time; [leaf_eqs]
    replaces a step of the engine by its equation. *)
Ltac leaf_eqs H :=
  first
    [ rewrite getKeyFromName_eq in H
    | rewrite readPackage_eq in H
    | rewrite readVariable_eq in H
    | rewrite readStates_eq in H
    | rewrite GetActualState_eq in H
    | rewrite updActualState_eq in H
    | rewrite writeStates_eq in H
    | rewrite removeState_eq in H
    | rewrite createSavepoint_eq in H
    | rewrite isObjectChangedInCurrentTrans_eq in H
    | rewrite isObjectChangedInUpperTrans_eq in H
    | rewrite get_trans_var_num_eq in H
    | rewrite changesStackIsEmpty_eq in H
    | rewrite pushOnHeadFrame_eq in H
    | rewrite numOfRegVars_eq in H
    | rewrite addToChangesStack_eq in H
    | rewrite makePackHTAB_eq in H ].

Ltac minv H :=
  cbv beta iota in H;
  lazymatch type of H with
  | bind _ _ _ = (Done _, _) =>
      let a := fresh "a" in let s1 := fresh "s" in
      let H1 := fresh "H" in let H2 := fresh "H" in
      apply bind_inv in H as (a & s1 & H1 & H2); minv H1; minv H2
  | ret _ _ = _ => injection H as ? ?; subst
  | ereport _ _ = (Done _, _) => discriminate H
  | undefined _ = (Done _, _) => discriminate H
  | gets _ _ = _ => injection H as ? ?; subst
  | modify _ _ = _ => injection H as ? ?; subst
  | deref ?o _ = _ => destruct o eqn:?; [injection H as ? ?; subst | discriminate H]
  | (Done _, _) = (Done _, _) => injection H as ? ?; subst
  | (Raise _, _) = (Done _, _) => discriminate H
  | (Undefined, _) = (Done _, _) => discriminate H
  | (match ?x with _ => _ end) _ = _ => destruct x eqn:?; try discriminate; minv H
  | (match ?x with _ => _ end) = _ => destruct x eqn:?; try discriminate; minv H
  | _ => try (leaf_eqs H; minv H)
  end.

(** ** Weakest preconditions *)

Definition post {A} (U : Prop) (E : PgvError -> Session -> Prop)
    (Q : A -> Session -> Prop) (r : outcome A * Session) : Prop :=
  match r with
  | (Done a, s') => Q a s'
  | (Raise e, s') => E e s'
  | (Undefined, _) => U
  end.

Definition wpg {A} (U : Prop) (E : PgvError -> Session -> Prop) (c : M A)
    (Q : A -> Session -> Prop) (s : Session) : Prop :=
  post U E Q (c s).

Section WP.
Context (U : Prop) (E : PgvError -> Session -> Prop).

Lemma wpg_eq {A} (c : M A) r (Q : A -> Session -> Prop) s :
  c s = r -> post U E Q r -> wpg U E c Q s.
Proof. intros <-. done. Qed.

Lemma wpg_ret {A} (a : A) (Q : A -> Session -> Prop) s :
  Q a s -> wpg U E (ret a) Q s.
Proof. done. Qed.

Lemma wpg_bind {A B} (c : M A) (k : A -> M B) (Q : B -> Session -> Prop) s :
  wpg U E c (fun a s1 => wpg U E (k a) Q s1) s -> wpg U E (bind c k) Q s.
Proof. unfold wpg, post. cbn. by destruct (c s) as [[a| |] s1]. Qed.

Lemma wpg_ereport {A} e (Q : A -> Session -> Prop) s :
  E e s -> wpg U E (ereport e) Q s.
Proof. done. Qed.

Lemma wpg_undefined {A} (Q : A -> Session -> Prop) s :
  U -> wpg U E undefined Q s.
Proof. done. Qed.

Lemma wpg_gets {A} (f : Session -> A) (Q : A -> Session -> Prop) s :
  Q (f s) s -> wpg U E (gets f) Q s.
Proof. done. Qed.

Lemma wpg_modify f (Q : unit -> Session -> Prop) s :
  Q tt (f s) -> wpg U E (modify f) Q s.
Proof. done. Qed.

Lemma wpg_deref {A} (o : option A) (Q : A -> Session -> Prop) s :
  match o with Some a => Q a s | None => U end -> wpg U E (deref o) Q s.
Proof. by destruct o. Qed.

Lemma wpg_mono {A} (c : M A) (Q Q' : A -> Session -> Prop) s :
  wpg U E c Q s -> (forall a s', Q a s' -> Q' a s') -> wpg U E c Q' s.
Proof. unfold wpg, post. destruct (c s) as [[a| |] s1]; auto. Qed.

Lemma wpg_run {A} (c : M A) (Q : A -> Session -> Prop) s a s' :
  wpg U E c Q s -> c s = (Done a, s') -> Q a s'.
Proof. unfold wpg. intros H Hc. by rewrite Hc in H. Qed.
End WP.

Global Arguments wpg : simpl never.
Global Arguments post : simpl never.

Abbreviation wp := (wpg True (fun _ _ => True)).

(** The head state after [addToChangesStack], whatever the stack was. *)
Definition relevel (lv : option Z) (st : TransState) : TransState :=
  match lv with
  | Some l => with_level l st
  | None => st
  end.

Lemma is_valid_relevel lv st : is_valid (relevel lv st) = is_valid st.
Proof. by destruct lv. Qed.

Lemma body_relevel lv st : body (relevel lv st) = body st.
Proof. by destruct lv. Qed.

#[global] Hint Rewrite is_valid_relevel body_relevel : pgv.

Lemma isObjectChangedInCurrentTrans_any E o (Q : bool -> Session -> Prop) s :
  (forall b, Q b s) -> wpg True E (isObjectChangedInCurrentTrans o) Q s.
Proof.
  intros H. eapply wpg_eq; [apply isObjectChangedInCurrentTrans_eq|].
  destruct (changesStack s); [|apply H]. destruct (objStates o s) as [[|? ?]|]; try done.
  apply H.
Qed.

Lemma addToChangesStack_any E o (Q : unit -> Session -> Prop) s :
  match objStates o s with
  | Some (st :: rest) =>
      forall cs lv,
        Q tt (set_changesStack (Some cs) (modStates o (fun _ => relevel lv st :: rest) s))
  | _ => True
  end ->
  wpg True E (addToChangesStack o) Q s.
Proof.
  intros H. eapply wpg_eq; [apply addToChangesStack_eq|].
  destruct (preparedStack s) as [cs|]; [|done].
  destruct (objStates o s) as [[|st rest]|] eqn:Ho; try done.
  destruct (_ =? _).
  - specialize (H cs None). cbn in H. by rewrite modStates_same in H.
  - destruct cs as [|csn cs']; [done|].
    specialize (H (pushChanged o csn :: cs') (Some (nestLevel s))).
    cbn in H. by rewrite set_changesStack_modStates in H.
Qed.

Lemma preparedStack_modStates o h s : preparedStack (modStates o h s) = preparedStack s.
Proof. unfold preparedStack. by rewrite changesStack_modStates, nestLevel_modStates. Qed.

Lemma preparedStack_updPackage k f s : preparedStack (updPackage k f s) = preparedStack s.
Proof. unfold preparedStack. by rewrite changesStack_updPackage, nestLevel_updPackage. Qed.

Lemma preparedStack_storePackage k pack s :
  preparedStack (storePackage k pack s) = preparedStack s.
Proof. done. Qed.

Lemma preparedStack_deletePackage k s : preparedStack (deletePackage k s) = preparedStack s.
Proof.
  unfold preparedStack. by rewrite changesStack_deletePackage, nestLevel_deletePackage.
Qed.

Lemma preparedStack_set_changesStack l s :
  preparedStack (set_changesStack (Some l) s) = Some l.
Proof. done. Qed.

Lemma variables_stats_modStates o h s : variables_stats (modStates o h s) = variables_stats s.
Proof. apply fields_modStates. Qed.

Lemma packages_stats_modStates o h s : packages_stats (modStates o h s) = packages_stats s.
Proof. apply fields_modStates. Qed.

Lemma packages_stats_updPackage k f s : packages_stats (updPackage k f s) = packages_stats s.
Proof. apply fields_updPackage. Qed.

Lemma variables_stats_set_changesStack c s :
  variables_stats (set_changesStack c s) = variables_stats s.
Proof. done. Qed.

Lemma packages_stats_set_changesStack c s :
  packages_stats (set_changesStack c s) = packages_stats s.
Proof. done. Qed.

Lemma copyBody_scalar sc :
  copyBody TRANS_VARIABLE (VarBody (scalar sc))
  = Some (VarBody (scalar (mkScalarVar (if is_null sc then 0 else value sc)
                             (is_null sc) (typbyval sc) (typlen sc)))).
Proof. done. Qed.

Lemma bool_decide_is_Some_None {A} : bool_decide (is_Some (@None A)) = false.
Proof. done. Qed.

Lemma bool_decide_is_Some_Some {A} (x : A) : bool_decide (is_Some (Some x)) = true.
Proof. done. Qed.

Lemma varHashTransact_updVariable_true v g pack :
  varHashTransact (updVariable true v g pack) = alter g v <$> varHashTransact pack.
Proof. unfold updVariable. by destruct pack as [obj r [tr|]]. Qed.

Lemma varHashRegular_updVariable_true v g pack :
  varHashRegular (updVariable true v g pack) = varHashRegular pack.
Proof. unfold updVariable. by destruct pack as [obj r [tr|]]. Qed.

Lemma varHashRegular_updVariable_false v g pack :
  varHashRegular (updVariable false v g pack) = alter g v <$> varHashRegular pack.
Proof. unfold updVariable. by destruct pack as [obj [r|] tr]. Qed.

Lemma varHashTransact_updVariable_false v g pack :
  varHashTransact (updVariable false v g pack) = varHashTransact pack.
Proof. unfold updVariable. by destruct pack as [obj [r|] tr]. Qed.

#[global] Hint Rewrite preparedStack_modStates preparedStack_updPackage
  preparedStack_storePackage preparedStack_deletePackage
  preparedStack_set_changesStack variables_stats_modStates packages_stats_modStates
  packages_stats_updPackage variables_stats_set_changesStack
  packages_stats_set_changesStack copyBody_scalar
  @bool_decide_is_Some_None @bool_decide_is_Some_Some
  transObject_updVariable varHashTransact_updVariable_true
  varHashRegular_updVariable_true varHashRegular_updVariable_false
  varHashTransact_updVariable_false Z.eqb_refl : pgv.

(** ** Symbolic execution *)


Ltac solve_ne :=
  first
    [ congruence
    | let H := fresh in
      intros H; try (injection H as ?); subst;
      match goal with
      | H : negb ?b = ?b |- _ => is_var b; destruct b; discriminate H
      | H : ?b = negb ?b |- _ => is_var b; destruct b; discriminate H
      end ].

Ltac facts :=
  repeat match goal with
  | H : ?x = Some _ |- context [?x] => rewrite H
  | H : ?x = None |- context [?x] => rewrite H
  | H : ?x = true |- context [?x] => rewrite H
  | H : ?x = false |- context [?x] => rewrite H
  | H : ?x = _ :: _ |- context [?x] => lazymatch x with _ :: _ => fail | _ => rewrite H end
  | H : ?x = [] |- context [?x] => rewrite H
  | H : ?x = PackBody _ |- context [?x] => rewrite H
  | H : ?x = VarBody _ |- context [?x] => rewrite H
  end.

Ltac side_views :=
  repeat first
    [ rewrite lookup_insert_eq
    | rewrite lookup_empty
    | rewrite lookup_insert_ne by solve_ne
    | rewrite lookup_alter_eq
    | rewrite lookup_alter_ne by solve_ne
    | match goal with
      | |- context [objStates (VarPtr ?p ?t ?v) (updPackage ?k (set_pack_htab ?t' ?x) ?s)] =>
          rewrite (objStates_VarPtr p t v (updPackage k (set_pack_htab t' x) s))
      end
    | rewrite findVariable_modStates_ne by solve_ne
    | rewrite objStates_modStates_ne by solve_ne
    | rewrite findVariable_set_pack_htab_ne
        by (first [left; solve_ne | right; solve_ne]) ].

Ltac base_views :=
  repeat match goal with
  | |- context [objStates (PackPtr ?k) ?s] => is_var s; rewrite (objStates_PackPtr k s)
  | |- context [objStates (VarPtr ?p ?t ?v) ?s] => is_var s; rewrite (objStates_VarPtr p t v s)
  | |- context [findVariable ?p ?t ?v ?s] => is_var s; rewrite (findVariable_unfold p t v s)
  end.

Ltac redm :=
  cbn [fst snd fmap option_fmap option_map mbind option_bind
       is_valid levels level body states name transObject var_transObject
       varHashRegular varHashTransact typid is_record
       is_transactional is_deleted package negb andb orb eqb
       with_is_valid with_level with_body var_with_states pack_with_states
       nestLevel changesStack variables_stats packages_stats typcache
       set_changesStack set_nestLevel set_cache set_variables_stats set_packages_stats
       ptrType post head].

Ltac views1 := autorewrite with pgv; side_views; base_views; facts; redm.
Ltac views := repeat (progress views1).

Ltac side_views_in H :=
  repeat first
    [ rewrite lookup_insert_eq in H
    | rewrite lookup_empty in H
    | rewrite lookup_insert_ne in H by solve_ne
    | rewrite lookup_alter_eq in H
    | rewrite lookup_alter_ne in H by solve_ne
    | match type of H with
      | context [objStates (VarPtr ?p ?t ?v) (updPackage ?k (set_pack_htab ?t' ?x) ?s)] =>
          rewrite (objStates_VarPtr p t v (updPackage k (set_pack_htab t' x) s)) in H
      end
    | rewrite findVariable_modStates_ne in H by solve_ne
    | rewrite objStates_modStates_ne in H by solve_ne
    | rewrite findVariable_set_pack_htab_ne in H
        by (first [left; solve_ne | right; solve_ne]) ].

Ltac base_views_in H :=
  repeat match type of H with
  | context [objStates (PackPtr ?k) ?s] => is_var s; rewrite (objStates_PackPtr k s) in H
  | context [objStates (VarPtr ?p ?t ?v) ?s] => is_var s; rewrite (objStates_VarPtr p t v s) in H
  | context [findVariable ?p ?t ?v ?s] => is_var s; rewrite (findVariable_unfold p t v s) in H
  end.

Ltac facts_in H :=
  repeat match goal with
  | H' : ?x = ?y |- _ =>
      lazymatch H' with H => fail | _ => idtac end;
      lazymatch y with
      | Some _ => idtac | None => idtac | true => idtac | false => idtac
      | _ :: _ => lazymatch x with _ :: _ => fail | _ => idtac end
      | [] => idtac | PackBody _ => idtac | VarBody _ => idtac
      end;
      lazymatch type of H with context [x] => rewrite H' in H end
  end.

Ltac redm_in H :=
  cbn [fst snd fmap option_fmap option_map mbind option_bind
       is_valid levels level body states name transObject var_transObject
       varHashRegular varHashTransact typid is_record
       is_transactional is_deleted package negb andb orb eqb
       with_is_valid with_level with_body var_with_states pack_with_states
       nestLevel changesStack variables_stats packages_stats typcache
       set_changesStack set_nestLevel set_cache set_variables_stats set_packages_stats
       ptrType post head] in H.

Ltac views_in H :=
  repeat (progress (autorewrite with pgv in H; side_views_in H; base_views_in H;
                    facts_in H; redm_in H)).


Ltac leaf_rule :=
  first
    [ apply getKeyFromName_eq | apply readPackage_eq | apply readVariable_eq
    | apply readStates_eq | apply GetActualState_eq | apply updActualState_eq
    | apply writeStates_eq | apply removeState_eq | apply createSavepoint_eq
    | apply isObjectChangedInUpperTrans_eq | apply get_trans_var_num_eq
    | apply changesStackIsEmpty_eq | apply pushOnHeadFrame_eq | apply numOfRegVars_eq
    | apply makePackHTAB_eq | apply isObjectChangedInCurrentTrans_eq
    | apply addToChangesStack_eq ].

(** The value that a test of the code looks at is put in normal form on its
    own, away from the rest of the goal; [settle] splits on what the facts
    at hand leave open, [settle_det] does not. *)
Ltac head_of t :=
  lazymatch t with
  | ?f _ => head_of f
  | _ => t
  end.

Ltac stuck t :=
  lazymatch t with
  | match ?x with _ => _ end => stuck x
  | (match ?x with _ => _ end) _ => stuck x
  | andb ?a _ => stuck a
  | orb ?a _ => stuck a
  | negb ?a => stuck a
  | fmap _ ?x => stuck x
  | _ => t
  end.

Ltac settle H :=
  views_in H;
  lazymatch type of H with
  | ?y = ?rhs =>
      let h := head_of rhs in
      first
        [ is_constructor h; subst y
        | let b := stuck rhs in
          first [ is_var b; destruct b
                | let Hb := fresh "Hv" in destruct b eqn:Hb ];
          settle H ]
  end.

Ltac settle_det H :=
  views_in H;
  lazymatch type of H with
  | ?y = ?rhs => let h := head_of rhs in is_constructor h; subst y
  end.

Ltac split_on x :=
  let b := stuck x in
  first
    [ is_var b; destruct b
    | let y := fresh "y" in
      let H := fresh "Hy" in
      remember b as y eqn:H in |- *; settle H;
      cbn [negb andb orb] ].

Ltac resolve_on x :=
  let b := stuck x in
  let y := fresh "y" in
  let H := fresh "Hy" in
  remember b as y eqn:H in |- *; settle_det H;
  cbn [negb andb orb].

(** One step at the head of the computation; a test of the code on a value
    that the facts at hand do not decide is left to the proof. *)
Ltac wp_step :=
  lazymatch goal with
  | |- True => exact I
  | |- wpg _ _ (bind _ _) _ _ => apply wpg_bind
  | |- wpg _ _ (ret _) _ _ => apply wpg_ret; cbv beta
  | |- wpg _ _ (gets _) _ _ => apply wpg_gets; cbv beta
  | |- wpg _ _ (modify _) _ _ => apply wpg_modify; cbv beta
  | |- wpg _ _ (ereport _) _ _ => apply wpg_ereport; cbv beta
  | |- wpg _ _ undefined _ _ => apply wpg_undefined
  | |- wpg _ _ (deref _) _ _ => apply wpg_deref
  | |- wpg True _ (isObjectChangedInCurrentTrans _) _ _ =>
      apply isObjectChangedInCurrentTrans_any; intros ?
  | |- wpg True _ (addToChangesStack _) _ _ =>
      apply addToChangesStack_any
  | |- wpg _ _ (match ?x with _ => _ end) _ _ => resolve_on x
  | |- wpg _ _ (let _ := _ in _) _ _ => cbv zeta
  | |- wpg _ _ GetCurrentTransactionNestLevel _ _ => apply wpg_gets; cbv beta
  | |- wpg _ _ _ _ _ => eapply wpg_eq; [leaf_rule|]
  | |- post _ _ _ (_, _) => unfold post at 1; cbv beta iota
  | |- post _ _ _ (match ?x with _ => _ end) => split_on x
  | |- match ?x with _ => _ end => split_on x
  | |- forall _, _ => intros ?
  end.

Ltac wp_run := repeat wp_step.

(** As far as the next test of the code. *)
Ltac wp_upto :=
  repeat lazymatch goal with
         | |- wpg _ _ (match _ with _ => _ end) _ _ => fail
         | _ => wp_step
         end.

(** What is left when the computation returned. *)
Ltac bool_facts :=
  repeat match goal with
  | H : (_ =? _) = true |- _ => apply Z.eqb_eq in H
  | H : (_ =? _) = false |- _ => apply Z.eqb_neq in H
  | H : eqb _ _ = true |- _ => apply eqb_prop in H
  | H : bool_decide _ = true |- _ => apply bool_decide_eq_true in H
  | H : bool_decide _ = false |- _ => apply bool_decide_eq_false in H
  end.

Ltac wp_fin :=
  bool_facts;
  repeat first
    [ progress views
    | match goal with
      | |- _ /\ _ => split
      | |- exists _, _ => eexists
      | |- Some _ = Some _ => reflexivity
      | |- _ :: _ = _ :: _ => reflexivity
      | |- _ -> _ => intros ?
      end
    | done
    | eassumption ].

(** The test at the head. *)
Ltac wp_case :=
  lazymatch goal with
  | |- wpg _ _ (match ?x with _ => _ end) _ _ => split_on x
  end.

Ltac wp_all := repeat first [ wp_step | wp_case ].

(** A cut: what holds when the head of the computation returned; [wp_cut_new]
    forgets what was known before. *)
Tactic Notation "wp_cut" constr(R) "as" ident(s1) ident(H) :=
  eapply (wpg_mono _ _ _ R); [ | intros ? s1 H ].

Tactic Notation "wp_cut_new" constr(R) "as" ident(s1) ident(H) :=
  eapply (wpg_mono _ _ _ R); [ | intros ? s1 H; clear - H ].

Lemma wpg_weaken {A} (U U' : Prop) (E E' : PgvError -> Session -> Prop) (c : M A)
    (Q Q' : A -> Session -> Prop) s :
  wpg U E c Q s -> (U -> U') -> (forall e s', E e s' -> E' e s') ->
  (forall a s', Q a s' -> Q' a s') -> wpg U' E' c Q' s.
Proof. unfold wpg, post. destruct (c s) as [[a| |] s1]; auto. Qed.

Lemma wpg_seq {A B} U E (R : A -> Session -> Prop) (c : M A) (k : A -> M B)
    (Q : B -> Session -> Prop) s :
  wpg U E c R s -> (forall a s1, R a s1 -> wpg U E (k a) Q s1) ->
  wpg U E (bind c k) Q s.
Proof. intros Hc Hk. apply wpg_bind. eapply wpg_mono; [exact Hc|]. exact Hk. Qed.


(** ** Names and their bound *)

Definition cat0 (t : Oid) : Z * bool := (4, true).




(** ** Rollback of a package that keeps regular variables *)

(** C6: when the rollback pops the only state of a package that still holds
    a regular variable, the package gets a fresh valid state at the level
    below the current one ([trans_var_num] 0), its tables stay, and the
    package is pushed on the frame that is now the head of the changes
    stack, if there is one. *)
Theorem rollback_keeps_package_with_regular_variables
    (s : Session) (pkey : string) (sub : bool) (pack : Package) (st : TransState)
    (regs : gmap string VariableEntry) (stack : list ChangesStackNode) :
  findPackage pkey s = Some pack ->
  states (transObject pack) = [st] ->
  varHashRegular pack = Some regs ->
  (0 < size regs)%nat ->
  changesStack s = Some stack ->
  exists s',
    rollbackSavepoint (PackPtr pkey) sub s = (Done tt, s') /\
    findPackage pkey s' =
      Some (mkPackage
              (mkTransObject (name (transObject pack))
                 [mkTransState true (mkLevels (nestLevel s - 1)) (PackBody 0)])
              (Some regs) (varHashTransact pack)) /\
    changesStack s' =
      Some (match stack with
            | [] => []
            | csn :: rest =>
                mkChangesStackNode (changedVarsList csn)
                  (PackPtr pkey :: changedPacksList csn) :: rest
            end) /\
    (forall k, k <> pkey -> findPackage k s' = findPackage k s).
Proof.
  intros Hp Hst Hr Hsz Hcs.
  destruct pack as [[nm sts] r t]; cbn in *; subst.
  assert (Hgt : (Z.of_nat (size regs) >? 0) = true) by (apply Z.gtb_lt; lia).
  unfold rollbackSavepoint, removeState, numOfRegVars, initObjectHistory,
    writeStates, updActualState, readStates, readPackage, changesStackIsEmpty,
    addToChangesStackUpperLevel, pushOnHeadFrame, GetCurrentTransactionNestLevel.
  repeat (pgv; rewrite ?objStates_PackPtr, ?Hp, ?Hgt, ?Hcs).
  destruct stack as [|csn rest]; repeat (pgv; rewrite ?objStates_PackPtr, ?Hp, ?Hgt, ?Hcs);
    (eexists; split; [reflexivity|]); repeat (pgv; rewrite ?objStates_PackPtr, ?Hp, ?Hgt, ?Hcs);
    (split; [reflexivity|split; [reflexivity|]]);
    intros k Hk; pgv; by rewrite !findPackage_modStates_ne.
Qed.

Definition regular_r : VariableEntry :=
  mkVariable
    (mkTransObject "r" [mkTransState true (mkLevels 0)
                          (VarBody (scalar (mkScalarVar 1 false true 4)))])
    "p" 23 false false false.

(** After [BEGIN; SAVEPOINT; pgv_set('p','r',1)]: the package was born in the
    subtransaction and holds one regular variable. *)
Definition session_with_new_package : Session :=
  mkSession 2
    (Some {[ "p" := mkPackage
                      (mkTransObject "p" [mkTransState true (mkLevels 2) (PackBody 0)])
                      (Some {[ "r" := regular_r ]}) None ]})
    (Some [mkChangesStackNode [] []])
    [] [] None None [] ∅ ∅ cat0.

Lemma rollback_keeps_package_witness :
  exists s',
    rollbackSavepoint (PackPtr "p") true session_with_new_package = (Done tt, s') /\
    (transObject <$> findPackage "p" s')
      = Some (mkTransObject "p" [mkTransState true (mkLevels 1) (PackBody 0)]) /\
    changesStack s' = Some [mkChangesStackNode [] [PackPtr "p"]].
Proof.
  destruct (rollback_keeps_package_with_regular_variables
              session_with_new_package "p" true
              (mkPackage
                 (mkTransObject "p" [mkTransState true (mkLevels 2) (PackBody 0)])
                 (Some {[ "r" := regular_r ]}) None)
              (mkTransState true (mkLevels 2) (PackBody 0))
              {[ "r" := regular_r ]} [mkChangesStackNode [] []])
    as (s' & Hrun & Hp & Hcs & _).
  - vm_compute. reflexivity.
  - reflexivity.
  - reflexivity.
  - vm_compute. lia.
  - reflexivity.
  - exists s'. split; [exact Hrun|]. split; [|exact Hcs]. rewrite Hp. reflexivity.
Defined.

(** ** The registry at executor end and at transaction end *)

Lemma forM_term_run {E} (f : E -> nat) (l : list E) (s : Session) :
  exists s',
    forM_ l (fun e => hash_seq_term (f e)) s = (Done tt, s') /\
    (forall i, i ∈ seq_scans s' <-> i ∈ seq_scans s /\ i ∉ map f l) /\
    packagesHash s' = packagesHash s /\ changesStack s' = changesStack s /\
    variables_stats s' = variables_stats s /\ packages_stats s' = packages_stats s /\
    seq_status s' = seq_status s /\ user_fctx s' = user_fctx s /\
    nestLevel s' = nestLevel s.
Proof.
  revert s. induction l as [|e l IH]; intros s.
  - exists s. cbn. split; [reflexivity|]. split; [|done].
    intros i. rewrite elem_of_nil. tauto.
  - cbn. destruct (IH (set_seq_scans (filter (fun i => i <> f e) (seq_scans s)) s))
      as (s' & Hrun & Hin & Hrest).
    exists s'. rewrite Hrun. split; [reflexivity|]. split; [|exact Hrest].
    intros i. rewrite Hin. cbn. rewrite list_elem_of_filter, elem_of_cons. tauto.
Qed.

(** What [freeStatsLists] does: every scan of the registry is ended, both
    lists are emptied, and the cells [funcctx->user_fctx] are not written. *)
Lemma freeStatsLists_run (s : Session) :
  exists s',
    freeStatsLists s = (Done tt, s') /\
    variables_stats s' = [] /\ packages_stats s' = [] /\
    (forall e, e ∈ variables_stats s -> vse_status e ∉ seq_scans s') /\
    (forall e, e ∈ packages_stats s -> pse_status e ∉ seq_scans s') /\
    user_fctx s' = user_fctx s /\ seq_status s' = seq_status s /\
    packagesHash s' = packagesHash s /\ changesStack s' = changesStack s /\
    (forall i, i ∈ seq_scans s' -> i ∈ seq_scans s).
Proof.
  unfold freeStatsLists. cbn.
  destruct (forM_term_run vse_status (variables_stats s) s)
    as (s1 & Hrun1 & Hin1 & Hp1 & Hc1 & Hv1 & Hps1 & Hss1 & Hu1 & Hn1).
  rewrite Hrun1. cbn.
  destruct (forM_term_run pse_status (packages_stats s1) (set_variables_stats [] s1))
    as (s2 & Hrun2 & Hin2 & Hp2 & Hc2 & Hv2 & Hps2 & Hss2 & Hu2 & Hn2).
  rewrite Hrun2. cbn. eexists. split; [reflexivity|]. cbn in *.
  repeat split; try congruence.
  - intros e He Hi. apply Hin2 in Hi as [Hi _]. apply Hin1 in Hi as [_ Hi].
    apply Hi, list_elem_of_fmap. eauto.
  - intros e He Hi. apply Hin2 in Hi as [_ Hi].
    apply Hi, list_elem_of_fmap. exists e. split; [done|]. by rewrite Hps1.
  - intros i Hi. apply Hin2 in Hi as [Hi _]. by apply Hin1 in Hi as [Hi _].
Qed.

(** ** Frame reasoning

    [preserves R c]: whatever the outcome of [c], the session it leaves is
    related by [R] to the session it started from. *)

Definition preserves {A} (R : Session -> Session -> Prop) (c : M A) : Prop :=
  forall s, R s (c s).2.

Section Preserves.
Context (R : Session -> Session -> Prop) `{!PreOrder R}.

Lemma preserves_ret {A} (a : A) : preserves R (ret a).
Proof. intros s. reflexivity. Qed.

Lemma preserves_ereport {A} e : preserves R (@ereport A e).
Proof. intros s. reflexivity. Qed.

Lemma preserves_undefined {A} : preserves R (@undefined A).
Proof. intros s. reflexivity. Qed.

Lemma preserves_gets {A} (f : Session -> A) : preserves R (gets f).
Proof. intros s. reflexivity. Qed.

Lemma preserves_deref {A} (o : option A) : preserves R (deref o).
Proof. destruct o; [apply preserves_ret | apply preserves_undefined]. Qed.

Lemma preserves_modify f : (forall s, R s (f s)) -> preserves R (modify f).
Proof. intros H s. apply H. Qed.

Lemma preserves_bind {A B} (c : M A) (k : A -> M B) :
  preserves R c -> (forall a, preserves R (k a)) -> preserves R (bind c k).
Proof.
  intros Hc Hk s. specialize (Hc s). cbn.
  destruct (c s) as [[a| |] s1]; cbn in *; [|done..].
  etrans; [exact Hc|]. apply Hk.
Qed.

Lemma preserves_forM_ {A} (l : list A) (f : A -> M unit) :
  (forall a, preserves R (f a)) -> preserves R (forM_ l f).
Proof.
  intros H. induction l as [|a l IH]; cbn [forM_].
  - apply preserves_ret.
  - apply preserves_bind; [apply H | intros _; exact IH].
Qed.

Lemma preserves_repeatM n (c : M unit) :
  preserves R c -> preserves R (repeatM n c).
Proof.
  intros H. induction n as [|n IH]; cbn [repeatM].
  - apply preserves_ret.
  - apply preserves_bind; [exact H | intros _; exact IH].
Qed.

Lemma preserves_list_remove_if {E} (ctx : RemoveIfContext E) (l : list E) :
  (forall e, preserves R (hash_seq_term (ric_getter ctx e))) ->
  (forall e, preserves R (ric_clear_fctx ctx e)) ->
  (forall e, preserves R (pfree_status (ric_getter ctx e))) ->
  preserves R (list_remove_if ctx l).
Proof.
  intros Ht Hc Hf. induction l as [|e l IH]; cbn [list_remove_if].
  - apply preserves_ret.
  - destruct (ric_eq ctx e).
    + apply preserves_bind; [destruct (ric_term ctx); [apply Ht | apply preserves_ret]|].
      intros _. apply preserves_bind; [apply Hc|].
      intros _. apply preserves_bind; [apply Hf|].
      intros _. destruct (ric_match_first ctx); [apply preserves_ret | exact IH].
    + apply preserves_bind; [exact IH | intros; apply preserves_ret].
Qed.
End Preserves.

(** One step of a frame proof: follow the structure of the code down to the
    writes, which are left to the caller. *)
Ltac pres_step :=
  lazymatch goal with
  | |- preserves _ (bind _ _) => apply preserves_bind; [apply _ | | intros ?]
  | |- preserves _ (ret _) => apply preserves_ret; apply _
  | |- preserves _ (ereport _) => apply preserves_ereport; apply _
  | |- preserves _ undefined => apply preserves_undefined; apply _
  | |- preserves _ (gets _) => apply preserves_gets; apply _
  | |- preserves _ (deref _) => apply preserves_deref; apply _
  | |- preserves _ (forM_ _ _) => apply preserves_forM_; [apply _ | intros ?]
  | |- preserves _ (repeatM _ _) => apply preserves_repeatM; [apply _ | ]
  | |- preserves _ (modify _) => apply preserves_modify; intros ?
  | |- preserves _ (match ?x with _ => _ end) => destruct x
  | |- preserves _ (let _ := _ in _) => cbv zeta
  end.

(** What the engine may do to the registry while it processes a frame: a
    scan is never started, and an entry leaves a list only with its scan
    ended. *)
Definition scans_only_end (s s' : Session) : Prop :=
  (forall i, i ∈ seq_scans s' -> i ∈ seq_scans s) /\
  (forall e, e ∈ variables_stats s ->
     e ∈ variables_stats s' \/ vse_status e ∉ seq_scans s') /\
  (forall e, e ∈ packages_stats s ->
     e ∈ packages_stats s' \/ pse_status e ∉ seq_scans s').

Global Instance scans_only_end_preorder : PreOrder scans_only_end.
Proof.
  split.
  - intros s. unfold scans_only_end. naive_solver.
  - intros s1 s2 s3 (Ha & Hb & Hc) (Ha' & Hb' & Hc'). unfold scans_only_end.
    split; [naive_solver|]. split.
    + intros e He. destruct (Hb e He) as [H|H]; [apply Hb', H|]. right. naive_solver.
    + intros e He. destruct (Hc e He) as [H|H]; [apply Hc', H|]. right. naive_solver.
Qed.

Lemma scans_only_end_same (s s' : Session) :
  seq_scans s' = seq_scans s -> variables_stats s' = variables_stats s ->
  packages_stats s' = packages_stats s -> scans_only_end s s'.
Proof. intros E1 E2 E3. unfold scans_only_end. rewrite E1, E2, E3. naive_solver. Qed.

Ltac same_registry := apply scans_only_end_same; cbn; store_fields; cbn; congruence.

Lemma bind_Done {A B} (c : M A) (k : A -> M B) s a s1 :
  c s = (Done a, s1) -> bind c k s = k a s1.
Proof. intros H. cbn. by rewrite H. Qed.

(** The registry fields that a step leaves alone. *)
Definition same_lists (s s' : Session) : Prop :=
  variables_stats s' = variables_stats s /\ packages_stats s' = packages_stats s.

Lemma clear_fctx_run c s :
  exists s', clear_fctx c s = (Done tt, s') /\
    seq_scans s' = seq_scans s /\ same_lists s s'.
Proof. destruct c; cbn; eexists; (split; [reflexivity|]); by repeat split. Qed.

Lemma list_remove_if_scans {E} (ctx : RemoveIfContext E) (cell : E -> option nat) l s :
  (forall e, ric_clear_fctx ctx e = clear_fctx (cell e)) ->
  exists l' s',
    list_remove_if ctx l s = (Done l', s') /\
    (forall e, e ∈ l' -> e ∈ l) /\
    (forall i, i ∈ seq_scans s' -> i ∈ seq_scans s) /\
    (ric_term ctx = true ->
       forall e, e ∈ l -> e ∈ l' \/ ric_getter ctx e ∉ seq_scans s') /\
    same_lists s s'.
Proof.
  intros Hclear. revert s. induction l as [|e l IH]; intros s; cbn [list_remove_if].
  - exists [], s. split; [done|]. split; [done|]. split; [done|].
    split; [|done]. intros _ e. by rewrite elem_of_nil.
  - destruct (ric_eq ctx e).
    + set (s1 := if ric_term ctx
                 then set_seq_scans (filter (fun i => i <> ric_getter ctx e) (seq_scans s)) s
                 else s).
      assert (H1 : (if ric_term ctx then hash_seq_term (ric_getter ctx e) else ret tt) s
                   = (Done tt, s1)) by (subst s1; by destruct (ric_term ctx)).
      rewrite (bind_Done _ _ _ _ _ H1). rewrite Hclear.
      destruct (clear_fctx_run (cell e) s1) as (s2 & H2 & E2 & L2 & L2').
      rewrite (bind_Done _ _ _ _ _ H2).
      assert (H3 : pfree_status (ric_getter ctx e) s2
                   = (Done tt, set_seq_status (delete (ric_getter ctx e) (seq_status s2)) s2))
        by done.
      rewrite (bind_Done _ _ _ _ _ H3).
      assert (Hs1 : forall i, i ∈ seq_scans s1 -> i ∈ seq_scans s).
      { subst s1. destruct (ric_term ctx); cbn; [|done].
        intros i Hi. by apply list_elem_of_filter in Hi as [_ ?]. }
      assert (Hs1' : ric_term ctx = true -> ric_getter ctx e ∉ seq_scans s1).
      { subst s1. intros ->. cbn. intros Hi. by apply list_elem_of_filter in Hi as [? _]. }
      assert (Hl1 : same_lists s s1) by (subst s1; by destruct (ric_term ctx)).
      destruct Hl1 as [Hl1 Hl1'].
      destruct (ric_match_first ctx).
      * exists l. eexists. split; [reflexivity|]. cbn.
        split; [intros e' ?; apply elem_of_cons; by right|].
        split; [intros i; rewrite E2; apply Hs1|].
        split; [|split; cbn; congruence].
        intros Ht e' [->|He']%elem_of_cons; [|by left].
        right. rewrite E2. by apply Hs1'.
      * destruct (IH (set_seq_status (delete (ric_getter ctx e) (seq_status s2)) s2))
          as (l' & s3 & Hrun & Hsub & Hmono & Hterm & L3 & L3').
        exists l', s3. split; [exact Hrun|]. cbn in *.
        split; [intros e' ?; apply elem_of_cons; right; by apply Hsub|].
        split; [intros i Hi; apply Hs1; rewrite <- E2; by apply Hmono|].
        split; [|split; cbn; congruence].
        intros Ht e' [->|He']%elem_of_cons; [|by apply Hterm].
        right. intros Hi. apply Hmono in Hi. rewrite E2 in Hi. by apply Hs1'.
    + destruct (IH s) as (l' & s3 & Hrun & Hsub & Hmono & Hterm & L3).
      rewrite (bind_Done _ _ _ _ _ Hrun). exists (e :: l'), s3.
      split; [reflexivity|].
      split; [intros e' [->|?]%elem_of_cons; apply elem_of_cons; [by left|right; by apply Hsub]|].
      split; [done|]. split; [|done].
      intros Ht e' [->|He']%elem_of_cons; [left; apply elem_of_cons; by left|].
      destruct (Hterm Ht e' He'); [left; apply elem_of_cons; by right|by right].
Qed.

Lemma remove_variables_variable_scans o : preserves scans_only_end (remove_variables_variable o).
Proof.
  intros s. unfold remove_variables_variable, on_variables_stats.
  set (ctx := mkRemoveIfContext _ _ _ _ _ _).
  destruct (list_remove_if_scans ctx vse_user_fctx (variables_stats s) s)
    as (l' & s' & Hrun & Hsub & Hmono & Hterm & L & L'); [done|].
  cbn. cbn in Hrun. rewrite Hrun. unfold scans_only_end. cbn. split; [done|]. split.
  - intros e He. by apply Hterm.
  - intros e He. left. by rewrite L'.
Qed.

Create HintDb scans discriminated.
#[global] Hint Resolve remove_variables_variable_scans : scans.

Ltac pres_scans :=
  repeat first [ pres_step | solve [eauto with scans] | by same_registry ].

Lemma readPackage_scans k : preserves scans_only_end (readPackage k).
Proof. unfold readPackage. pres_scans. Qed.
#[global] Hint Resolve readPackage_scans : scans.

Lemma readVariable_scans o : preserves scans_only_end (readVariable o).
Proof. unfold readVariable. pres_scans. Qed.
#[global] Hint Resolve readVariable_scans : scans.

Lemma readStates_scans o : preserves scans_only_end (readStates o).
Proof. unfold readStates. pres_scans. Qed.
#[global] Hint Resolve readStates_scans : scans.

Lemma GetActualState_scans o : preserves scans_only_end (GetActualState o).
Proof. unfold GetActualState. pres_scans. Qed.
#[global] Hint Resolve GetActualState_scans : scans.

Lemma updActualState_scans o f : preserves scans_only_end (updActualState o f).
Proof. unfold updActualState. pres_scans. Qed.
#[global] Hint Resolve updActualState_scans : scans.

Lemma writeStates_scans o l : preserves scans_only_end (writeStates o l).
Proof. unfold writeStates. pres_scans. Qed.
#[global] Hint Resolve writeStates_scans : scans.

Lemma get_trans_var_num_scans k : preserves scans_only_end (get_trans_var_num k).
Proof. unfold get_trans_var_num. pres_scans. Qed.
#[global] Hint Resolve get_trans_var_num_scans : scans.

Lemma resetVariablesCache_scans : preserves scans_only_end resetVariablesCache.
Proof. unfold resetVariablesCache. pres_scans. Qed.
#[global] Hint Resolve resetVariablesCache_scans : scans.

Lemma isPackageEmpty_scans k : preserves scans_only_end (isPackageEmpty k).
Proof. unfold isPackageEmpty. pres_scans. Qed.
#[global] Hint Resolve isPackageEmpty_scans : scans.

Lemma removeObject_scans o : preserves scans_only_end (removeObject o).
Proof. unfold removeObject. pres_scans. Qed.
#[global] Hint Resolve removeObject_scans : scans.

Lemma removeState_scans o i : preserves scans_only_end (removeState o i).
Proof. unfold removeState. pres_scans. Qed.
#[global] Hint Resolve removeState_scans : scans.

Lemma numOfRegVars_scans k : preserves scans_only_end (numOfRegVars k).
Proof. unfold numOfRegVars. pres_scans. Qed.
#[global] Hint Resolve numOfRegVars_scans : scans.

Lemma initObjectHistory_scans o : preserves scans_only_end (initObjectHistory o).
Proof. unfold initObjectHistory, get_typlenbyval. pres_scans. Qed.
#[global] Hint Resolve initObjectHistory_scans : scans.

Lemma changesStackIsEmpty_scans : preserves scans_only_end changesStackIsEmpty.
Proof. unfold changesStackIsEmpty. pres_scans. Qed.
#[global] Hint Resolve changesStackIsEmpty_scans : scans.

Lemma pushOnHeadFrame_scans o : preserves scans_only_end (pushOnHeadFrame o).
Proof. unfold pushOnHeadFrame. pres_scans. Qed.
#[global] Hint Resolve pushOnHeadFrame_scans : scans.

Lemma isObjectChangedInUpperTrans_scans o :
  preserves scans_only_end (isObjectChangedInUpperTrans o).
Proof. unfold isObjectChangedInUpperTrans, GetCurrentTransactionNestLevel. pres_scans. Qed.
#[global] Hint Resolve isObjectChangedInUpperTrans_scans : scans.

Lemma createSavepoint_scans o : preserves scans_only_end (createSavepoint o).
Proof. unfold createSavepoint. pres_scans. Qed.
#[global] Hint Resolve createSavepoint_scans : scans.

Lemma rollbackSavepoint_scans o sub : preserves scans_only_end (rollbackSavepoint o sub).
Proof.
  unfold rollbackSavepoint, addToChangesStackUpperLevel, GetCurrentTransactionNestLevel.
  pres_scans.
Qed.
#[global] Hint Resolve rollbackSavepoint_scans : scans.

Lemma releaseSavepoint_scans o sub : preserves scans_only_end (releaseSavepoint o sub).
Proof. unfold releaseSavepoint, addToChangesStackUpperLevel. pres_scans. Qed.
#[global] Hint Resolve releaseSavepoint_scans : scans.

Lemma applyAction_scans a l sub : preserves scans_only_end (applyAction a l sub).
Proof. unfold applyAction. pres_scans. Qed.
#[global] Hint Resolve applyAction_scans : scans.

Lemma processChanges_scans a sub : preserves scans_only_end (processChanges a sub).
Proof. unfold processChanges. pres_scans. Qed.

Definition row1 : HashRecordEntry := mkHashRecordEntry 1 false 10.
Definition row2 : HashRecordEntry := mkHashRecordEntry 2 false 20.

Definition record_t : VariableEntry :=
  mkVariable
    (mkTransObject "t"
       [mkTransState true (mkLevels 1)
          (VarBody (record (mkRecordVar (Some 100) (Some [row1; row2]))))])
    "p" RECORDOID true true false.

(** After [BEGIN] and two [pgv_insert('p','t',row,true)]. *)
Definition session_with_rows : Session :=
  mkSession 1
    (Some {[ "p" := mkPackage
                      (mkTransObject "p" [mkTransState true (mkLevels 1) (PackBody 1)])
                      None (Some {[ "t" := record_t ]}) ]})
    (Some [mkChangesStackNode [VarPtr "p" true "t"] [PackPtr "p"]])
    [] [] None None [] ∅ ∅ cat0.

(** C8.  A scan of [variable_select] that returned its first row is in the
    registry.  The executor-end hook, and the pre-commit callback alike,
    ends the scan and empties the registry, but [freeStatsLists] leaves
    [funcctx->user_fctx] pointing to the scan, where every path through
    [list_remove_if] nulls it with [clear_fctx]; so the next fetch does not
    see the sequence as done: it goes on with the scan that was ended and
    returns the second row. *)
Lemma executor_end_keeps_back_pointer :
  let first := variable_select "p" "t" 7 session_with_rows in
  let after_end := (variable_ExecutorEnd first.2).2 in
  let after_commit := (pgvTransCallback XACT_EVENT_PRE_COMMIT first.2).2 in
  first.1 = Done (SRF_RETURN_NEXT 10) /\
  length (variables_stats first.2) = 1%nat /\
  variables_stats after_end = [] /\
  user_fctx after_end !! 7%nat = Some (Some 0%nat) /\
  (variable_select "p" "t" 7 after_end).1 = Done (SRF_RETURN_NEXT 20) /\
  variables_stats after_commit = [] /\
  user_fctx after_commit !! 7%nat = Some (Some 0%nat).
Proof. vm_compute. repeat split; reflexivity. Qed.

(** ** Frames of the engine's functions

    For a preorder [R] on sessions, which writes [R] tolerates decides which
    functions preserve it. *)

Section EngineFrames.
Context (R : Session -> Session -> Prop) `{!PreOrder R}.

Definition W_stack : Prop := forall c s, R s (set_changesStack c s).
Definition W_cache : Prop := forall lp lv s, R s (set_cache lp lv s).
Definition W_obj (o : ObjPtr) : Prop := forall h s, R s (modStates o h s).
Definition W_pack (k : string) : Prop := forall f s, R s (updPackage k f s).

Ltac pres := repeat first [ pres_step | solve [eauto] ].

Lemma W_pack_obj o : W_pack (ptrPackage o) -> W_obj o.
Proof.
  intros H h s. destruct (modStates_as_updPackage o h s) as [f ->]. apply H.
Qed.

Lemma getKeyFromName_frame nm : preserves R (getKeyFromName nm).
Proof. unfold getKeyFromName. pres. Qed.

Lemma readPackage_frame k : preserves R (readPackage k).
Proof. unfold readPackage. pres. Qed.

Lemma readVariable_frame o : preserves R (readVariable o).
Proof. unfold readVariable. pres. Qed.

Lemma readStates_frame o : preserves R (readStates o).
Proof. unfold readStates. pres. Qed.

Hint Resolve getKeyFromName_frame readPackage_frame readVariable_frame
  readStates_frame : core.

Lemma GetActualState_frame o : preserves R (GetActualState o).
Proof. unfold GetActualState. pres. Qed.

Hint Resolve GetActualState_frame : core.

Lemma isObjectChangedInCurrentTrans_frame o :
  preserves R (isObjectChangedInCurrentTrans o).
Proof. unfold isObjectChangedInCurrentTrans, GetCurrentTransactionNestLevel. pres. Qed.

Lemma get_trans_var_num_frame k : preserves R (get_trans_var_num k).
Proof. unfold get_trans_var_num. pres. Qed.

Lemma numOfRegVars_frame k : preserves R (numOfRegVars k).
Proof. unfold numOfRegVars. pres. Qed.

Lemma get_typlenbyval_frame t : preserves R (get_typlenbyval t).
Proof. unfold get_typlenbyval. pres. Qed.

Hint Resolve isObjectChangedInCurrentTrans_frame get_trans_var_num_frame
  numOfRegVars_frame get_typlenbyval_frame : core.

Lemma updActualState_frame o f : W_obj o -> preserves R (updActualState o f).
Proof. intros Ho. unfold updActualState. pres. Qed.

Lemma writeStates_frame o l : W_obj o -> preserves R (writeStates o l).
Proof. intros Ho. unfold writeStates. pres. Qed.

Lemma createSavepoint_frame o : W_obj o -> preserves R (createSavepoint o).
Proof. intros Ho. unfold createSavepoint. pres. Qed.

Lemma prepareChangesStack_frame : W_stack -> preserves R prepareChangesStack.
Proof.
  intros Hs. unfold prepareChangesStack, pushChangesStack,
    GetCurrentTransactionNestLevel. pres.
Qed.

Lemma pushOnHeadFrame_frame o : W_stack -> preserves R (pushOnHeadFrame o).
Proof. intros Hs. unfold pushOnHeadFrame. pres. Qed.

Hint Resolve updActualState_frame writeStates_frame createSavepoint_frame
  prepareChangesStack_frame pushOnHeadFrame_frame : core.

Lemma addToChangesStack_frame o :
  W_stack -> W_obj o -> preserves R (addToChangesStack o).
Proof.
  intros Hs Ho. unfold addToChangesStack, GetCurrentTransactionNestLevel. pres.
Qed.

Hint Resolve addToChangesStack_frame : core.

Lemma markVariableRemoved_frame o :
  W_stack -> W_obj o -> preserves R (markVariableRemoved o).
Proof. intros Hs Ho. unfold markVariableRemoved. pres. Qed.

Lemma set_trans_var_num_frame k n :
  W_obj (PackPtr k) -> preserves R (set_trans_var_num k n).
Proof. intros Ho. unfold set_trans_var_num. pres. Qed.

Lemma makePackHTAB_frame k t : W_pack k -> preserves R (makePackHTAB k t).
Proof. intros Hk. unfold makePackHTAB. pres. Qed.

Lemma initObjectHistory_frame o : W_obj o -> preserves R (initObjectHistory o).
Proof. intros Ho. unfold initObjectHistory. pres. Qed.

Lemma resetVariablesCache_frame : W_cache -> preserves R resetVariablesCache.
Proof. intros Hc. unfold resetVariablesCache. pres. Qed.

Hint Resolve markVariableRemoved_frame set_trans_var_num_frame makePackHTAB_frame
  initObjectHistory_frame resetVariablesCache_frame W_pack_obj : core.

Lemma createVariableInternal_frame pkey nm t is_rec is_trans :
  W_stack -> W_pack pkey ->
  preserves R (createVariableInternal pkey nm t is_rec is_trans).
Proof.
  intros Hs Hk.
  assert (Ho : forall o, ptrPackage o = pkey -> W_obj o)
    by (intros o <-; by apply W_pack_obj).
  unfold createVariableInternal. pres.
  all: try (apply Ho; reflexivity).
  all: try (eapply updActualState_frame || eapply addToChangesStack_frame
            || eapply createSavepoint_frame || eapply set_trans_var_num_frame
            || eapply initObjectHistory_frame); eauto.
Qed.
End EngineFrames.

(** ** Creating packages and variables *)

(** A run that must return: neither an error nor undefined behaviour. *)
Abbreviation wpt := (wpg False (fun _ _ => False)).

Lemma wpt_run {A} (c : M A) a s s' :
  wpt c (fun a1 s1 => a1 = a /\ s1 = s') s -> c s = (Done a, s').
Proof.
  unfold wpg, post. destruct (c s) as [[a1| |] s1]; try done. by intros [-> ->].
Qed.

Lemma wp_preserves {A} (R : Session -> Session -> Prop) (c : M A)
    (Q : A -> Session -> Prop) s :
  preserves R c -> (forall a s', R s s' -> Q a s') -> wp c Q s.
Proof.
  intros Hc HQ. unfold wpg, post. specialize (Hc s).
  destruct (c s) as [[a| |] s1]; auto.
Qed.

Definition same_on {A} (view : Session -> A) (s s' : Session) : Prop := view s' = view s.
Global Instance same_on_preorder {A} (view : Session -> A) : PreOrder (same_on view).
Proof. split; [done|]. intros s1 s2 s3 H1 H2. unfold same_on in *. congruence. Qed.

Definition pack_head_valid (k : string) (s : Session) : Prop :=
  exists st rest, objStates (PackPtr k) s = Some (st :: rest) /\ is_valid st = true.

Lemma markAll_pack_states k l :
  preserves (same_on (objStates (PackPtr k)))
    (forM_ l (fun kv : string * VariableEntry => markVariableRemoved (VarPtr k true kv.1))).
Proof.
  apply preserves_forM_; [apply _|]. intros kv.
  apply markVariableRemoved_frame; [apply _| |].
  - intros c s0. unfold same_on. apply objStates_set_changesStack.
  - intros h s0. unfold same_on. by apply objStates_modStates_ne.
Qed.

Lemma objStates_PackPtr_storePackage_eq k pack s :
  objStates (PackPtr k) (storePackage k pack s) = Some (states (transObject pack)).
Proof. rewrite objStates_PackPtr_storePackage. by rewrite decide_True. Qed.

#[global] Hint Rewrite objStates_PackPtr_storePackage_eq : pgv.

Lemma createPackage_post nm tr s :
  wp (createPackage nm tr)
    (fun key s1 => key = nm /\ (VARSIZE_ANY_EXHDR nm >=? 63) = false /\
                   pack_head_valid nm s1) s.
Proof.
  unfold createPackage, ensurePackagesHashExists, initObjectHistory.
  wp_run.
  wp_cut_new (fun (_ : unit) (s1 : Session) => True) as s1 H1.
  { wp_all; cbn; done. }
  wp_run.
  wp_cut_new (fun (_ : unit) s1 => pack_head_valid nm s1) as s2 H2.
  { wp_all.
    all: try (eapply wp_preserves; [apply (markAll_pack_states nm)|];
              unfold same_on; intros _ s' Hs').
    all: unfold pack_head_valid; try rewrite Hs'.
    all: wp_fin. }
  destruct H2 as (pst & prest & Hp & Hpv). views_in Hp.
  destruct (findPackage nm s2) as [pack|] eqn:Hfp; [|done]. views_in Hp. simplify_eq.
  wp_all. all: unfold pack_head_valid. all: wp_fin.
Qed.

Lemma createVariableInternal_post pkey nm t is_rec tr s :
  pack_head_valid pkey s ->
  wp (createVariableInternal pkey nm t is_rec tr)
    (fun o s2 =>
       o = VarPtr pkey tr nm /\ (VARSIZE_ANY_EXHDR nm >=? 63) = false /\
       pack_head_valid pkey s2 /\
       (exists var st rest,
          findVariable pkey tr nm s2 = Some var /\ typid var = t /\ is_record var = is_rec /\
          states (var_transObject var) = st :: rest /\ is_valid st = true) /\
       findVariable pkey (negb tr) nm s2 = None) s.
Proof.
  intros (pst & prest & Hp & Hpv).
  unfold createVariableInternal, initObjectHistory, set_trans_var_num, get_typlenbyval.
  rewrite objStates_PackPtr in Hp.
  destruct (findPackage pkey s) as [pack|] eqn:Hfp; [|done]. cbn in Hp. simplify_eq.
  wp_run.
  wp_cut (fun (_ : unit) s1 => s1 = s /\ findVariable pkey (negb tr) nm s = None) as s1 H1.
  { rewrite (findVariable_unfold _ _ _ s), Hfp. wp_all; split; try done.
    match goal with
    | H : bool_decide _ = false |- _ =>
        apply bool_decide_eq_false in H; by apply eq_None_not_Some
    end. }
  destruct H1 as [-> Hother]. views_in Hother.
  wp_run.
  wp_cut_new (fun (_ : unit) s1 =>
     pack_head_valid pkey s1 /\
       (exists var,
          findVariable pkey tr nm s1 = Some var /\ typid var = t /\ is_record var = is_rec) /\
       findVariable pkey (negb tr) nm s1 = None) as s2 H2.
  { wp_all. all: unfold pack_head_valid. all: wp_fin. }
  destruct H2 as ((pst & prest & Hp & Hpv) & (var & Hv & <- & <-) & Hother).
  views_in Hp. destruct (findPackage pkey s2) as [pack|] eqn:Hfp; [|done].
  views_in Hp. views_in Hv. views_in Hother. simplify_eq.
  wp_all. all: unfold pack_head_valid. all: wp_fin.
Qed.

(** ** Setting and getting a scalar *)

Lemma getPackage_eq nm strict s :
  getPackage nm strict s
  = if VARSIZE_ANY_EXHDR nm >=? 63 then (Raise (NameTooLong nm), s)
    else
      match findPackage nm s with
      | Some _ =>
          match objStates (PackPtr nm) s with
          | Some (st :: _) =>
              if is_valid st then (Done (Some nm), s)
              else if strict then (Raise (UnrecognizedPackage nm), s)
                   else (Done None, s)
          | _ => (Undefined, s)
          end
      | None => if strict then (Raise (UnrecognizedPackage nm), s) else (Done None, s)
      end.
Proof.
  unfold getPackage. cbn [bind]. rewrite getKeyFromName_eq.
  destruct (_ >=? _); [done|]. cbn [bind gets]. rewrite <- packagesHash_lookup.
  destruct (packagesHash s) as [tbl|]; [|unfold ret, ereport; by destruct strict].
  unfold text in *. destruct (tbl !! nm); [|cbn; by destruct strict].
  cbn [bind]. rewrite GetActualState_eq.
  destruct (objStates (PackPtr nm) s) as [[|st ?]|]; try done.
  unfold ret, ereport. by destruct (is_valid st), strict.
Qed.

Lemma variable_get_visible p v t strict tr var st rest sc s :
  (VARSIZE_ANY_EXHDR p >=? 63) = false ->
  (VARSIZE_ANY_EXHDR v >=? 63) = false ->
  pack_head_valid p s ->
  findVariable p tr v s = Some var ->
  findVariable p (negb tr) v s = None ->
  typid var = t -> is_record var = false ->
  states (var_transObject var) = st :: rest ->
  is_valid st = true ->
  body st = VarBody (scalar sc) ->
  variable_get p v t strict s = (Done (value sc, is_null sc), s).
Proof.
  intros Hp Hv (pst & prest & Hps & Hpv) Hvar Hother <- Hrec Hst Hval Hbody.
  apply wpt_run. unfold variable_get, getVariableInternal. unfold text in *.
  views_in Hps. destruct (findPackage p s) as [pack|] eqn:Hfp; [|done].
  views_in Hps. views_in Hvar. views_in Hother. simplify_eq.
  wp_step. eapply wpg_eq; [apply getPackage_eq|].
  wp_run.
  assert (Hreg : match varHashRegular pack with
                 | Some h => bool_decide (is_Some (h !! v))
                 | None => false
                 end = negb tr).
  { destruct tr; cbn in *.
    - destruct (varHashRegular pack) as [h|]; [|done]. by rewrite Hother.
    - destruct (varHashRegular pack) as [h|]; [|done]. by rewrite Hvar. }
  assert (Htr : match varHashTransact pack with
                | Some h => bool_decide (is_Some (h !! v))
                | None => false
                end = tr).
  { destruct tr; cbn in *.
    - destruct (varHashTransact pack) as [h|]; [|done]. by rewrite Hvar.
    - destruct (varHashTransact pack) as [h|]; [|done]. by rewrite Hother. }
  rewrite Hreg, Htr. clear Hreg Htr.
  rewrite negb_involutive, orb_negb_l.
  wp_run.
  rewrite Z.eqb_refl. cbn [negb eqb].
  wp_all. all: done.
Qed.

Lemma variable_set_visible p v t x isnull tr s :
  wp (variable_set p v t x isnull tr)
    (fun _ s' =>
       (VARSIZE_ANY_EXHDR p >=? 63) = false /\
       (VARSIZE_ANY_EXHDR v >=? 63) = false /\
       pack_head_valid p s' /\
       (exists var st rest sc,
          findVariable p tr v s' = Some var /\ typid var = t /\ is_record var = false /\
          states (var_transObject var) = st :: rest /\ is_valid st = true /\
          body st = VarBody (scalar sc) /\
          value sc = (if isnull then 0 else x) /\ is_null sc = isnull) /\
       findVariable p (negb tr) v s' = None) s.
Proof.
  unfold variable_set. wp_step.
  wp_cut_new (fun key s1 => key = p /\ (VARSIZE_ANY_EXHDR p >=? 63) = false /\
                            pack_head_valid p s1) as s1 H1.
  { apply createPackage_post. }
  destruct H1 as (-> & Hp & Hpv). wp_step.
  eapply wpg_mono; [by apply createVariableInternal_post|].
  clear s1 Hpv. intros o s2 (-> & Hv & (pst & prest & Hps & Hpv) & (var & st & rest & Hvar & <- & Hrec & Hst & Hval) & Hother).
  views_in Hps. destruct (findPackage p s2) as [pack|] eqn:Hfp; [|done].
  views_in Hps. views_in Hvar. views_in Hother. simplify_eq.
  wp_all. all: unfold pack_head_valid. all: wp_fin.
Qed.

(** The round trip, with a datum taken for its value.  After [variable_set]
    stored a non-null value [x] under [p].[v], a [variable_get] of [p].[v]
    with the same type, in the session that the call left, returns [x] with
    the null flag false, and leaves the session as it is; strict or not.
    What happens to the memory of a datum passed by reference is followed in
    [Memory] below. *)
Lemma set_get_round_trip p v t x tr strict s s' :
  variable_set p v t x false tr s = (Done tt, s') ->
  variable_get p v t strict s' = (Done (x, false), s').
Proof.
  intros Hset.
  pose proof (variable_set_visible p v t x false tr s) as H.
  eapply wpg_run in H; [|exact Hset].
  destruct H as (Hp & Hv & Hpv & (var & st & rest & sc & Hvar & Ht & Hrec & Hst & Hval & Hb
                                  & Hx & Hn) & Hother).
  rewrite <- Hx, <- Hn. by eapply variable_get_visible.
Qed.

Lemma set_get_round_trip_witness :
  variable_get "p" "x" 23 true (variable_set "p" "x" 23 42 false true (emptySession cat0 1)).2
  = (Done (42, false), (variable_set "p" "x" 23 42 false true (emptySession cat0 1)).2).
Proof.
  apply (set_get_round_trip "p" "x" 23 42 true true (emptySession cat0 1)).
  vm_compute. reflexivity.
Defined.

(** ** What a call of [variable_set] writes *)

(** The variables that a step leaves as they are: all of them, or all but one. *)
Definition same_vars (s s' : Session) : Prop :=
  forall p t v, findVariable p t v s' = findVariable p t v s.



Lemma findPackage_Some_hash k s pack :
  findPackage k s = Some pack -> exists h, packagesHash s = Some h.
Proof.
  rewrite <- packagesHash_lookup. destruct (packagesHash s); [eauto|done].
Qed.

Lemma findVariable_new_table p t v k t' s pack :
  findPackage k s = Some pack -> pack_htab pack t' = None ->
  findVariable p t v (updPackage k (set_pack_htab t' (Some ∅)) s) = findVariable p t v s.
Proof.
  intros Hk Ht. rewrite findVariable_set_pack_htab. case_decide as Hd; [|done].
  destruct Hd as [-> ->]. by rewrite findVariable_unfold, Hk, Ht, lookup_empty.
Qed.





(** The session that a call leaves. *)
Definition exec {A} (c : M A) (s : Session) : Session := (c s).2.

(** [BEGIN; set p.x; set p.y; SAVEPOINT; set p.x; remove_package p]: the
    variable [x] has two states, and the package is marked as removed. *)
Definition removed_session : Session :=
  exec (StartTransaction ;;;
        variable_set "p" "x" 23 1 false true ;;;
        variable_set "p" "y" 23 2 false true ;;;
        StartSubTransaction ;;;
        variable_set "p" "x" 23 5 false true ;;;
        remove_package "p")
       (emptySession cat0 0).


(** [BEGIN; set p.x; SAVEPOINT; set p.x]: two states under [x], the package
    is valid. *)
Definition session_with_savepoint : Session :=
  exec (StartTransaction ;;;
        variable_set "p" "x" 23 1 false true ;;;
        StartSubTransaction ;;;
        variable_set "p" "x" 23 5 false true)
       (emptySession cat0 0).



(** ** A name in the table of the other transactionality *)

Lemma preparedStack_ready s :
  1 <= nestLevel s -> changesStack s <> Some [] ->
  exists c cs, preparedStack s = Some (c :: cs).
Proof.
  intros Hl Hs. unfold preparedStack.
  destruct (changesStack s) as [[|c cs]|]; [done|eauto|].
  destruct (Z.to_nat (nestLevel s)) as [|n] eqn:E; [lia|]. cbn. eauto.
Qed.

Lemma createPackage_valid_returns nm tr s pst prest n :
  VARSIZE_ANY_EXHDR nm <= 62 ->
  objStates (PackPtr nm) s = Some (pst :: prest) ->
  is_valid pst = true -> body pst = PackBody n ->
  1 <= nestLevel s -> changesStack s <> Some [] ->
  wpt (createPackage nm tr)
    (fun key s1 => key = nm /\ pack_head_valid nm s1 /\ same_vars s s1) s.
Proof.
  intros Hnm Hp Hpv Hb Hl Hs.
  destruct (preparedStack_ready s Hl Hs) as (c & cs & Hps).
  unfold createPackage, ensurePackagesHashExists, initObjectHistory.
  views_in Hp. destruct (findPackage nm s) as [pack|] eqn:Hfp; [|done].
  views_in Hp. simplify_eq.
  destruct (findPackage_Some_hash _ _ _ Hfp) as [h Hh].
  assert (Hsz : (VARSIZE_ANY_EXHDR nm >=? 63) = false) by lia.
  wp_all. all: unfold pack_head_valid, same_vars. all: wp_fin.
  all: erewrite findVariable_new_table; [wp_fin | wp_fin ..].
Qed.







(** ** A package that comes back *)

Lemma wpt_inv {A} (c : M A) (Q : A -> Session -> Prop) s :
  wpt c Q s -> exists a s', c s = (Done a, s') /\ Q a s'.
Proof. unfold wpg, post. destruct (c s) as [[a| |] s1]; try done. eauto. Qed.

(** One round of the loop of [createPackage] over [varHashTransact]. *)
Lemma markVariableRemoved_run p t v s st rest b :
  objStates (VarPtr p t v) s = Some (st :: rest) ->
  copyBody TRANS_VARIABLE (body st) = Some b ->
  1 <= nestLevel s -> changesStack s <> Some [] ->
  wpt (markVariableRemoved (VarPtr p t v))
    (fun _ s' =>
       nestLevel s' = nestLevel s /\ changesStack s' <> Some [] /\
       (forall o', o' <> VarPtr p t v -> objStates o' s' = objStates o' s) /\
       exists hd,
         is_valid hd = false /\ level (levels hd) = nestLevel s /\
         (objStates (VarPtr p t v) s' = Some (hd :: st :: rest) \/
          objStates (VarPtr p t v) s' = Some (hd :: rest) /\
          level (levels st) = nestLevel s)) s.
Proof.
  intros Hst Hb Hl Hs.
  destruct (preparedStack_ready s Hl Hs) as (c & cs & Hps).
  unfold markVariableRemoved. views_in Hst.
  wp_all. all: bool_facts. all: try (exfalso; cbn in *; lia).
  all: try congruence.
  all: split; [by views|]. all: split; [by views|].
  all: split; [intros oX HneX; by views|].
  all: eexists; split; [|split]; [| |first [left; views; reflexivity | right; split; [views; reflexivity|]]].
  all: views. all: done.
Qed.

(** What the loop needs of a variable, and what it leaves: a head state at
    the current level, not valid, over the states that were there; the old
    head is gone only if it was the state of the current level already. *)
Definition can_be_saved (o : ObjPtr) (s : Session) : Prop :=
  exists st rest b,
    objStates o s = Some (st :: rest) /\ copyBody TRANS_VARIABLE (body st) = Some b.

Definition marked_removed (o : ObjPtr) (s s' : Session) : Prop :=
  exists hd st rest,
    objStates o s = Some (st :: rest) /\
    is_valid hd = false /\ level (levels hd) = nestLevel s /\
    (objStates o s' = Some (hd :: st :: rest) \/
     objStates o s' = Some (hd :: rest) /\ level (levels st) = nestLevel s).

Lemma markAll_run nm (l : list (string * VariableEntry)) s :
  NoDup l.*1 -> 1 <= nestLevel s -> changesStack s <> Some [] ->
  (forall kv, kv ∈ l -> can_be_saved (VarPtr nm true kv.1) s) ->
  wpt (forM_ l (fun kv => markVariableRemoved (VarPtr nm true kv.1)))
    (fun _ s' =>
       nestLevel s' = nestLevel s /\ changesStack s' <> Some [] /\
       (forall o', (forall kv, kv ∈ l -> o' <> VarPtr nm true kv.1) ->
                   objStates o' s' = objStates o' s) /\
       (forall kv, kv ∈ l -> marked_removed (VarPtr nm true kv.1) s s')) s.
Proof.
  revert s. induction l as [|kv l IH]; intros s Hnd Hl Hs Hall; cbn [forM_].
  - apply wpg_ret. repeat split; try done. intros kv Hkv. by apply elem_of_nil in Hkv.
  - apply NoDup_cons in Hnd as [Hkv Hnd]. cbn [fmap list_fmap] in Hkv.
    destruct (Hall kv) as (st & rest & b & Hst & Hb); [by left|].
    apply wpg_bind. eapply wpg_mono; [by eapply markVariableRemoved_run|].
    intros _ s1 (Hl1 & Hs1 & Hoth1 & hd & Hhd & Hlv & Hres).
    eapply wpg_mono.
    { apply IH; [done|lia|done|]. intros kv' Hkv'.
      destruct (Hall kv') as (st' & rest' & b' & Hst' & Hb'); [by right|].
      exists st', rest', b'. split; [|done]. rewrite Hoth1; [done|].
      intros [= E]. apply Hkv. rewrite <- E. by apply list_elem_of_fmap_2. }
    intros _ s2 (Hl2 & Hs2 & Hoth2 & Hmk2).
    split; [lia|]. split; [done|]. split.
    + intros o' Ho'. rewrite Hoth2 by (intros kv' Hkv'; apply Ho'; by right).
      apply Hoth1, Ho'. by left.
    + intros kv' [->|Hkv']%elem_of_cons.
      * exists hd, st, rest. split; [done|]. split; [done|]. split; [done|].
        rewrite Hoth2; [done|]. intros kv' Hkv' [= E]. apply Hkv. rewrite E.
        by apply list_elem_of_fmap_2.
      * destruct (Hmk2 kv' Hkv') as (hd' & st' & rest' & Hst' & Hhd' & Hlv' & Hres').
        exists hd', st', rest'. rewrite <- Hl1. split; [|done].
        rewrite <- Hst'. symmetry. apply Hoth1. intros [= E]. apply Hkv.
        rewrite <- E. by apply list_elem_of_fmap_2.
Qed.

Lemma objStates_new_table o k t' s pack :
  findPackage k s = Some pack -> pack_htab pack t' = None ->
  objStates o (updPackage k (set_pack_htab t' (Some ∅)) s) = objStates o s.
Proof.
  intros Hk Ht. destruct o as [k'|p t v].
  - apply objStates_PackPtr_set_pack_htab.
  - rewrite !objStates_VarPtr. by erewrite findVariable_new_table.
Qed.

Lemma markAll_cut nm (g : gmap string VariableEntry) s s_mid
    (Q : unit -> Session -> Prop) :
  1 <= nestLevel s -> nestLevel s_mid = nestLevel s -> changesStack s_mid <> Some [] ->
  (forall k, objStates (VarPtr nm true k) s_mid = objStates (VarPtr nm true k) s) ->
  (forall k var, g !! k = Some var -> can_be_saved (VarPtr nm true k) s) ->
  (forall s2,
     nestLevel s2 = nestLevel s -> changesStack s2 <> Some [] ->
     objStates (PackPtr nm) s2 = objStates (PackPtr nm) s_mid ->
     (forall k var, g !! k = Some var -> marked_removed (VarPtr nm true k) s s2) ->
     Q tt s2) ->
  wpt (forM_ (map_to_list g) (fun kv => markVariableRemoved (VarPtr nm true kv.1))) Q s_mid.
Proof.
  intros Hl Hlm Hsm Hsame Hall HQ.
  eapply wpg_mono.
  { apply markAll_run; [apply NoDup_fst_map_to_list|lia|done|].
    intros [k var] Hkv%elem_of_map_to_list. cbn.
    unfold can_be_saved. rewrite Hsame. by eapply Hall. }
  intros [] s2 (Hl2 & Hs2 & Hoth & Hmk). apply HQ; [lia|done| |].
  - apply Hoth. by intros kv _.
  - intros k var Hk.
    destruct (Hmk (k, var)) as (hd & st & rest & Hst & Hhd & Hlv & Hres);
      [by apply elem_of_map_to_list|].
    cbn in *. exists hd, st, rest. rewrite <- Hsame, <- Hlm. done.
Qed.

Lemma createPackage_resurrects_run nm tr s pack pst prest n :
  VARSIZE_ANY_EXHDR nm <= 62 ->
  findPackage nm s = Some pack ->
  states (transObject pack) = pst :: prest ->
  is_valid pst = false -> body pst = PackBody n ->
  (forall k var, findVariable nm true k s = Some var -> can_be_saved (VarPtr nm true k) s) ->
  1 <= nestLevel s -> changesStack s <> Some [] ->
  wpt (createPackage nm tr)
    (fun key s' =>
       key = nm /\
       (exists hd,
          is_valid hd = true /\ level (levels hd) = nestLevel s /\
          (objStates (PackPtr nm) s' = Some (hd :: pst :: prest) \/
           objStates (PackPtr nm) s' = Some (hd :: prest) /\
           level (levels pst) = nestLevel s)) /\
       (forall k var, findVariable nm true k s = Some var ->
                      marked_removed (VarPtr nm true k) s s')) s.
Proof.
  intros Hnm Hfp Hp Hpv Hb Hvars Hl Hs.
  destruct (findPackage_Some_hash _ _ _ Hfp) as [h Hh].
  assert (Hsz : (VARSIZE_ANY_EXHDR nm >=? 63) = false) by lia.
  unfold createPackage, ensurePackagesHashExists.
  wp_upto. views. wp_upto. views.
  wp_cut (fun (_ : unit) s1 =>
     nestLevel s1 = nestLevel s /\ changesStack s1 <> Some [] /\
     (exists hd,
        is_valid hd = true /\ body hd = PackBody n /\
        (objStates (PackPtr nm) s1 = Some (hd :: pst :: prest) /\ level (levels hd) = 0 \/
         objStates (PackPtr nm) s1 = Some (hd :: prest) /\
         level (levels hd) = nestLevel s /\ level (levels pst) = nestLevel s)) /\
     (forall k var, findVariable nm true k s = Some var ->
                    marked_removed (VarPtr nm true k) s s1)) as s1 H1.
  { wp_all.
    all: try (apply (markAll_cut _ _ s);
              [done|by views|by views|intros kX; by views
              |intros kX varX HkX; apply (Hvars kX varX); by views
              |intros s2 Hl2 Hs2 Hp2 Hm2; split; [done|]; split; [done|]; split;
               [rewrite Hp2|intros kX varX HkX; views_in HkX; by apply (Hm2 kX varX)]]).
    all: try (split; [by views|]; split; [by views|]; split;
              [|intros kX varX HkX; by views_in HkX]).
    all: bool_facts; views.
    all: eexists; (split; [|split]); [| |first [left; split; [reflexivity|done]
                                              |right; split; [reflexivity|]; split; done]].
    all: done. }
  destruct H1 as (Hl1 & Hs1 & (hd & Hhd & Hbd & Hcase) & Hm1).
  destruct (preparedStack_ready s1 ltac:(lia) Hs1) as (c1 & cs1 & Hps1).
  clear Hfp Hp Hh Hvars Hs.
  wp_cut (fun key s' =>
     key = nm /\
     (forall k, objStates (VarPtr nm true k) s' = objStates (VarPtr nm true k) s1) /\
     exists hd' X,
       objStates (PackPtr nm) s1 = Some (hd :: X) /\
       objStates (PackPtr nm) s' = Some (hd' :: X) /\
       is_valid hd' = true /\ level (levels hd') = nestLevel s) as s2 H2.
  { destruct Hcase as [[Hp1 Hlv1]|(Hp1 & Hlv1 & Hlvp)].
    all: views_in Hp1; destruct (findPackage nm s1) as [pack1|] eqn:Hfp1; [|done].
    all: views_in Hp1.
    all: wp_all.
    all: bool_facts.
    all: (split; [done|]; split;
          [intros kX;
           repeat first [ progress views
                        | erewrite findVariable_new_table by eassumption
                        | erewrite objStates_new_table by eassumption ]; done|]).
    all: eexists _, _; (split; [views; reflexivity|]); (split; [views; reflexivity|]).
    all: split; views; first [done | lia | congruence]. }
  destruct H2 as (-> & Hv2 & hd' & X & Hp1 & Hp2 & Hhd' & Hlv').
  split; [done|]. split.
  - exists hd'. split; [done|]. split; [done|].
    destruct Hcase as [[Hp Hlv]|(Hp & Hlv & Hlvp)]; rewrite Hp in Hp1; simplify_eq; eauto.
  - intros k var Hk. destruct (Hm1 k var Hk) as (hd0 & st & rest & Hst & Hhd0 & Hlv0 & Hres).
    exists hd0, st, rest. rewrite Hv2. done.
Qed.

(** The transactional variables of a package, and whether the value of a
    variable can be copied by [createSavepoint]. *)
Definition transVars (nm : string) (s : Session) : list (string * VariableEntry) :=
  match findPackage nm s with
  | Some pack => map_to_list (default ∅ (varHashTransact pack))
  | None => []
  end.

Definition saveable (var : VariableEntry) : bool :=
  match states (var_transObject var) with
  | st :: _ =>
      match copyBody TRANS_VARIABLE (body st) with
      | Some _ => true
      | None => false
      end
  | [] => false
  end.

(** * Further properties of the code *)

(** ** Further rules for the symbolic execution *)

Lemma delete_second {A} (x y : A) l : delete 1%nat (x :: y :: l) = x :: l.
Proof. done. Qed.

Lemma delete_first {A} (x : A) l : delete 0%nat (x :: l) = l.
Proof. done. Qed.

Lemma delete_second_single {A} (x : A) : delete 1%nat [x] = [x].
Proof. done. Qed.

Lemma bool_decide_nil_nil {A} : bool_decide (@nil A = []) = true.
Proof. done. Qed.

Lemma bool_decide_cons_nil {A} (x : A) l : bool_decide (x :: l = []) = false.
Proof. done. Qed.

#[global] Hint Rewrite @delete_second @delete_first @delete_second_single
  @bool_decide_nil_nil @bool_decide_cons_nil : pgv.

(** ** The generic removal from a registry list *)

Fixpoint remove_first {E} (f : E -> bool) (l : list E) : list E :=
  match l with
  | [] => []
  | e :: rest => if f e then rest else e :: remove_first f rest
  end.

Definition remove_all {E} (f : E -> bool) (l : list E) : list E :=
  filter (fun e => f e = false) l.

(** The run of [list_remove_if] in the model, where [hash_seq_term] only
    takes the scan out of the registry.  The hypothesis covers every context
    of the file: [clear_fctx] nulls the cell the entry points to. *)
Lemma list_remove_if_run {E} (ctx : RemoveIfContext E) (cell : E -> option nat)
    (l : list E) (s : Session) :
  (forall e, ric_clear_fctx ctx e = clear_fctx (cell e)) ->
  exists s',
    list_remove_if ctx l s
    = (Done (if ric_match_first ctx then remove_first (ric_eq ctx) l
             else remove_all (ric_eq ctx) l), s') /\
    packagesHash s' = packagesHash s /\ changesStack s' = changesStack s.
Proof.
  intros Hclear. revert s. induction l as [|e l IH]; intros s; cbn [list_remove_if].
  - exists s. by destruct (ric_match_first ctx).
  - unfold remove_all. rewrite filter_cons. cbn [remove_first].
    destruct (ric_eq ctx e) eqn:He.
    + rewrite decide_False by done.
      set (s1 := if ric_term ctx
                 then set_seq_scans (filter (fun i => i <> ric_getter ctx e) (seq_scans s)) s
                 else s).
      assert (H1 : (if ric_term ctx then hash_seq_term (ric_getter ctx e) else ret tt) s
                   = (Done tt, s1)) by (subst s1; by destruct (ric_term ctx)).
      assert (Hs1 : packagesHash s1 = packagesHash s /\ changesStack s1 = changesStack s)
        by (subst s1; by destruct (ric_term ctx)).
      rewrite (bind_Done _ _ _ _ _ H1). rewrite Hclear.
      assert (H2 : exists s2, clear_fctx (cell e) s1 = (Done tt, s2) /\
                     packagesHash s2 = packagesHash s1 /\ changesStack s2 = changesStack s1)
        by (destruct (cell e); cbn; eauto).
      destruct H2 as (s2 & H2 & Hp2 & Hc2).
      rewrite (bind_Done _ _ _ _ _ H2).
      assert (H3 : pfree_status (ric_getter ctx e) s2
                   = (Done tt, set_seq_status (delete (ric_getter ctx e) (seq_status s2)) s2))
        by done.
      rewrite (bind_Done _ _ _ _ _ H3).
      destruct (ric_match_first ctx).
      * eexists. split; [reflexivity|]. cbn. destruct Hs1. split; congruence.
      * destruct (IH (set_seq_status (delete (ric_getter ctx e) (seq_status s2)) s2))
          as (s3 & Hrun & Hp3 & Hc3).
        exists s3. split; [exact Hrun|]. cbn in *. destruct Hs1. split; congruence.
    + rewrite decide_True by done.
      destruct (IH s) as (s3 & Hrun & Hp3 & Hc3).
      rewrite (bind_Done _ _ _ _ _ Hrun). exists s3.
      split; [|done]. unfold ret. by destruct (ric_match_first ctx).
Qed.


(** X1. What [list_remove_if] returns.  Whenever it returns, with
    [match_first] the list is without its first entry that [eq] accepts,
    otherwise without every such entry, and what is kept is in the order it
    had; the table of packages and the changes stack are not touched.  With
    [term] unset, so that [hash_seq_term] is not called, it always returns.
    The hypothesis covers every context of the file: [clear_fctx] nulls the
    cell the entry points to. *)
Theorem list_remove_if_result {E} (ctx : RemoveIfContext E) (cell : E -> option nat)
    (l : list E) (s : Session) :
  (forall e, ric_clear_fctx ctx e = clear_fctx (cell e)) ->
  (forall l' s',
     list_remove_if ctx l s = (Done l', s') ->
     l' = (if ric_match_first ctx then remove_first (ric_eq ctx) l
           else remove_all (ric_eq ctx) l) /\
     packagesHash s' = packagesHash s /\ changesStack s' = changesStack s) /\
  (ric_term ctx = false -> exists l' s', list_remove_if ctx l s = (Done l', s')).
Proof.
  intros Hclear.
  destruct (list_remove_if_run ctx cell l s Hclear) as (s1 & Hrun & Hp & Hc).
  split.
  - intros l' s' Hret. rewrite Hrun in Hret. injection Hret as <- <-. done.
  - intros _. eauto.
Qed.

Definition status_ctx (status : nat) : RemoveIfContext VariableStatEntry :=
  mkRemoveIfContext _ (fun e => bool_decide (vse_status e = status)) vse_status
    true false VariableStatEntry_clear_fctx.

Definition three_scans : list VariableStatEntry :=
  [mkVariableStatEntry 1 (VarPtr "p" true "x") "p" (mkLevels 1) None;
   mkVariableStatEntry 2 (VarPtr "p" true "y") "p" (mkLevels 1) None;
   mkVariableStatEntry 1 (VarPtr "p" true "x") "p" (mkLevels 2) None].

Lemma list_remove_if_result_witness :
  (forall l' s',
     list_remove_if (status_ctx 1) three_scans (emptySession cat0 1) = (Done l', s') ->
     l' = (if ric_match_first (status_ctx 1)
           then remove_first (ric_eq (status_ctx 1)) three_scans
           else remove_all (ric_eq (status_ctx 1)) three_scans) /\
     packagesHash s' = packagesHash (emptySession cat0 1) /\
     changesStack s' = changesStack (emptySession cat0 1)) /\
  (ric_term (status_ctx 1) = false ->
   exists l' s',
     list_remove_if (status_ctx 1) three_scans (emptySession cat0 1) = (Done l', s')).
Proof.
  apply (list_remove_if_result (status_ctx 1) vse_user_fctx three_scans
           (emptySession cat0 1)).
  intros e. reflexivity.
Defined.

(** ** The changes stack *)

(** X2. In a transaction, [addToChangesStack] on an object that has a state
    returns, gives the head state the current nesting level and leaves the
    rest of the states; a second call changes nothing.  When the head state
    was not of the current level, the object is then in the head frame of
    the changes stack. *)
Theorem addToChangesStack_twice o st rest s :
  objStates o s = Some (st :: rest) -> 1 <= nestLevel s -> changesStack s <> Some [] ->
  exists s' frame frames,
    addToChangesStack o s = (Done tt, s') /\
    addToChangesStack o s' = (Done tt, s') /\
    objStates o s' = Some (with_level (nestLevel s) st :: rest) /\
    changesStack s' = Some (frame :: frames) /\
    (level (levels st) <> nestLevel s ->
       o ∈ changedVarsList frame ++ changedPacksList frame).
Proof.
  intros Ho Hl Hcs.
  destruct (preparedStack_ready s Hl Hcs) as (c & cs & Hps).
  rewrite addToChangesStack_eq, Hps, Ho.
  destruct (level (levels st) =? nestLevel s) eqn:Hlv.
  - apply Z.eqb_eq in Hlv. eexists _, c, cs. split; [reflexivity|].
    rewrite addToChangesStack_eq. views. rewrite Hlv. views.
    assert (Hst : with_level (nestLevel s) st = st).
    { destruct st as [? [?] ?]. cbn in *. by subst. }
    rewrite Hst.
    split; [done|]. split; [done|]. split; [done|]. done.
  - eexists _, (pushChanged o c), cs. split; [reflexivity|].
    rewrite addToChangesStack_eq. views.
    split.
    { f_equal. by rewrite set_changesStack_modStates. }
    split; [done|]. split; [done|].
    intros _. unfold pushChanged. destruct (ptrType o); cbn; set_solver.
Qed.

(** [BEGIN; set p.x; SAVEPOINT]. *)
Definition session_in_subtransaction : Session :=
  exec (StartTransaction ;;;
        variable_set "p" "x" 23 1 false true ;;;
        StartSubTransaction)
       (emptySession cat0 0).

Lemma addToChangesStack_twice_witness :
  exists s' frame frames,
    addToChangesStack (VarPtr "p" true "x") session_in_subtransaction = (Done tt, s') /\
    addToChangesStack (VarPtr "p" true "x") s' = (Done tt, s') /\
    objStates (VarPtr "p" true "x") s'
      = Some (with_level (nestLevel session_in_subtransaction)
                (mkTransState true (mkLevels 1)
                   (VarBody (scalar (mkScalarVar 1 false true 4)))) :: []) /\
    changesStack s' = Some (frame :: frames) /\
    (level (levels (mkTransState true (mkLevels 1)
                      (VarBody (scalar (mkScalarVar 1 false true 4)))))
       <> nestLevel session_in_subtransaction ->
     VarPtr "p" true "x" ∈ changedVarsList frame ++ changedPacksList frame).
Proof.
  apply (addToChangesStack_twice (VarPtr "p" true "x")
           (mkTransState true (mkLevels 1) (VarBody (scalar (mkScalarVar 1 false true 4))))
           [] session_in_subtransaction).
  - vm_compute. reflexivity.
  - vm_compute. discriminate.
  - vm_compute. discriminate.
Defined.


(** ** Release of one object *)

Lemma wpt_unit (c : M unit) (Q : Session -> Prop) s :
  wpt c (fun _ s' => Q s') s -> exists s', c s = (Done tt, s') /\ Q s'.
Proof. unfold wpg, post. destruct (c s) as [[[]| |] s1]; try done. eauto. Qed.

Definition changed_in_parent (rest : list TransState) (lvl : Z) : bool :=
  match rest with
  | nxt :: _ => level (levels nxt) =? lvl - 1
  | [] => false
  end.

(** X3. [releaseSavepoint] on an object whose head state is valid and of the
    current level returns and writes that object only.  The head state moves
    to the level below.  When the state beneath it is of that level, that
    state is dropped and the changes stack stays; otherwise every state stays
    and the object is pushed on the head frame of the changes stack, which
    is the frame of the parent level, when there is one. *)
Theorem releaseSavepoint_valid_head o sub hd rest cs s :
  objStates o s = Some (hd :: rest) -> is_valid hd = true ->
  level (levels hd) = nestLevel s -> changesStack s = Some cs ->
  exists s',
    releaseSavepoint o sub s = (Done tt, s') /\
    (forall o', o' <> o -> objStates o' s' = objStates o' s) /\
    if changed_in_parent rest (nestLevel s)
    then objStates o s' = Some (with_level (nestLevel s - 1) hd :: tail rest) /\
         changesStack s' = Some cs
    else objStates o s' = Some (with_level (nestLevel s - 1) hd :: rest) /\
         changesStack s' = Some (match cs with
                                 | c :: cs' => pushChanged o c :: cs'
                                 | [] => []
                                 end).
Proof.
  intros Ho Hv Hl Hcs. apply wpt_unit. unfold releaseSavepoint.
  assert (Hup : (level (levels hd) =? nestLevel s - 1) = false) by lia.
  assert (Hlv : level (levels hd) - 1 = nestLevel s - 1) by lia.
  apply Z.eqb_eq in Hl.
  destruct rest as [|nxt rest]; cbn [changed_in_parent tail];
    [|destruct (level (levels nxt) =? nestLevel s - 1) eqn:Hn].
  all: destruct cs as [|c cs].
  all: wp_all.
  all: rewrite ?Hlv.
  all: split; [intros o' Hne; by rewrite ?objStates_modStates_ne by done|].
  all: split; by views.
Qed.

Definition frame_of_x : ChangesStackNode :=
  mkChangesStackNode [VarPtr "p" true "x"] [PackPtr "p"].

Definition head_of_x : TransState :=
  mkTransState true (mkLevels 2) (VarBody (scalar (mkScalarVar 5 false true 4))).

Definition first_of_x : TransState :=
  mkTransState true (mkLevels 1) (VarBody (scalar (mkScalarVar 1 false true 4))).

Lemma releaseSavepoint_valid_head_witness :
  exists s',
    releaseSavepoint (VarPtr "p" true "x") true session_with_savepoint = (Done tt, s') /\
    (forall o', o' <> VarPtr "p" true "x" ->
       objStates o' s' = objStates o' session_with_savepoint) /\
    if changed_in_parent [first_of_x] (nestLevel session_with_savepoint)
    then objStates (VarPtr "p" true "x") s'
           = Some (with_level (nestLevel session_with_savepoint - 1) head_of_x
                     :: tail [first_of_x]) /\
         changesStack s' = Some [frame_of_x; frame_of_x]
    else objStates (VarPtr "p" true "x") s'
           = Some (with_level (nestLevel session_with_savepoint - 1) head_of_x
                     :: [first_of_x]) /\
         changesStack s' = Some (match [frame_of_x; frame_of_x] with
                                 | c :: cs' => pushChanged (VarPtr "p" true "x") c :: cs'
                                 | [] => []
                                 end).
Proof.
  apply (releaseSavepoint_valid_head (VarPtr "p" true "x") true head_of_x [first_of_x]
           [frame_of_x; frame_of_x] session_with_savepoint).
  - vm_compute. reflexivity.
  - reflexivity.
  - vm_compute. reflexivity.
  - vm_compute. reflexivity.
Defined.

(** ** Sessions without running scans *)

Definition quiet (s : Session) : Prop :=
  variables_stats s = [] /\ packages_stats s = [].

Lemma set_variables_stats_same s : set_variables_stats (variables_stats s) s = s.
Proof. by destruct s. Qed.

Lemma set_packages_stats_same s : set_packages_stats (packages_stats s) s = s.
Proof. by destruct s. Qed.

Lemma on_variables_stats_nil ctx s :
  variables_stats s = [] -> on_variables_stats ctx s = (Done tt, s).
Proof.
  intros H. unfold on_variables_stats. cbn. rewrite H. cbn.
  by rewrite <- H, set_variables_stats_same.
Qed.

Lemma on_packages_stats_nil ctx s :
  packages_stats s = [] -> on_packages_stats ctx s = (Done tt, s).
Proof.
  intros H. unfold on_packages_stats. cbn. rewrite H. cbn.
  by rewrite <- H, set_packages_stats_same.
Qed.

Lemma freeStatsLists_nil s :
  variables_stats s = [] -> packages_stats s = [] -> freeStatsLists s = (Done tt, s).
Proof.
  intros H1 H2. unfold freeStatsLists. cbn. rewrite H1. cbn. rewrite H2. cbn.
  rewrite <- H1 at 1. rewrite set_variables_stats_same.
  by rewrite <- H2, set_packages_stats_same.
Qed.

Lemma variables_stats_set_packagesHash h s :
  variables_stats (set_packagesHash h s) = variables_stats s.
Proof. done. Qed.

Lemma packages_stats_set_packagesHash h s :
  packages_stats (set_packagesHash h s) = packages_stats s.
Proof. done. Qed.

Lemma varHashRegular_set_pack_htab_true x pack :
  varHashRegular (set_pack_htab true x pack) = varHashRegular pack.
Proof. done. Qed.

Lemma varHashTransact_set_pack_htab_true x pack :
  varHashTransact (set_pack_htab true x pack) = x.
Proof. done. Qed.

Lemma varHashRegular_set_pack_htab_false x pack :
  varHashRegular (set_pack_htab false x pack) = x.
Proof. done. Qed.

Lemma varHashTransact_set_pack_htab_false x pack :
  varHashTransact (set_pack_htab false x pack) = varHashTransact pack.
Proof. done. Qed.

#[global] Hint Rewrite variables_stats_set_packagesHash packages_stats_set_packagesHash
  varHashRegular_set_pack_htab_true varHashTransact_set_pack_htab_true
  varHashRegular_set_pack_htab_false varHashTransact_set_pack_htab_false : pgv.

(** The table of packages is not empty when it holds a package: the test at
    the end of [processChanges]. *)
Lemma hash_size_rule U E (A B : M unit) (Q : unit -> Session -> Prop) k pack s :
  findPackage k s = Some pack ->
  wpg U E B Q s ->
  wpg U E (h <- gets packagesHash ;;
           tbl <- deref h ;;
           if bool_decide (size tbl = 0%nat) then A else B) Q s.
Proof.
  intros Hk HB. rewrite <- packagesHash_lookup in Hk.
  unfold wpg. cbn. destruct (packagesHash s) as [tbl|]; [|done]. cbn.
  rewrite bool_decide_eq_false_2; [exact HB|].
  intros Hz. apply map_size_empty_iff in Hz. subst tbl. by rewrite lookup_empty in Hk.
Qed.

(** The same test when the table may have become empty. *)
Lemma hash_size_cases U E (A B : M unit) (Q : unit -> Session -> Prop) s :
  hash_present s = true ->
  ((forall k, findPackage k s = None) -> wpg U E A Q s) ->
  wpg U E B Q s ->
  wpg U E (h <- gets packagesHash ;;
           tbl <- deref h ;;
           if bool_decide (size tbl = 0%nat) then A else B) Q s.
Proof.
  intros Hp HA HB. destruct (packagesHash_cases s Hp) as (tbl & Htbl & Hz).
  unfold wpg. cbn. rewrite Htbl. cbn. case_bool_decide; [by apply HA, Hz|exact HB].
Qed.

(** Steps on a session without running scans. *)
Ltac wq_step :=
  lazymatch goal with
  | |- wpg _ _ (on_variables_stats _) _ _ =>
      eapply wpg_eq; [apply on_variables_stats_nil; by views|]
  | |- wpg _ _ (on_packages_stats _) _ _ =>
      eapply wpg_eq; [apply on_packages_stats_nil; by views|]
  | |- wpg _ _ freeStatsLists _ _ =>
      eapply wpg_eq; [apply freeStatsLists_nil; by views|]
  | |- wpg _ _ (forM_ _ _) _ _ =>
      progress (cbn [forM_ changedVarsList changedPacksList])
  | |- wpg _ _ (bind (gets packagesHash) _) _ _ =>
      first [ match goal with
              | H : findPackage ?k _ = Some _ |- _ =>
                  eapply (hash_size_rule _ _ _ _ _ k); [views; reflexivity|]
              end
            | eapply hash_size_cases; [by views| intros ?| ]
            | wp_step ]
  | _ => wp_step
  end.

Ltac wq_all := repeat first [ wq_step | wp_case ].

(** ** A transactional scalar variable through the levels of a transaction *)

(** The package [p] with the states [pl] holds, in its transactional table,
    the scalar variable [v] of type [t] with the states [vl]; [reg] is its
    regular table. *)
Definition var_at (p v : string) (t : Oid) (reg : option (gmap string VariableEntry))
    (pl vl : list TransState) (s : Session) : Prop :=
  exists pack vars var,
    findPackage p s = Some pack /\ states (transObject pack) = pl /\
    varHashRegular pack = reg /\ varHashTransact pack = Some vars /\
    vars !! v = Some var /\ states (var_transObject var) = vl /\
    typid var = t /\ is_record var = false /\ is_transactional var = true.

Definition not_in (v : string) (reg : option (gmap string VariableEntry)) : Prop :=
  match reg with
  | Some h => h !! v = None
  | None => True
  end.

Definition scalar_state (lvl : Z) (x : Datum) (isnull byval : bool) (len : Z) : TransState :=
  mkTransState true (mkLevels lvl)
    (VarBody (scalar (mkScalarVar (if isnull then 0 else x) isnull byval len))).

Definition pack_state (lvl n : Z) : TransState :=
  mkTransState true (mkLevels lvl) (PackBody n).

Definition frame_of (p v : string) : ChangesStackNode :=
  mkChangesStackNode [VarPtr p true v] [PackPtr p].

Lemma findPackage_storePackage_ne k k' pack s :
  k' <> k -> findPackage k (storePackage k' pack s) = findPackage k s.
Proof. intros. rewrite findPackage_storePackage. by rewrite decide_False. Qed.

Lemma findPackage_deletePackage_ne k k' s :
  k' <> k -> findPackage k (deletePackage k' s) = findPackage k s.
Proof. intros. rewrite findPackage_deletePackage. by rewrite decide_False. Qed.

Lemma findPackage_deletePackage_eq k s : findPackage k (deletePackage k s) = None.
Proof. rewrite findPackage_deletePackage. by rewrite decide_True. Qed.

Lemma gtb_0_0 : (0 >? 0) = false.
Proof. done. Qed.

#[global] Hint Rewrite findPackage_deletePackage_eq gtb_0_0 : pgv.

(** A package that a step on another package leaves alone. *)
Ltac other_package :=
  repeat first
    [ rewrite findPackage_modStates_ne by (cbn; congruence)
    | rewrite findPackage_updPackage_ne by congruence
    | rewrite findPackage_storePackage_ne by congruence
    | rewrite findPackage_deletePackage_ne by congruence
    | rewrite findPackage_set_changesStack
    | rewrite findPackage_set_cache
    | rewrite findPackage_set_nestLevel ];
  try reflexivity.

Ltac var_at_fin :=
  unfold var_at; eexists _, _, _;
  repeat (split; [views; try reflexivity; try done|]);
  views; try done.

Lemma variable_set_in_new_level p v t x isnull reg pst prest vst vrest n sc c cs s :
  VARSIZE_ANY_EXHDR p <= 62 -> VARSIZE_ANY_EXHDR v <= 62 ->
  var_at p v t reg (pst :: prest) (vst :: vrest) s -> not_in v reg ->
  is_valid pst = true -> body pst = PackBody n -> level (levels pst) <> nestLevel s ->
  is_valid vst = true -> body vst = VarBody (scalar sc) ->
  level (levels vst) <> nestLevel s -> 1 <= nestLevel s ->
  changesStack s = Some (c :: cs) -> quiet s ->
  wpt (variable_set p v t x isnull true)
    (fun _ s' =>
       var_at p v t reg
         (pack_state (nestLevel s) n :: pst :: prest)
         (scalar_state (nestLevel s) x isnull (typbyval sc) (typlen sc) :: vst :: vrest) s' /\
       changesStack s'
         = Some (pushChanged (VarPtr p true v) (pushChanged (PackPtr p) c) :: cs) /\
       nestLevel s' = nestLevel s /\ quiet s') s.
Proof.
  intros Hp Hv (pack & vars & var & Hfp & Hpl & Hreg & Htr & Hvar & Hvl & Ht & Hrec & Htv)
    Hnot Hpv Hpb Hplv Hvv Hvb Hvlv Hl Hcs [Hq1 Hq2].
  assert (H0 : (0 =? nestLevel s) = false) by lia.
  subst t. destruct (findPackage_Some_hash _ _ _ Hfp) as [h Hh].
  assert (Hszp : (VARSIZE_ANY_EXHDR p >=? 63) = false) by lia.
  assert (Hszv : (VARSIZE_ANY_EXHDR v >=? 63) = false) by lia.
  assert (Hps : preparedStack s = Some (c :: cs)) by (unfold preparedStack; by rewrite Hcs).
  apply Z.eqb_neq in Hplv, Hvlv.
  unfold variable_set, createPackage, createVariableInternal, ensurePackagesHashExists.
  unfold pack_state, scalar_state. unfold text in *.
  destruct reg as [hr|]; cbn in Hnot.
  all: wp_all.
  all: split; [|split; [by views|split; [by views|unfold quiet; split; by views]]].
  all: var_at_fin.
Qed.

Lemma first_set_run p v t x isnull h c cs s :
  VARSIZE_ANY_EXHDR p <= 62 -> VARSIZE_ANY_EXHDR v <= 62 ->
  packagesHash s = Some h -> findPackage p s = None ->
  preparedStack s = Some (c :: cs) -> 1 <= nestLevel s -> quiet s ->
  wpt (variable_set p v t x isnull true)
    (fun _ s' =>
       var_at p v t None
         [pack_state (nestLevel s) 1]
         [scalar_state (nestLevel s) x isnull (typcache s t).2 (typcache s t).1] s' /\
       changesStack s'
         = Some (pushChanged (VarPtr p true v) (pushChanged (PackPtr p) c) :: cs) /\
       nestLevel s' = nestLevel s /\ quiet s' /\
       (forall k, k <> p -> findPackage k s' = findPackage k s)) s.
Proof.
  intros Hp Hv Hh Hfp Hps Hl [Hq1 Hq2].
  assert (H0 : (0 =? nestLevel s) = false) by lia.
  assert (Hszp : (VARSIZE_ANY_EXHDR p >=? 63) = false) by lia.
  assert (Hszv : (VARSIZE_ANY_EXHDR v >=? 63) = false) by lia.
  unfold variable_set, createPackage, createVariableInternal, ensurePackagesHashExists,
    initObjectHistory, get_typlenbyval, set_trans_var_num.
  unfold pack_state, scalar_state. unfold text in *.
  destruct (changesStack s) as [l|] eqn:Hcs.
  all: wp_all.
  all: split; [|split; [by views|split; [by views|split;
         [unfold quiet; split; by views|intros k Hk; other_package]]]].
  all: var_at_fin.
Qed.

Lemma StartSubTransaction_run cs s :
  changesStack s = Some cs -> quiet s ->
  StartSubTransaction s
  = (Done tt, set_changesStack (Some (emptyFrame :: cs))
                (set_nestLevel (nestLevel s + 1) s)).
Proof.
  intros Hcs [Hq1 Hq2]. apply wpt_run.
  unfold StartSubTransaction, pgvSubTransCallback, pushChangesStack,
    remove_variables_level, remove_packages_level.
  wq_all. by views.
Qed.

Lemma release_sub p v t reg pst2 pst prest vst2 vst vrest c cs s :
  var_at p v t reg (pst2 :: pst :: prest) (vst2 :: vst :: vrest) s ->
  is_valid pst2 = true -> level (levels pst2) = nestLevel s ->
  level (levels pst) = nestLevel s - 1 ->
  is_valid vst2 = true -> level (levels vst2) = nestLevel s ->
  level (levels vst) = nestLevel s - 1 ->
  changesStack s = Some (frame_of p v :: c :: cs) -> quiet s ->
  wpt CommitSubTransaction
    (fun _ s' =>
       var_at p v t reg (with_level (nestLevel s - 1) pst2 :: prest)
         (with_level (nestLevel s - 1) vst2 :: vrest) s' /\
       changesStack s' = Some (c :: cs) /\
       nestLevel s' = nestLevel s - 1 /\ quiet s') s.
Proof.
  intros (pack & vars & var & Hfp & Hpl & Hreg & Htr & Hvar & Hvl & Ht & Hrec & Htv)
    Hpv Hpl2 Hpl1 Hvv Hvl2 Hvl1 Hcs [Hq1 Hq2].
  apply Z.eqb_eq in Hpl2, Hpl1, Hvl2, Hvl1.
  unfold frame_of in *.
  unfold CommitSubTransaction, pgvSubTransCallback, processChanges,
    remove_variables_level, remove_packages_level, applyAction, releaseSavepoint.
  cbn [forM_]. unfold text in *.
  wq_all.
  apply Z.eqb_eq in Hpl2, Hvl2. rewrite Hpl2, Hvl2.
  split; [|split; [by views|split; [by views|unfold quiet; split; by views]]].
  var_at_fin.
Qed.

Lemma commit_top p v t reg pst vst s :
  var_at p v t reg [pst] [vst] s ->
  is_valid pst = true -> level (levels pst) = nestLevel s ->
  is_valid vst = true -> level (levels vst) = nestLevel s ->
  changesStack s = Some [frame_of p v] -> quiet s ->
  wpt CommitTransaction
    (fun _ s' =>
       var_at p v t reg [with_level (nestLevel s - 1) pst]
         [with_level (nestLevel s - 1) vst] s' /\
       changesStack s' = None /\ nestLevel s' = 0 /\ quiet s') s.
Proof.
  intros (pack & vars & var & Hfp & Hpl & Hreg & Htr & Hvar & Hvl & Ht & Hrec & Htv)
    Hpv Hpl1 Hvv Hvl1 Hcs [Hq1 Hq2].
  assert (Hpu : (level (levels pst) =? nestLevel s - 1) = false) by lia.
  assert (Hvu : (level (levels vst) =? nestLevel s - 1) = false) by lia.
  unfold frame_of in *.
  unfold CommitTransaction, pgvTransCallback, processChanges,
    applyAction, releaseSavepoint.
  cbn [forM_]. unfold text in *.
  wq_all.
  rewrite Hpl1, Hvl1.
  split; [|split; [by views|split; [by views|unfold quiet; split; by views]]].
  var_at_fin.
Qed.

Lemma abort_sub p v t reg pst2 pst prest vst2 vst vrest n c cs s :
  var_at p v t reg (pst2 :: pst :: prest) (vst2 :: vst :: vrest) s ->
  body pst = PackBody n -> 0 < n ->
  changesStack s = Some (frame_of p v :: c :: cs) -> quiet s ->
  wpt AbortSubTransaction
    (fun _ s' =>
       var_at p v t reg (pst :: prest) (vst :: vrest) s' /\
       changesStack s' = Some (c :: cs) /\
       nestLevel s' = nestLevel s - 1 /\ quiet s') s.
Proof.
  intros (pack & vars & var & Hfp & Hpl & Hreg & Htr & Hvar & Hvl & Ht & Hrec & Htv)
    Hpb Hn Hcs [Hq1 Hq2].
  unfold frame_of in *.
  unfold AbortSubTransaction, pgvSubTransCallback, processChanges,
    remove_variables_level, remove_packages_level, applyAction, rollbackSavepoint,
    isPackageEmpty.
  cbn [forM_]. unfold text in *.
  destruct reg as [hr|].
  all: wq_all.
  all: try (exfalso;
            match goal with
            | H : (_ =? 0) = true |- _ => apply Z.eqb_eq in H; lia
            end).
  all: split; [|split; [by views|split; [by views|unfold quiet; split; by views]]].
  all: var_at_fin.
Qed.

Lemma var_at_objStates p v t reg pl vl s :
  var_at p v t reg pl vl s ->
  objStates (PackPtr p) s = Some pl /\ objStates (VarPtr p true v) s = Some vl.
Proof.
  intros (pack & vars & var & Hfp & Hpl & Hreg & Htr & Hvar & Hvl & Ht & Hrec & Htv).
  split; views; congruence.
Qed.

Lemma var_at_get p v t reg pst prest vst vrest sc strict s :
  VARSIZE_ANY_EXHDR p <= 62 -> VARSIZE_ANY_EXHDR v <= 62 ->
  var_at p v t reg (pst :: prest) (vst :: vrest) s -> not_in v reg ->
  is_valid pst = true -> is_valid vst = true -> body vst = VarBody (scalar sc) ->
  variable_get p v t strict s = (Done (value sc, is_null sc), s).
Proof.
  intros Hp Hv (pack & vars & var & Hfp & Hpl & Hreg & Htr & Hvar & Hvl & Ht & Hrec & Htv)
    Hnot Hpv Hvv Hb.
  eapply (variable_get_visible p v t strict true var vst vrest sc); try done; try lia.
  - exists pst, prest. split; [by views|done].
  - by views.
  - views. destruct reg as [hr|]; cbn in *; by views.
Qed.

Lemma ensure_new_hash s :
  packagesHash s = None ->
  ensurePackagesHashExists s = (Done tt, set_packagesHash (Some ∅) s) /\
  ensurePackagesHashExists (set_packagesHash (Some ∅) s)
    = (Done tt, set_packagesHash (Some ∅) s).
Proof. intros H. unfold ensurePackagesHashExists. cbn. by rewrite H. Qed.

Lemma variable_set_new_hash p v t x isnull tr s :
  VARSIZE_ANY_EXHDR p <= 62 -> packagesHash s = None ->
  variable_set p v t x isnull tr s
  = variable_set p v t x isnull tr (set_packagesHash (Some ∅) s).
Proof.
  intros Hp H. destruct (ensure_new_hash s H) as [E1 E2].
  unfold variable_set, createPackage. cbn [bind].
  rewrite !getKeyFromName_eq.
  assert (Hsz : (VARSIZE_ANY_EXHDR p >=? 63) = false) by lia.
  rewrite Hsz. by rewrite E1, E2.
Qed.

Lemma first_set p v t x isnull c cs s :
  VARSIZE_ANY_EXHDR p <= 62 -> VARSIZE_ANY_EXHDR v <= 62 ->
  findPackage p s = None ->
  preparedStack s = Some (c :: cs) -> 1 <= nestLevel s -> quiet s ->
  wpt (variable_set p v t x isnull true)
    (fun _ s' =>
       var_at p v t None
         [pack_state (nestLevel s) 1]
         [scalar_state (nestLevel s) x isnull (typcache s t).2 (typcache s t).1] s' /\
       changesStack s'
         = Some (pushChanged (VarPtr p true v) (pushChanged (PackPtr p) c) :: cs) /\
       nestLevel s' = nestLevel s /\ quiet s' /\
       (forall k, k <> p -> findPackage k s' = findPackage k s)) s.
Proof.
  intros Hp Hv Hfp Hps Hl Hq.
  destruct (packagesHash s) as [h|] eqn:Hh; [by eapply first_set_run|].
  unfold wpg. rewrite variable_set_new_hash by done.
  pose proof (first_set_run p v t x isnull ∅ c cs (set_packagesHash (Some ∅) s)) as H.
  unfold wpg in H. rewrite <- (findPackage_set_packagesHash_new p s Hh) in Hfp.
  specialize (H Hp Hv eq_refl Hfp Hps Hl Hq).
  destruct (variable_set _ _ _ _ _ _ _) as [[[]| |] s']; try done.
  cbn in H |- *. destruct H as (H1 & H2 & H3 & H4 & H5).
  split; [done|]. split; [done|]. split; [done|]. split; [done|].
  intros k Hk. rewrite H5 by done. by apply findPackage_set_packagesHash_new.
Qed.

(** [BEGIN; set p.v := x1; SAVEPOINT; set p.v := x2; RELEASE; COMMIT]. *)
Definition two_level_commit (p v : text) (t : Oid) (x1 x2 : Datum) : M unit :=
  StartTransaction ;;;
  variable_set p v t x1 false true ;;;
  StartSubTransaction ;;;
  variable_set p v t x2 false true ;;;
  CommitSubTransaction ;;;
  CommitTransaction.

(** The side conditions of the steps of a scenario. *)
Ltac stage_side :=
  first
    [ done
    | by views
    | cbn; lia
    | reflexivity
    | match goal with
      | H : changesStack _ = None |- preparedStack _ = _ =>
          unfold preparedStack; cbn; by rewrite H
      | H : quiet _ |- quiet _ => destruct H; split; by views
      | H : var_at _ _ _ _ _ _ _ |- var_at _ _ _ _ _ _ _ =>
          first [ exact H | destruct H as (? & ? & ? & ?); var_at_fin ]
      end ].

(** X4. With no package [p] and no transactional change pending, the
    transaction that sets the transactional variable [p].[v], sets it again
    inside a subtransaction, releases the subtransaction and commits, runs
    to its end.  It leaves exactly one state under the variable, valid, of
    level 0 and holding the second value, one state of level 0 under the
    package with [trans_var_num] 1, and no changes stack; [variable_get]
    then returns the second value. *)
Theorem commit_folds_two_levels p v t x1 x2 strict s :
  VARSIZE_ANY_EXHDR p <= 62 -> VARSIZE_ANY_EXHDR v <= 62 ->
  findPackage p s = None -> changesStack s = None -> quiet s ->
  exists s',
    two_level_commit p v t x1 x2 s = (Done tt, s') /\
    objStates (VarPtr p true v) s'
      = Some [scalar_state 0 x2 false (typcache s t).2 (typcache s t).1] /\
    objStates (PackPtr p) s' = Some [pack_state 0 1] /\
    changesStack s' = None /\ nestLevel s' = 0 /\
    variable_get p v t strict s' = (Done (x2, false), s').
Proof.
  intros Hp Hv Hfp Hcs Hq. apply wpt_unit. unfold two_level_commit, StartTransaction.
  wp_step. wp_step.
  eapply wpg_seq.
  { apply (first_set p v t x1 false emptyFrame []); stage_side. }
  cbn [nestLevel set_nestLevel typcache].
  intros _ s1 (Hva1 & Hcs1 & Hl1 & Hq1 & _).
  wp_step. eapply wpg_eq; [by apply StartSubTransaction_run|]. wp_step.
  eapply wpg_seq.
  { eapply (variable_set_in_new_level p v t x2 false None); stage_side. }
  cbn [nestLevel set_nestLevel set_changesStack typbyval typlen].
  intros _ s2 (Hva2 & Hcs2 & Hl2 & Hq2).
  eapply wpg_seq.
  { eapply (release_sub p v t None); stage_side. }
  intros _ s3 (Hva3 & Hcs3 & Hl3 & Hq3). rewrite Hl2, Hl1 in *.
  eapply wpg_mono.
  { eapply (commit_top p v t None); stage_side. }
  intros _ s4 (Hva4 & Hcs4 & Hl4 & Hq4). rewrite Hl3 in *.
  destruct (var_at_objStates _ _ _ _ _ _ _ Hva4) as [Ho1 Ho2].
  split; [exact Ho2|]. split; [exact Ho1|]. split; [done|]. split; [done|].
  by eapply (var_at_get p v t None _ _ _ _
               (mkScalarVar x2 false (typcache s t).2 (typcache s t).1)).
Qed.

Lemma commit_folds_two_levels_witness :
  exists s',
    two_level_commit "p" "x" 23 1 2 (emptySession cat0 0) = (Done tt, s') /\
    objStates (VarPtr "p" true "x") s' = Some [scalar_state 0 2 false true 4] /\
    objStates (PackPtr "p") s' = Some [pack_state 0 1] /\
    changesStack s' = None /\ nestLevel s' = 0 /\
    variable_get "p" "x" 23 true s' = (Done (2, false), s').
Proof.
  apply (commit_folds_two_levels "p" "x" 23 1 2 true (emptySession cat0 0)).
  - vm_compute. discriminate.
  - vm_compute. discriminate.
  - vm_compute. reflexivity.
  - reflexivity.
  - split; reflexivity.
Defined.

(** [SAVEPOINT; set p.v := x; ROLLBACK TO SAVEPOINT]. *)
Definition set_and_abort (p v : text) (t : Oid) (x : Datum) (isnull : bool) : M unit :=
  StartSubTransaction ;;;
  variable_set p v t x isnull true ;;;
  AbortSubTransaction.

(** X5. In a transaction that has a changes stack, take a valid package [p]
    with [trans_var_num] above 0 and in it a valid transactional scalar
    variable [v].  Opening a subtransaction, setting [p].[v] and aborting the
    subtransaction runs to its end and leaves the states of the variable and
    of the package, the changes stack and the nesting level as they were;
    [variable_get] returns the value from before the subtransaction. *)
Theorem abort_restores_variable p v t x isnull strict reg pst prest vst vrest n sc c cs s :
  VARSIZE_ANY_EXHDR p <= 62 -> VARSIZE_ANY_EXHDR v <= 62 ->
  var_at p v t reg (pst :: prest) (vst :: vrest) s -> not_in v reg ->
  is_valid pst = true -> body pst = PackBody n -> 0 < n ->
  level (levels pst) <= nestLevel s ->
  is_valid vst = true -> body vst = VarBody (scalar sc) ->
  level (levels vst) <= nestLevel s -> 1 <= nestLevel s ->
  changesStack s = Some (c :: cs) -> quiet s ->
  exists s',
    set_and_abort p v t x isnull s = (Done tt, s') /\
    objStates (VarPtr p true v) s' = Some (vst :: vrest) /\
    objStates (PackPtr p) s' = Some (pst :: prest) /\
    changesStack s' = Some (c :: cs) /\ nestLevel s' = nestLevel s /\
    variable_get p v t strict s' = (Done (value sc, is_null sc), s').
Proof.
  intros Hp Hv Hva Hnot Hpv Hpb Hn Hpl Hvv Hvb Hvl Hl Hcs Hq.
  apply wpt_unit. unfold set_and_abort.
  wp_step. eapply wpg_eq; [by apply StartSubTransaction_run|]. wp_step.
  eapply wpg_seq.
  { eapply (variable_set_in_new_level p v t x isnull reg pst prest vst vrest n sc);
      stage_side. }
  cbn [nestLevel set_nestLevel set_changesStack].
  intros _ s2 (Hva2 & Hcs2 & Hl2 & Hq2).
  eapply wpg_mono.
  { eapply (abort_sub p v t reg); stage_side. }
  intros _ s3 (Hva3 & Hcs3 & Hl3 & Hq3). rewrite Hl2 in *.
  destruct (var_at_objStates _ _ _ _ _ _ _ Hva3) as [Ho1 Ho2].
  split; [exact Ho2|]. split; [exact Ho1|]. split; [done|]. split; [lia|].
  by eapply (var_at_get p v t reg).
Qed.

(** [BEGIN; set p.x := 1]. *)
Definition session_after_first_set : Session :=
  exec (StartTransaction ;;; variable_set "p" "x" 23 1 false true) (emptySession cat0 0).

Lemma abort_restores_variable_witness :
  exists s',
    set_and_abort "p" "x" 23 7 false session_after_first_set = (Done tt, s') /\
    objStates (VarPtr "p" true "x") s' = Some (scalar_state 1 1 false true 4 :: []) /\
    objStates (PackPtr "p") s' = Some (pack_state 1 1 :: []) /\
    changesStack s' = Some (frame_of "p" "x" :: []) /\
    nestLevel s' = nestLevel session_after_first_set /\
    variable_get "p" "x" 23 true s'
      = (Done (value (mkScalarVar 1 false true 4), is_null (mkScalarVar 1 false true 4)), s').
Proof.
  apply (abort_restores_variable "p" "x" 23 7 false true None (pack_state 1 1) []
           (scalar_state 1 1 false true 4) [] 1 (mkScalarVar 1 false true 4)
           (frame_of "p" "x") [] session_after_first_set).
  - vm_compute. discriminate.
  - vm_compute. discriminate.
  - unfold var_at. eexists _, _, _. vm_compute. repeat split; reflexivity.
  - exact I.
  - reflexivity.
  - reflexivity.
  - reflexivity.
  - vm_compute. discriminate.
  - reflexivity.
  - reflexivity.
  - vm_compute. discriminate.
  - vm_compute. discriminate.
  - vm_compute. reflexivity.
  - split; reflexivity.
Defined.

Lemma abort_top_new p v t pst vst n s :
  var_at p v t None [pst] [vst] s -> body pst = PackBody n ->
  changesStack s = Some [frame_of p v] -> quiet s ->
  wpt AbortTransaction
    (fun _ s' =>
       findPackage p s' = None /\
       (forall k, k <> p -> findPackage k s' = findPackage k s) /\
       changesStack s' = None /\ nestLevel s' = 0 /\ quiet s') s.
Proof.
  intros (pack & vars & var & Hfp & Hpl & Hreg & Htr & Hvar & Hvl & Ht & Hrec & Htv)
    Hpb Hcs [Hq1 Hq2].
  pose proof (hash_present_findPackage _ _ _ Hfp) as Hh.
  unfold frame_of in *.
  unfold AbortTransaction, pgvTransCallback, processChanges,
    applyAction, rollbackSavepoint, removeObject, isPackageEmpty,
    remove_variables_variable, resetVariablesCache.
  cbn [forM_]. unfold text in *.
  wq_all.
  all: split; [by views|].
  all: split; [|split; [by views|split; [by views|unfold quiet; split; by views]]].
  all: intros k Hk; views;
    try match goal with
        | H : forall k, findPackage k _ = None |- _ => specialize (H k); revert H
        end;
    other_package; try (intros ->); done.
Qed.

(** ** A regular variable and the end of a transaction *)

(** The package [p] with the states [pl] holds, in its regular table, the
    scalar variable [v] of type [t] with the states [vl], and has no
    transactional table. *)
Definition reg_at (p v : string) (t : Oid) (pl vl : list TransState) (s : Session) : Prop :=
  exists pack vars var,
    findPackage p s = Some pack /\ states (transObject pack) = pl /\
    varHashRegular pack = Some vars /\ varHashTransact pack = None /\
    vars !! v = Some var /\ states (var_transObject var) = vl /\
    typid var = t /\ is_record var = false /\ is_transactional var = false.

Ltac reg_at_fin :=
  unfold reg_at; eexists _, _, _;
  repeat (split; [views; try reflexivity; try done|]);
  views; try done.

Lemma first_set_regular_run p v t x isnull h c cs s :
  VARSIZE_ANY_EXHDR p <= 62 -> VARSIZE_ANY_EXHDR v <= 62 ->
  packagesHash s = Some h -> findPackage p s = None ->
  preparedStack s = Some (c :: cs) -> 1 <= nestLevel s -> quiet s ->
  wpt (variable_set p v t x isnull false)
    (fun _ s' =>
       reg_at p v t [pack_state (nestLevel s) 0]
         [scalar_state 0 x isnull (typcache s t).2 (typcache s t).1] s' /\
       changesStack s' = Some (pushChanged (PackPtr p) c :: cs) /\
       nestLevel s' = nestLevel s /\ quiet s') s.
Proof.
  intros Hp Hv Hh Hfp Hps Hl [Hq1 Hq2].
  assert (H0 : (0 =? nestLevel s) = false) by lia.
  assert (Hszp : (VARSIZE_ANY_EXHDR p >=? 63) = false) by lia.
  assert (Hszv : (VARSIZE_ANY_EXHDR v >=? 63) = false) by lia.
  unfold variable_set, createPackage, createVariableInternal, ensurePackagesHashExists,
    initObjectHistory, get_typlenbyval, set_trans_var_num.
  unfold pack_state, scalar_state. unfold text in *.
  destruct (changesStack s) as [l|] eqn:Hcs.
  all: wp_all.
  all: split; [|split; [by views|split; [by views|unfold quiet; split; by views]]].
  all: reg_at_fin.
Qed.

Lemma size_lookup_pos {A} (m : gmap string A) k x :
  m !! k = Some x -> (Z.of_nat (size m) >? 0) = true.
Proof.
  intros H. destruct (size m) eqn:E; [|done].
  apply map_size_empty_iff in E. subst m. by rewrite lookup_empty in H.
Qed.

Lemma abort_top_regular p v t pst vl s :
  reg_at p v t [pst] vl s ->
  changesStack s = Some [mkChangesStackNode [] [PackPtr p]] -> quiet s ->
  wpt AbortTransaction
    (fun _ s' =>
       reg_at p v t [pack_state (nestLevel s - 1) 0] vl s' /\
       changesStack s' = None /\ nestLevel s' = 0 /\ quiet s') s.
Proof.
  intros (pack & vars & var & Hfp & Hpl & Hreg & Htr & Hvar & Hvl & Ht & Hrec & Htv)
    Hcs [Hq1 Hq2].
  pose proof (size_lookup_pos _ _ _ Hvar) as Hsz.
  unfold AbortTransaction, pgvTransCallback, processChanges,
    applyAction, rollbackSavepoint, initObjectHistory.
  cbn [forM_]. unfold pack_state. unfold text in *.
  wq_all.
  all: split; [|split; [by views|split; [by views|unfold quiet; split; by views]]].
  all: reg_at_fin.
Qed.

(** ** A package that does not exist *)

Lemma exists_of_missing_package p v s :
  VARSIZE_ANY_EXHDR p <= 62 -> findPackage p s = None ->
  package_exists p s = (Done false, s) /\ variable_exists p v s = (Done false, s).
Proof.
  intros Hp Hfp.
  assert (Hsz : (VARSIZE_ANY_EXHDR p >=? 63) = false) by lia.
  unfold package_exists, variable_exists.
  cbn [bind]. rewrite !getPackage_eq, Hsz, Hfp. done.
Qed.

(** X6. For a package name that the table of packages does not hold:
    [package_exists] and [variable_exists] return false, [variable_get]
    returns NULL when not strict and raises "unrecognized package" when
    strict, and so do [remove_variable] and [remove_package]; none of them
    changes the session. *)
Theorem missing_package p v t s :
  VARSIZE_ANY_EXHDR p <= 62 -> findPackage p s = None ->
  package_exists p s = (Done false, s) /\
  variable_exists p v s = (Done false, s) /\
  variable_get p v t false s = (Done (0, true), s) /\
  variable_get p v t true s = (Raise (UnrecognizedPackage p), s) /\
  remove_variable p v s = (Raise (UnrecognizedPackage p), s) /\
  remove_package p s = (Raise (UnrecognizedPackage p), s).
Proof.
  intros Hp Hfp.
  assert (Hsz : (VARSIZE_ANY_EXHDR p >=? 63) = false) by lia.
  unfold package_exists, variable_exists, variable_get, remove_variable, remove_package.
  cbn [bind]. rewrite !getPackage_eq, Hsz, Hfp. done.
Qed.

Lemma missing_package_witness :
  package_exists "p" (emptySession cat0 1) = (Done false, emptySession cat0 1) /\
  variable_exists "p" "x" (emptySession cat0 1) = (Done false, emptySession cat0 1) /\
  variable_get "p" "x" 23 false (emptySession cat0 1)
    = (Done (0, true), emptySession cat0 1) /\
  variable_get "p" "x" 23 true (emptySession cat0 1)
    = (Raise (UnrecognizedPackage "p"), emptySession cat0 1) /\
  remove_variable "p" "x" (emptySession cat0 1)
    = (Raise (UnrecognizedPackage "p"), emptySession cat0 1) /\
  remove_package "p" (emptySession cat0 1)
    = (Raise (UnrecognizedPackage "p"), emptySession cat0 1).
Proof.
  apply (missing_package "p" "x" 23 (emptySession cat0 1)).
  - vm_compute. discriminate.
  - vm_compute. reflexivity.
Defined.

Lemma first_set_regular p v t x isnull c cs s :
  VARSIZE_ANY_EXHDR p <= 62 -> VARSIZE_ANY_EXHDR v <= 62 ->
  findPackage p s = None ->
  preparedStack s = Some (c :: cs) -> 1 <= nestLevel s -> quiet s ->
  wpt (variable_set p v t x isnull false)
    (fun _ s' =>
       reg_at p v t [pack_state (nestLevel s) 0]
         [scalar_state 0 x isnull (typcache s t).2 (typcache s t).1] s' /\
       changesStack s' = Some (pushChanged (PackPtr p) c :: cs) /\
       nestLevel s' = nestLevel s /\ quiet s') s.
Proof.
  intros Hp Hv Hfp Hps Hl Hq.
  destruct (packagesHash s) as [h|] eqn:Hh; [by eapply first_set_regular_run|].
  unfold wpg. rewrite variable_set_new_hash by done.
  pose proof (first_set_regular_run p v t x isnull ∅ c cs (set_packagesHash (Some ∅) s)) as H.
  unfold wpg in H. rewrite <- (findPackage_set_packagesHash_new p s Hh) in Hfp.
  exact (H Hp Hv eq_refl Hfp Hps Hl Hq).
Qed.

(** [BEGIN; set p.v := x; ROLLBACK]. *)
Definition set_and_abort_all (p v : text) (t : Oid) (x : Datum) (isnull is_trans : bool) :
    M unit :=
  StartTransaction ;;;
  variable_set p v t x isnull is_trans ;;;
  AbortTransaction.

(** X7. With no package [p] and no transactional change pending, the
    transaction that sets the transactional variable [p].[v] and aborts runs
    to its end and leaves no package [p]: [package_exists] and
    [variable_exists] return false.  Every other package is as it was, and
    no changes stack is left. *)
Theorem abort_removes_new_package p v t x isnull s :
  VARSIZE_ANY_EXHDR p <= 62 -> VARSIZE_ANY_EXHDR v <= 62 ->
  findPackage p s = None -> changesStack s = None -> quiet s ->
  exists s',
    set_and_abort_all p v t x isnull true s = (Done tt, s') /\
    findPackage p s' = None /\
    (forall k, k <> p -> findPackage k s' = findPackage k s) /\
    changesStack s' = None /\
    package_exists p s' = (Done false, s') /\
    variable_exists p v s' = (Done false, s').
Proof.
  intros Hp Hv Hfp Hcs Hq. apply wpt_unit. unfold set_and_abort_all, StartTransaction.
  wp_step. wp_step.
  eapply wpg_seq.
  { apply (first_set p v t x isnull emptyFrame []); stage_side. }
  cbn [nestLevel set_nestLevel typcache].
  intros _ s1 (Hva1 & Hcs1 & Hl1 & Hq1 & Hoth1).
  eapply wpg_mono.
  { eapply (abort_top_new p v t); stage_side. }
  intros _ s2 (Hfp2 & Hoth2 & Hcs2 & Hl2 & Hq2).
  split; [done|]. split.
  { intros k Hk. rewrite Hoth2, Hoth1 by done. by views. }
  split; [done|].
  by apply exists_of_missing_package.
Qed.

Lemma abort_removes_new_package_witness :
  exists s',
    set_and_abort_all "p" "x" 23 1 false true (emptySession cat0 0) = (Done tt, s') /\
    findPackage "p" s' = None /\
    (forall k, k <> "p" -> findPackage k s' = findPackage k (emptySession cat0 0)) /\
    changesStack s' = None /\
    package_exists "p" s' = (Done false, s') /\
    variable_exists "p" "x" s' = (Done false, s').
Proof.
  apply (abort_removes_new_package "p" "x" 23 1 false (emptySession cat0 0)).
  - vm_compute. discriminate.
  - vm_compute. discriminate.
  - vm_compute. reflexivity.
  - reflexivity.
  - split; reflexivity.
Defined.

(** X8. With no package [p] and no transactional change pending, the
    transaction that sets the regular variable [p].[v] and aborts runs to its
    end and keeps the variable: [variable_get] returns the value that was
    set, NULL included.  The package is left with one valid state of level 0
    and [trans_var_num] 0, and no changes stack is left. *)
Theorem regular_variable_survives_abort p v t x isnull strict s :
  VARSIZE_ANY_EXHDR p <= 62 -> VARSIZE_ANY_EXHDR v <= 62 ->
  findPackage p s = None -> changesStack s = None -> quiet s ->
  exists s',
    set_and_abort_all p v t x isnull false s = (Done tt, s') /\
    variable_get p v t strict s' = (Done (if isnull then 0 else x, isnull), s') /\
    objStates (PackPtr p) s' = Some [pack_state 0 0] /\
    changesStack s' = None.
Proof.
  intros Hp Hv Hfp Hcs Hq. apply wpt_unit. unfold set_and_abort_all, StartTransaction.
  wp_step. wp_step.
  eapply wpg_seq.
  { apply (first_set_regular p v t x isnull emptyFrame []); stage_side. }
  cbn [nestLevel set_nestLevel typcache].
  intros _ s1 (Hva1 & Hcs1 & Hl1 & Hq1).
  eapply wpg_mono.
  { eapply (abort_top_regular p v t); try exact Hva1; stage_side. }
  intros _ s2 (Hva2 & Hcs2 & Hl2 & Hq2). rewrite Hl1 in Hva2.
  destruct Hva2 as (pack & vars & var & Hfp2 & Hpl & Hreg & Htr & Hvar & Hvl & Ht & Hrec & Htv).
  split; [|split; [by views|done]].
  eapply (variable_get_visible p v t strict false var _ []
            (mkScalarVar (if isnull then 0 else x) isnull _ _)); try done; try lia.
  - eexists _, _. split; [by views|done].
  - by views.
  - by views.
Qed.

Lemma regular_variable_survives_abort_witness :
  exists s',
    set_and_abort_all "p" "x" 23 1 false false (emptySession cat0 0) = (Done tt, s') /\
    variable_get "p" "x" 23 true s' = (Done (if false then 0 else 1, false), s') /\
    objStates (PackPtr "p") s' = Some [pack_state 0 0] /\
    changesStack s' = None.
Proof.
  apply (regular_variable_survives_abort "p" "x" 23 1 false true (emptySession cat0 0)).
  - vm_compute. discriminate.
  - vm_compute. discriminate.
  - vm_compute. reflexivity.
  - reflexivity.
  - split; reflexivity.
Defined.

(** ** What the entry points leave alone *)

(** What a computation can return. *)
Definition returns {A} (P : A -> Prop) (c : M A) : Prop :=
  forall s a s', c s = (Done a, s') -> P a.

Lemma returns_bind {A B} (P : B -> Prop) (c : M A) (k : A -> M B) :
  (forall a, returns P (k a)) -> returns P (bind c k).
Proof.
  intros Hk s b s'. cbn. destruct (c s) as [[a| |] s1]; [|done..]. apply Hk.
Qed.

Lemma returns_ret {A} (P : A -> Prop) (a : A) : P a -> returns P (ret a).
Proof. intros H s b s' [= <- _]. exact H. Qed.

Lemma returns_ereport {A} (P : A -> Prop) e : returns P (ereport e).
Proof. by intros s b s'. Qed.

Lemma returns_undefined {A} (P : A -> Prop) : returns P undefined.
Proof. by intros s b s'. Qed.

Lemma preserves_bind_result {A B} (R : Session -> Session -> Prop) `{!PreOrder R}
    (c : M A) (k : A -> M B) (P : A -> Prop) :
  preserves R c -> returns P c ->
  (forall a, P a -> preserves R (k a)) -> preserves R (bind c k).
Proof.
  intros Hc HP Hk s. specialize (Hc s). specialize (HP s). cbn.
  destruct (c s) as [[a| |] s1]; cbn in *; [|done..].
  etrans; [exact Hc|]. apply Hk. by eapply HP.
Qed.

Ltac rets :=
  repeat first
    [ apply returns_ret
    | apply returns_ereport
    | apply returns_undefined
    | apply returns_bind; intros ?
    | lazymatch goal with
      | |- returns _ (match ?x with _ => _ end) => destruct x
      | |- returns _ (let _ := _ in _) => cbv zeta
      end ].

Lemma getKeyFromName_result nm : returns (fun a => a = nm) (getKeyFromName nm).
Proof. unfold getKeyFromName. rets. done. Qed.

Lemma createPackage_result nm tr : returns (fun a => a = nm) (createPackage nm tr).
Proof.
  unfold createPackage. intros s a s'. cbn [bind].
  destruct (getKeyFromName nm s) as [[key| |] s1] eqn:E; [|done..].
  apply getKeyFromName_result in E as ->. revert s1 a s'.
  change (returns (fun a => a = nm)
            (ensurePackagesHashExists ;;;
             found <- gets (findPackage nm) ;;
             match found with
             | Some _ =>
                 changed <- isObjectChangedInCurrentTrans (PackPtr nm) ;;
                 (if changed then ret tt else createSavepoint (PackPtr nm)) ;;;
                 st <- GetActualState (PackPtr nm) ;;
                 if is_valid st then ret tt
                 else
                   updActualState (PackPtr nm) (with_is_valid true) ;;;
                   pack <- readPackage nm ;;
                   match varHashTransact pack with
                   | Some vars =>
                       forM_ (map_to_list vars)
                         (fun kv => markVariableRemoved (VarPtr nm true kv.1))
                   | None => ret tt
                   end
             | None =>
                 modify (storePackage nm (mkPackage (mkTransObject nm []) None None)) ;;;
                 initObjectHistory (PackPtr nm)
             end ;;;
             pack <- readPackage nm ;;
             match pack_htab pack tr with
             | Some _ => ret tt
             | None => makePackHTAB nm tr
             end ;;;
             changed <- isObjectChangedInCurrentTrans (PackPtr nm) ;;
             (if changed then ret tt else addToChangesStack (PackPtr nm)) ;;;
             ret nm)).
  rets. done.
Qed.

Lemma getPackage_result nm strict :
  returns (fun a => a = Some nm \/ a = None) (getPackage nm strict).
Proof.
  intros s a s'. rewrite getPackage_eq.
  repeat match goal with
         | |- context [match ?x with _ => _ end] => destruct x
         end; intros; simplify_eq; auto.
Qed.

Lemma getVariableInternal_result pkey nm t is_rec strict :
  returns (fun a => forall o, a = Some o -> ptrPackage o = pkey)
    (getVariableInternal pkey nm t is_rec strict).
Proof. unfold getVariableInternal. rets. all: intros o Ho; by simplify_eq. Qed.

Lemma createVariableInternal_result pkey nm t is_rec tr :
  returns (fun a => ptrPackage a = pkey) (createVariableInternal pkey nm t is_rec tr).
Proof. unfold createVariableInternal. rets. all: done. Qed.

(** The steps of a frame proof, with the writes that the relation allows
    among the hypotheses. *)
Ltac frames :=
  repeat first
    [ pres_step
    | solve [eauto]
    | apply getKeyFromName_frame | apply readPackage_frame | apply readVariable_frame
    | apply readStates_frame | apply GetActualState_frame
    | apply isObjectChangedInCurrentTrans_frame | apply get_trans_var_num_frame
    | apply numOfRegVars_frame | apply get_typlenbyval_frame
    | apply updActualState_frame | apply writeStates_frame | apply createSavepoint_frame
    | apply prepareChangesStack_frame | apply pushOnHeadFrame_frame
    | apply addToChangesStack_frame | apply markVariableRemoved_frame
    | apply set_trans_var_num_frame | apply makePackHTAB_frame
    | apply initObjectHistory_frame | apply resetVariablesCache_frame
    | apply createVariableInternal_frame
    | lazymatch goal with |- PreOrder _ => apply _ end ].

(** The getters read only. *)
Lemma getPackage_frame R `{!PreOrder R} nm strict : preserves R (getPackage nm strict).
Proof. unfold getPackage. frames. Qed.

Lemma getVariableInternal_frame R `{!PreOrder R} pkey nm t is_rec strict :
  preserves R (getVariableInternal pkey nm t is_rec strict).
Proof. unfold getVariableInternal. frames. Qed.

(** X9. [variable_get], [variable_exists] and [package_exists] read only:
    whatever they return or raise, the session they leave is the session they
    were called in. *)
Theorem getters_read_only p v t strict s :
  (variable_get p v t strict s).2 = s /\
  (variable_exists p v s).2 = s /\
  (package_exists p s).2 = s.
Proof.
  set (R := same_on (fun s : Session => s)).
  assert (H1 : preserves R (variable_get p v t strict)).
  { unfold variable_get. frames; try apply getPackage_frame; try apply getVariableInternal_frame;
      frames; apply _. }
  assert (H2 : preserves R (variable_exists p v)).
  { unfold variable_exists. frames; try apply getPackage_frame; frames; apply _. }
  assert (H3 : preserves R (package_exists p)).
  { unfold package_exists. frames; try apply getPackage_frame; frames; apply _. }
  split; [apply H1|]. split; [apply H2|apply H3].
Qed.

(** A call on the package [p] and the entry of another package [k]. *)
Section OtherPackages.
Variables (k p : string).
Hypothesis Hkp : k <> p.

Definition other := same_on (findPackage k).

Instance other_preorder : PreOrder other.
Proof. unfold other. apply _. Qed.

Lemma other_stack : W_stack other.
Proof. intros c s. apply findPackage_set_changesStack. Qed.

Lemma other_cache : W_cache other.
Proof. intros lp lv s. apply findPackage_set_cache. Qed.

Lemma other_pack : W_pack other p.
Proof. intros f s. apply findPackage_updPackage_ne. congruence. Qed.

Lemma other_obj o : ptrPackage o = p -> W_obj other o.
Proof. intros E. apply W_pack_obj. rewrite E. apply other_pack. Qed.

Lemma ensurePackagesHashExists_other : preserves other ensurePackagesHashExists.
Proof.
  intros s. unfold ensurePackagesHashExists. cbn.
  destruct (packagesHash s) eqn:E; cbn; [done|].
  by apply findPackage_set_packagesHash_new.
Qed.

Lemma on_variables_stats_other ctx :
  (forall e, ric_clear_fctx ctx e = VariableStatEntry_clear_fctx e) ->
  preserves other (on_variables_stats ctx).
Proof.
  intros Hc. unfold on_variables_stats. frames.
  - apply preserves_list_remove_if; [apply _|..].
    + intros e s. apply findPackage_set_seq_scans.
    + intros e. rewrite Hc. unfold VariableStatEntry_clear_fctx, clear_fctx.
      destruct (vse_user_fctx e); frames. apply findPackage_set_user_fctx.
    + intros e s. apply findPackage_set_seq_status.
  - apply findPackage_set_variables_stats.
Qed.

Lemma createPackage_other tr : preserves other (createPackage p tr).
Proof.
  pose proof other_stack. pose proof other_pack. pose proof other_cache.
  assert (Ho : forall o, ptrPackage o = p -> W_obj other o) by apply other_obj.
  unfold createPackage.
  eapply (@preserves_bind_result _ _ other other_preorder _ _ (fun key => key = p));
    [apply getKeyFromName_frame|apply getKeyFromName_result|intros key ->].
  all: try apply _.
  all: frames.
  all: try apply ensurePackagesHashExists_other.
  all: try (apply Ho; reflexivity).
  all: try (apply findPackage_storePackage_ne; congruence).
  all: apply _.
Qed.

Lemma variable_set_other v t x isnull tr :
  preserves other (variable_set p v t x isnull tr).
Proof.
  pose proof other_stack. pose proof other_pack. pose proof other_cache.
  assert (Ho : forall o, ptrPackage o = p -> W_obj other o) by apply other_obj.
  unfold variable_set.
  eapply (@preserves_bind_result _ _ other other_preorder _ _ (fun key => key = p));
    [apply createPackage_other|apply createPackage_result|intros key ->].
  eapply (@preserves_bind_result _ _ other other_preorder _ _ (fun o => ptrPackage o = p));
    [frames|apply createVariableInternal_result|intros o Hop].
  frames. all: by apply Ho.
Qed.

Lemma removeObject_other o : ptrPackage o = p -> preserves other (removeObject o).
Proof.
  pose proof other_stack. pose proof other_pack. pose proof other_cache.
  assert (Ho : forall o, ptrPackage o = p -> W_obj other o) by apply other_obj.
  intros Hop. unfold removeObject, isPackageEmpty, remove_variables_variable.
  destruct o as [key|pkey tr vkey]; cbn in Hop; subst.
  all: frames.
  all: try (by apply on_variables_stats_other).
  all: try (apply Ho; reflexivity).
  - apply findPackage_deletePackage_ne. congruence.
Qed.

Lemma returns_deref {A} (P : A -> Prop) (o : option A) :
  (forall a, o = Some a -> P a) -> returns P (deref o).
Proof. intros H. destruct o as [a|]; [apply returns_ret; by apply H|apply returns_undefined]. Qed.

Lemma remove_variable_other v : preserves other (remove_variable p v).
Proof.
  pose proof other_stack. pose proof other_pack. pose proof other_cache.
  assert (Ho : forall o, ptrPackage o = p -> W_obj other o) by apply other_obj.
  unfold remove_variable.
  eapply (@preserves_bind_result _ _ other other_preorder _ _ (fun a => a = Some p \/ a = None));
    [apply getPackage_frame; apply _|apply getPackage_result|intros a Ha].
  eapply (@preserves_bind_result _ _ other other_preorder _ _ (fun key => key = p));
    [frames|apply returns_deref; intros; destruct Ha; congruence|intros pkey ->].
  eapply (@preserves_bind_result _ _ other other_preorder _ _
            (fun a => forall o, a = Some o -> ptrPackage o = p));
    [apply getVariableInternal_frame; apply _|apply getVariableInternal_result|intros var Hvar].
  eapply (@preserves_bind_result _ _ other other_preorder _ _ (fun o => ptrPackage o = p));
    [frames|apply returns_deref; exact Hvar|intros o Hop].
  destruct o as [key|pkey tr vkey]; cbn in Hop; subst.
  all: frames.
  all: try (apply Ho; reflexivity).
  all: try (apply removeObject_other; reflexivity).
Qed.

Lemma remove_package_other : preserves other (remove_package p).
Proof.
  pose proof other_stack. pose proof other_pack. pose proof other_cache.
  assert (Ho : forall o, ptrPackage o = p -> W_obj other o) by apply other_obj.
  unfold remove_package.
  eapply (@preserves_bind_result _ _ other other_preorder _ _ (fun a => a = Some p \/ a = None));
    [apply getPackage_frame; apply _|apply getPackage_result|intros a Ha].
  eapply (@preserves_bind_result _ _ other other_preorder _ _ (fun key => key = p));
    [frames|apply returns_deref; intros; destruct Ha; congruence|intros pkey ->].
  unfold removePackageInternal, remove_variables_package.
  frames.
  all: try (by apply on_variables_stats_other).
  all: try (apply Ho; reflexivity).
Qed.
End OtherPackages.

(** X10. A call of [variable_set], [remove_variable] or [remove_package] on
    the package [p] leaves the entry of every other package as it was,
    whatever the call returns or raises. *)
Theorem other_packages_untouched p k v t x isnull tr s :
  k <> p ->
  findPackage k (variable_set p v t x isnull tr s).2 = findPackage k s /\
  findPackage k (remove_variable p v s).2 = findPackage k s /\
  findPackage k (remove_package p s).2 = findPackage k s.
Proof.
  intros Hk. split; [|split].
  - by apply variable_set_other.
  - by apply remove_variable_other.
  - by apply remove_package_other.
Qed.

(** [BEGIN; set q.y; set p.x]: two packages. *)
Definition session_with_two_packages : Session :=
  exec (StartTransaction ;;;
        variable_set "q" "y" 23 2 false true ;;;
        variable_set "p" "x" 23 1 false true)
       (emptySession cat0 0).

Lemma other_packages_untouched_witness :
  is_Some (findPackage "q" session_with_two_packages) /\
  (findPackage "q" (variable_set "p" "x" 23 7 false true session_with_two_packages).2
     = findPackage "q" session_with_two_packages /\
   findPackage "q" (remove_variable "p" "x" session_with_two_packages).2
     = findPackage "q" session_with_two_packages /\
   findPackage "q" (remove_package "p" session_with_two_packages).2
     = findPackage "q" session_with_two_packages).
Proof.
  split.
  - vm_compute. eexists. reflexivity.
  - apply (other_packages_untouched "p" "q" "x" 23 7 false true session_with_two_packages).
    discriminate.
Defined.

(** ** Removal *)

(** What a walk over the registry leaves of the store. *)
Definition same_store (s s' : Session) : Prop :=
  (forall k, findPackage k s' = findPackage k s) /\
  changesStack s' = changesStack s /\ nestLevel s' = nestLevel s.

Global Instance same_store_preorder : PreOrder same_store.
Proof.
  split; [done|]. intros s1 s2 s3 (H1 & H2 & H3) (H1' & H2' & H3').
  split; [|split]; [intros k|..]; congruence.
Qed.

Lemma on_variables_stats_store ctx :
  (forall e, ric_clear_fctx ctx e = VariableStatEntry_clear_fctx e) ->
  preserves same_store (on_variables_stats ctx).
Proof.
  intros Hc. unfold on_variables_stats. frames.
  - apply preserves_list_remove_if; [apply _|..].
    + intros e s. split; [intros k; apply findPackage_set_seq_scans|done].
    + intros e. rewrite Hc. unfold VariableStatEntry_clear_fctx, clear_fctx.
      destruct (vse_user_fctx e); frames.
      split; [intros k; apply findPackage_set_user_fctx|done].
    + intros e s. split; [intros k; apply findPackage_set_seq_status|done].
  - split; [intros k; apply findPackage_set_variables_stats|done].
Qed.

(** A walk over the registry in the middle of a computation. *)
Lemma on_variables_stats_any U E ctx (Q : unit -> Session -> Prop) s :
  (forall e, ric_clear_fctx ctx e = VariableStatEntry_clear_fctx e) ->
  (forall s', same_store s s' -> Q tt s') ->
  wpg U E (on_variables_stats ctx) Q s.
Proof.
  intros Hc HQ. pose proof (on_variables_stats_store ctx Hc s) as H.
  unfold wpg, post.
  assert (Hd : exists s', on_variables_stats ctx s = (Done tt, s')).
  { unfold on_variables_stats. cbn.
    destruct (list_remove_if_scans ctx vse_user_fctx (variables_stats s) s)
      as (l' & s1 & Hrun & _); [intros e; by rewrite Hc|].
    rewrite Hrun. cbn. eauto. }
  destruct Hd as [s' Hd]. rewrite Hd in H |- *. cbn in H. by apply HQ.
Qed.

Lemma removed_package_hidden p s :
  wp (remove_package p)
    (fun _ s' =>
       (VARSIZE_ANY_EXHDR p >=? 63) = false /\
       exists pack st rest,
         findPackage p s' = Some pack /\ states (transObject pack) = st :: rest /\
         is_valid st = false) s.
Proof.
  unfold remove_package, remove_variables_package, removePackageInternal.
  wp_step. eapply wpg_eq; [apply getPackage_eq|].
  wp_all.
  all: apply on_variables_stats_any; [done|intros s1 (Hfp1 & Hcs1 & Hl1)].
  all: specialize (Hfp1 p); rewrite Hv0 in Hfp1; clear Hv0 Hcs1 Hl1.
  all: unfold set_trans_var_num, resetVariablesCache.
  all: wp_all.
  all: split; [done|].
  all: eexists _, _, _; split; [views; reflexivity|]; views; split; [reflexivity|done].
Qed.

(** The getters on a package whose head state is not valid. *)
Lemma invalid_package_hidden p v t pack st rest s :
  (VARSIZE_ANY_EXHDR p >=? 63) = false ->
  findPackage p s = Some pack -> states (transObject pack) = st :: rest ->
  is_valid st = false ->
  package_exists p s = (Done false, s) /\
  variable_exists p v s = (Done false, s) /\
  variable_get p v t false s = (Done (0, true), s) /\
  variable_get p v t true s = (Raise (UnrecognizedPackage p), s).
Proof.
  intros Hp Hfp Hst Hv.
  unfold package_exists, variable_exists, variable_get.
  cbn [bind]. rewrite !getPackage_eq, Hp, Hfp, objStates_PackPtr, Hfp. cbn.
  rewrite Hst, Hv. done.
Qed.

(** X11. When [remove_package] returns, the package is hidden:
    [package_exists] and [variable_exists] return false, [variable_get]
    returns NULL when not strict and raises "unrecognized package" when
    strict. *)
Theorem remove_package_hides p v t s s' :
  remove_package p s = (Done tt, s') ->
  package_exists p s' = (Done false, s') /\
  variable_exists p v s' = (Done false, s') /\
  variable_get p v t false s' = (Done (0, true), s') /\
  variable_get p v t true s' = (Raise (UnrecognizedPackage p), s').
Proof.
  intros Hrun. pose proof (removed_package_hidden p s) as H.
  eapply wpg_run in H; [|exact Hrun].
  destruct H as (Hp & pack & st & rest & Hfp & Hst & Hv).
  by eapply invalid_package_hidden.
Qed.

Lemma remove_package_hides_witness :
  package_exists "p" (exec (remove_package "p") session_after_first_set)
    = (Done false, exec (remove_package "p") session_after_first_set) /\
  variable_exists "p" "x" (exec (remove_package "p") session_after_first_set)
    = (Done false, exec (remove_package "p") session_after_first_set) /\
  variable_get "p" "x" 23 false (exec (remove_package "p") session_after_first_set)
    = (Done (0, true), exec (remove_package "p") session_after_first_set) /\
  variable_get "p" "x" 23 true (exec (remove_package "p") session_after_first_set)
    = (Raise (UnrecognizedPackage "p"), exec (remove_package "p") session_after_first_set).
Proof.
  apply (remove_package_hides "p" "x" 23 session_after_first_set).
  vm_compute. reflexivity.
Defined.

Lemma findVariable_updVariable p t v k t' v' g s :
  findVariable p t v (updPackage k (updVariable t' v' g) s)
  = if decide (k = p /\ t' = t /\ v' = v) then g <$> findVariable p t v s
    else findVariable p t v s.
Proof.
  unfold findVariable. rewrite findPackage_updPackage. case_decide as Hk.
  - subst k. destruct (findPackage p s) as [pack|] eqn:E; cbn.
    + rewrite pack_htab_updVariable. case_decide as Ht.
      * subst t'. destruct (pack_htab pack t) as [h|]; cbn.
        -- rewrite lookup_alter. repeat case_decide; simplify_eq; try done; tauto.
        -- by case_decide.
      * rewrite decide_False by tauto. done.
    + by case_decide.
  - rewrite decide_False by tauto. done.
Qed.

Lemma findVariable_updVariable_eq p t v g s :
  findVariable p t v (updPackage p (updVariable t v g) s) = g <$> findVariable p t v s.
Proof. rewrite findVariable_updVariable. by rewrite decide_True. Qed.

Lemma findVariable_updVariable_other p t v g s :
  findVariable p (negb t) v (updPackage p (updVariable t v g) s)
  = findVariable p (negb t) v s.
Proof.
  rewrite findVariable_updVariable. rewrite decide_False; [done|].
  intros (_ & H & _). by destruct t.
Qed.

Lemma findVariable_updVariable_true_false p v g s :
  findVariable p false v (updPackage p (updVariable true v g) s) = findVariable p false v s.
Proof. apply (findVariable_updVariable_other p true). Qed.

Lemma var_transObject_set_is_deleted b var :
  var_transObject (set_is_deleted b var) = var_transObject var.
Proof. done. Qed.

#[global] Hint Rewrite findVariable_updVariable_eq findVariable_updVariable_true_false
  var_transObject_set_is_deleted : pgv.

Lemma removed_variable_hidden p v s :
  (forall tr var, findVariable p tr v s = Some var -> is_transactional var = tr) ->
  (findVariable p false v s = None \/ findVariable p true v s = None) ->
  wp (remove_variable p v)
    (fun _ s' =>
       (VARSIZE_ANY_EXHDR p >=? 63) = false /\ (VARSIZE_ANY_EXHDR v >=? 63) = false /\
       exists pack st rest,
         findPackage p s' = Some pack /\ states (transObject pack) = st :: rest /\
         findVariable p false v s' = None /\
         (findVariable p true v s' = None \/
          exists var vst vrest,
            findVariable p true v s' = Some var /\
            states (var_transObject var) = vst :: vrest /\ is_valid vst = false)) s.
Proof.
  intros Hflag Hone.
  unfold remove_variable, getVariableInternal, removeObject, isPackageEmpty,
    remove_variables_variable, set_trans_var_num, resetVariablesCache.
  wp_step. eapply wpg_eq; [apply getPackage_eq|].
  pose proof (Hflag false) as Hf0. pose proof (Hflag true) as Hf1. clear Hflag.
  rewrite !findVariable_unfold in Hf0, Hf1, Hone.
  wp_upto.
  rewrite pack_htab_false, pack_htab_true in *.
  destruct (varHashRegular p0) as [hr|] eqn:Hr; [destruct (hr !! v) as [rv|] eqn:Hrv|];
    (destruct (varHashTransact p0) as [ht|] eqn:Ht; [destruct (ht !! v) as [tv|] eqn:Htv|]);
    cbn [bool_decide_is_Some_Some] in *.
  all: try (destruct Hone as [Hone|Hone]; views_in Hone; discriminate).
  all: try (specialize (Hf0 _ eq_refl)); try (specialize (Hf1 _ eq_refl)); clear Hone.
  all: views.
  all: repeat (wp_all;
               try (apply on_variables_stats_any;
                    [done|intros s1 (Hfp1 & _ & _); specialize (Hfp1 p); views_in Hfp1])).
  all: split; [done|]; split; [done|].
  all: eexists _, _, _; split; [views; reflexivity|]; split; [views; reflexivity|].
  all: try (split; [views; rewrite ?lookup_delete_eq; by views|]).
  all: try (views;
    first [ left; done
          | right; eexists _, _, _; split; [reflexivity|split; [reflexivity|done]] ]).
Qed.

(** X12. Take a name [v] that is in at most one of the two tables of the
    package [p], the variable under it carrying the flag of its table.  When
    [remove_variable] returns, the variable is hidden: [variable_exists]
    returns false, whether the variable was regular (its entry is gone) or
    transactional (its head state is not valid). *)
Theorem remove_variable_hides p v s s' :
  (forall tr var, findVariable p tr v s = Some var -> is_transactional var = tr) ->
  (findVariable p false v s = None \/ findVariable p true v s = None) ->
  remove_variable p v s = (Done tt, s') ->
  variable_exists p v s' = (Done false, s').
Proof.
  intros Hflag Hone Hrun. pose proof (removed_variable_hidden p v s Hflag Hone) as H.
  eapply wpg_run in H; [|exact Hrun].
  destruct H as (Hp & Hv & pack & st & rest & Hfp & Hst & Hreg & Htr).
  apply wpt_run. unfold variable_exists. unfold text in *.
  wp_step. eapply wpg_eq; [apply getPackage_eq|].
  rewrite findVariable_unfold in Hreg, Htr. rewrite Hfp in Hreg, Htr.
  rewrite pack_htab_false in Hreg. rewrite pack_htab_true in Htr.
  destruct (varHashRegular pack) as [hr|] eqn:Hr;
    (destruct (varHashTransact pack) as [ht|] eqn:Ht;
     [destruct Htr as [Htr|(var & vst & vrest & Htr & Hvs & Hvv)]|]).
  all: wp_all; done.
Qed.

Lemma remove_variable_hides_witness :
  variable_exists "p" "x" (exec (remove_variable "p" "x") session_after_first_set)
  = (Done false, exec (remove_variable "p" "x") session_after_first_set).
Proof.
  apply (remove_variable_hides "p" "x" session_after_first_set).
  - intros [] var; vm_compute; intros [= <-]; reflexivity.
  - left. vm_compute. reflexivity.
  - vm_compute. reflexivity.
Defined.

(** ** A variable that was set *)

Lemma variable_exists_visible p v tr var st rest s :
  (VARSIZE_ANY_EXHDR p >=? 63) = false ->
  (VARSIZE_ANY_EXHDR v >=? 63) = false ->
  pack_head_valid p s ->
  findVariable p tr v s = Some var ->
  findVariable p (negb tr) v s = None ->
  states (var_transObject var) = st :: rest ->
  is_valid st = true ->
  variable_exists p v s = (Done true, s) /\ package_exists p s = (Done true, s).
Proof.
  intros Hp Hv (pst & prest & Hps & Hpv) Hvar Hother Hst Hval.
  unfold text in *.
  views_in Hps. destruct (findPackage p s) as [pack|] eqn:Hfp; [|done].
  views_in Hps. views_in Hvar. views_in Hother. simplify_eq.
  assert (Hreg : match varHashRegular pack with
                 | Some h => bool_decide (is_Some (h !! v))
                 | None => false
                 end = negb tr).
  { destruct tr; cbn in *.
    - destruct (varHashRegular pack) as [h|]; [|done]. by rewrite Hother.
    - destruct (varHashRegular pack) as [h|]; [|done]. by rewrite Hvar. }
  assert (Htr : match varHashTransact pack with
                | Some h => bool_decide (is_Some (h !! v))
                | None => false
                end = tr).
  { destruct tr; cbn in *.
    - destruct (varHashTransact pack) as [h|]; [|done]. by rewrite Hvar.
    - destruct (varHashTransact pack) as [h|]; [|done]. by rewrite Hother. }
  split.
  - apply wpt_run. unfold variable_exists.
    wp_step. eapply wpg_eq; [apply getPackage_eq|].
    wp_run. rewrite Hreg, Htr. rewrite negb_involutive, orb_negb_l.
    wp_all. all: done.
  - apply wpt_run. unfold package_exists.
    wp_step. eapply wpg_eq; [apply getPackage_eq|].
    wp_all. all: done.
Qed.

(** X13. When [variable_set] returns, the variable and its package exist:
    [variable_exists] and [package_exists] return true; and a NULL that was
    set is read back as NULL. *)
Theorem set_then_exists p v t x isnull tr strict s s' :
  variable_set p v t x isnull tr s = (Done tt, s') ->
  variable_exists p v s' = (Done true, s') /\
  package_exists p s' = (Done true, s') /\
  (isnull = true -> variable_get p v t strict s' = (Done (0, true), s')).
Proof.
  intros Hset.
  pose proof (variable_set_visible p v t x isnull tr s) as H.
  eapply wpg_run in H; [|exact Hset].
  destruct H as (Hp & Hv & Hpv & (var & st & rest & sc & Hvar & Ht & Hrec & Hst & Hval & Hb
                                  & Hx & Hn) & Hother).
  destruct (variable_exists_visible p v tr var st rest s') as [He Hpe]; try done.
  split; [done|]. split; [done|].
  intros ->. rewrite <- Hx, <- Hn. by eapply variable_get_visible.
Qed.

Lemma set_then_exists_witness :
  variable_exists "p" "x" (exec (variable_set "p" "x" 23 0 true true) (emptySession cat0 1))
    = (Done true, exec (variable_set "p" "x" 23 0 true true) (emptySession cat0 1)) /\
  package_exists "p" (exec (variable_set "p" "x" 23 0 true true) (emptySession cat0 1))
    = (Done true, exec (variable_set "p" "x" 23 0 true true) (emptySession cat0 1)) /\
  (true = true ->
   variable_get "p" "x" 23 true
     (exec (variable_set "p" "x" 23 0 true true) (emptySession cat0 1))
   = (Done (0, true), exec (variable_set "p" "x" 23 0 true true) (emptySession cat0 1))).
Proof.
  apply (set_then_exists "p" "x" 23 0 true true true (emptySession cat0 1)).
  vm_compute. reflexivity.
Defined.

(** ** The type of a variable *)

Lemma createVariableInternal_other_type pkey nm t is_rec tr var s :
  VARSIZE_ANY_EXHDR nm <= 62 ->
  findVariable pkey tr nm s = Some var ->
  findVariable pkey (negb tr) nm s = None ->
  typid var <> t ->
  createVariableInternal pkey nm t is_rec tr s
  = (Raise (RequiresValueOfType nm (typid var)), s).
Proof.
  intros Hnm Hv Ho Ht. unfold createVariableInternal. unfold text in *.
  assert (Hsz : (VARSIZE_ANY_EXHDR nm >=? 63) = false) by lia.
  apply Z.eqb_neq in Ht.
  rewrite findVariable_unfold in Hv, Ho.
  destruct (findPackage pkey s) as [pack|] eqn:Hfp; [|done].
  destruct (pack_htab pack tr) as [h|] eqn:Hh; [|done].
  cbn [bind]. rewrite getKeyFromName_eq, Hsz, readPackage_eq, Hfp.
  destruct (pack_htab pack (negb tr)) as [h'|] eqn:Hh'.
  - rewrite Ho. cbn. rewrite Hh. cbn. rewrite Hv, Ht. done.
  - cbn. rewrite Hh. cbn. rewrite Hv, Ht. done.
Qed.

(** A run that must raise the error [e] and leave the session [s0]. *)
Lemma wpe_run {A} (c : M A) e s s0 :
  wpg False (fun e' s' => e' = e /\ s' = s0) c (fun _ _ => False) s ->
  c s = (Raise e, s0).
Proof.
  unfold wpg, post. destruct (c s) as [[a| |] s1]; try done. by intros [-> ->].
Qed.

Lemma variable_get_other_type p v t strict tr var s :
  VARSIZE_ANY_EXHDR p <= 62 -> VARSIZE_ANY_EXHDR v <= 62 ->
  pack_head_valid p s ->
  findVariable p tr v s = Some var ->
  findVariable p (negb tr) v s = None ->
  typid var <> t -> t <> InvalidOid ->
  variable_get p v t strict s = (Raise (RequiresValueOfType v (typid var)), s).
Proof.
  intros Hp Hv (pst & prest & Hps & Hpv) Hvar Hother Ht Ht0.
  assert (Hszp : (VARSIZE_ANY_EXHDR p >=? 63) = false) by lia.
  assert (Hszv : (VARSIZE_ANY_EXHDR v >=? 63) = false) by lia.
  apply Z.eqb_neq in Ht, Ht0.
  unfold text in *.
  views_in Hps. destruct (findPackage p s) as [pack|] eqn:Hfp; [|done].
  views_in Hps. views_in Hvar. views_in Hother. simplify_eq.
  assert (Hreg : match varHashRegular pack with
                 | Some h => bool_decide (is_Some (h !! v))
                 | None => false
                 end = negb tr).
  { destruct tr; cbn in *.
    - destruct (varHashRegular pack) as [h|]; [|done]. by rewrite Hother.
    - destruct (varHashRegular pack) as [h|]; [|done]. by rewrite Hvar. }
  assert (Htr : match varHashTransact pack with
                | Some h => bool_decide (is_Some (h !! v))
                | None => false
                end = tr).
  { destruct tr; cbn in *.
    - destruct (varHashTransact pack) as [h|]; [|done]. by rewrite Hvar.
    - destruct (varHashTransact pack) as [h|]; [|done]. by rewrite Hother. }
  apply wpe_run. unfold variable_get, getVariableInternal.
  wp_step. eapply wpg_eq; [apply getPackage_eq|].
  wp_run. rewrite Hreg, Htr. rewrite negb_involutive, orb_negb_l.
  wp_all. all: done.
Qed.

(** X14. A variable keeps the type it was created with.  For a name [v]
    that the table of its transactionality holds and the other table does
    not, in a valid package and in a transaction: [variable_set] with another
    type raises "requires value" naming the type of the variable and changes
    no variable of any package; [variable_get] with another type (not
    [InvalidOid]) raises the same error and changes nothing. *)
Theorem variable_keeps_its_type p v t x isnull tr strict var pst prest n s :
  VARSIZE_ANY_EXHDR p <= 62 -> VARSIZE_ANY_EXHDR v <= 62 ->
  objStates (PackPtr p) s = Some (pst :: prest) ->
  is_valid pst = true -> body pst = PackBody n ->
  1 <= nestLevel s -> changesStack s <> Some [] ->
  findVariable p tr v s = Some var ->
  findVariable p (negb tr) v s = None ->
  typid var <> t ->
  (exists s',
     variable_set p v t x isnull tr s = (Raise (RequiresValueOfType v (typid var)), s') /\
     forall p' t' v', findVariable p' t' v' s' = findVariable p' t' v' s) /\
  (t <> InvalidOid ->
   variable_get p v t strict s = (Raise (RequiresValueOfType v (typid var)), s)).
Proof.
  intros Hp Hv Hps Hpv Hb Hl Hs Hvar Hother Ht. split.
  - pose proof (createPackage_valid_returns p tr s pst prest n Hp Hps Hpv Hb Hl Hs) as H.
    unfold wpg, post in H. unfold variable_set. cbn [bind].
    destruct (createPackage p tr s) as [[key| |] s1]; [|done..].
    destruct H as (-> & _ & Hsame).
    rewrite (createVariableInternal_other_type p v t false tr var s1);
      [eauto|done|by rewrite Hsame|by rewrite Hsame|done].
  - intros Ht0. eapply variable_get_other_type; try done.
    by exists pst, prest.
Qed.

(** The variable [x] of [session_after_first_set]. *)
Definition x_of_p : VariableEntry :=
  mkVariable (mkTransObject "x" [scalar_state 1 1 false true 4]) "p" 23 false true false.

Lemma variable_keeps_its_type_witness :
  (exists s',
     variable_set "p" "x" 25 7 false true session_after_first_set
       = (Raise (RequiresValueOfType "x" (typid x_of_p)), s') /\
     forall p' t' v',
       findVariable p' t' v' s' = findVariable p' t' v' session_after_first_set) /\
  (25 <> InvalidOid ->
   variable_get "p" "x" 25 true session_after_first_set
   = (Raise (RequiresValueOfType "x" (typid x_of_p)), session_after_first_set)).
Proof.
  apply (variable_keeps_its_type "p" "x" 25 7 false true true x_of_p
           (pack_state 1 1) [] 1 session_after_first_set).
  - vm_compute. discriminate.
  - vm_compute. discriminate.
  - vm_compute. reflexivity.
  - reflexivity.
  - reflexivity.
  - vm_compute. discriminate.
  - vm_compute. discriminate.
  - vm_compute. reflexivity.
  - vm_compute. reflexivity.
  - vm_compute. discriminate.
Defined.

(** ** Transaction events without a changes stack *)

Definition total {A} (c : M A) : Prop := forall s, exists a s', c s = (Done a, s').

Lemma total_bind {A B} (c : M A) (k : A -> M B) :
  total c -> (forall a, total (k a)) -> total (bind c k).
Proof.
  intros Hc Hk s. destruct (Hc s) as (a & s1 & H1). destruct (Hk a s1) as (b & s2 & H2).
  exists b, s2. cbn. by rewrite H1.
Qed.

Lemma total_ret {A} (a : A) : total (ret a).
Proof. intros s. by eexists _, _. Qed.

Lemma total_gets {A} (f : Session -> A) : total (gets f).
Proof. intros s. by eexists _, _. Qed.

Lemma total_modify f : total (modify f).
Proof. intros s. by eexists _, _. Qed.

Lemma total_forM_ {A} (l : list A) (f : A -> M unit) :
  (forall a, total (f a)) -> total (forM_ l f).
Proof.
  intros H. induction l as [|a l IH]; cbn [forM_]; [apply total_ret|].
  apply total_bind; [apply H|intros _; exact IH].
Qed.

Lemma total_list_remove_if {E} (ctx : RemoveIfContext E) (cell : E -> option nat) l :
  (forall e, ric_clear_fctx ctx e = clear_fctx (cell e)) ->
  total (list_remove_if ctx l).
Proof.
  intros Hc s. destruct (list_remove_if_scans ctx cell l s Hc) as (l' & s' & H & _).
  by exists l', s'.
Qed.

Lemma total_on_variables_stats ctx :
  (forall e, ric_clear_fctx ctx e = VariableStatEntry_clear_fctx e) ->
  total (on_variables_stats ctx).
Proof.
  intros Hc. unfold on_variables_stats.
  apply total_bind; [apply total_gets|intros l].
  apply total_bind; [by apply (total_list_remove_if ctx vse_user_fctx)|intros l'].
  apply total_modify.
Qed.

Lemma total_on_packages_stats ctx :
  (forall e, ric_clear_fctx ctx e = PackageStatEntry_clear_fctx e) ->
  total (on_packages_stats ctx).
Proof.
  intros Hc. unfold on_packages_stats.
  apply total_bind; [apply total_gets|intros l].
  apply total_bind; [by apply (total_list_remove_if ctx pse_user_fctx)|intros l'].
  apply total_modify.
Qed.

Lemma total_freeStatsLists : total freeStatsLists.
Proof.
  unfold freeStatsLists, hash_seq_term.
  repeat first [ apply total_bind; [|intros ?] | apply total_gets | apply total_modify
               | apply total_forM_; intros ? ].
Qed.

Lemma on_packages_stats_store ctx :
  (forall e, ric_clear_fctx ctx e = PackageStatEntry_clear_fctx e) ->
  preserves same_store (on_packages_stats ctx).
Proof.
  intros Hc. unfold on_packages_stats. frames.
  - apply preserves_list_remove_if; [apply _|..].
    + intros e s. split; [intros k; apply findPackage_set_seq_scans|done].
    + intros e. rewrite Hc. unfold PackageStatEntry_clear_fctx, clear_fctx.
      destruct (pse_user_fctx e); frames.
      split; [intros k; apply findPackage_set_user_fctx|done].
    + intros e s. split; [intros k; apply findPackage_set_seq_status|done].
  - split; [intros k; apply findPackage_set_packages_stats|done].
Qed.

Lemma freeStatsLists_store : preserves same_store freeStatsLists.
Proof.
  unfold freeStatsLists, hash_seq_term. frames.
  - split; [intros k; apply findPackage_set_seq_scans|done].
  - split; [intros k; apply findPackage_set_variables_stats|done].
  - split; [intros k; apply findPackage_set_seq_scans|done].
  - split; [intros k; apply findPackage_set_packages_stats|done].
Qed.

Lemma total_preserves (R : Session -> Session -> Prop) (c : M unit) s :
  total c -> preserves R c -> exists s', c s = (Done tt, s') /\ R s s'.
Proof.
  intros Ht Hp. destruct (Ht s) as ([] & s' & H). exists s'. split; [done|].
  specialize (Hp s). by rewrite H in Hp.
Qed.

Lemma pgvSubTransCallback_idle event s :
  changesStack s = None ->
  pgvSubTransCallback event s =
  (remove_variables_level (mkLevels (nestLevel s)) ;;;
   remove_packages_level (mkLevels (nestLevel s))) s.
Proof. intros H. unfold pgvSubTransCallback. cbn. by rewrite H. Qed.

Lemma pgvTransCallback_idle event s :
  changesStack s = None ->
  pgvTransCallback event s =
  match event with
  | XACT_EVENT_PRE_COMMIT | XACT_EVENT_ABORT => freeStatsLists s
  | _ => (Done tt, s)
  end.
Proof. intros H. unfold pgvTransCallback. cbn. rewrite H. by destruct event. Qed.

(** X15. Without a changes stack, that is when no package was created and
    no transactional variable changed since the last top-level end, the
    callbacks of the subtransaction and of the transaction
    return for every event and write to the registry of scans only: every
    package with its variables, the changes stack and the nesting level are
    as they were. *)
Theorem callbacks_without_changes s sub_event event :
  changesStack s = None ->
  (exists s', pgvSubTransCallback sub_event s = (Done tt, s') /\
     (forall k, findPackage k s' = findPackage k s) /\
     changesStack s' = None /\ nestLevel s' = nestLevel s) /\
  (exists s', pgvTransCallback event s = (Done tt, s') /\
     (forall k, findPackage k s' = findPackage k s) /\
     changesStack s' = None /\ nestLevel s' = nestLevel s).
Proof.
  intros Hcs. split.
  - rewrite pgvSubTransCallback_idle by done.
    destruct (total_preserves same_store
                (remove_variables_level (mkLevels (nestLevel s)) ;;;
                 remove_packages_level (mkLevels (nestLevel s))) s)
      as (s' & Hrun & Hfp & Hc & Hl).
    + apply total_bind; [by apply total_on_variables_stats|intros _].
      by apply total_on_packages_stats.
    + apply preserves_bind; [apply _|by apply on_variables_stats_store|intros _].
      by apply on_packages_stats_store.
    + exists s'. by rewrite <- Hcs.
  - rewrite pgvTransCallback_idle by done.
    destruct (total_preserves same_store freeStatsLists s total_freeStatsLists
                freeStatsLists_store) as (s' & Hrun & Hfp & Hc & Hl).
    destruct event; first [ exists s'; by rewrite <- Hcs | by exists s ].
Qed.

Definition idle_session : Session :=
  set_variables_stats [mkVariableStatEntry 0 (VarPtr "p" false "x") "p" (mkLevels 1) None]
    (emptySession (fun _ => (8, true)) 1).

Lemma callbacks_without_changes_witness :
  (exists s', pgvSubTransCallback SUBXACT_EVENT_ABORT_SUB idle_session = (Done tt, s') /\
     (forall k, findPackage k s' = findPackage k idle_session) /\
     changesStack s' = None /\ nestLevel s' = nestLevel idle_session) /\
  (exists s', pgvTransCallback XACT_EVENT_ABORT idle_session = (Done tt, s') /\
     (forall k, findPackage k s' = findPackage k idle_session) /\
     changesStack s' = None /\ nestLevel s' = nestLevel idle_session).
Proof. apply (callbacks_without_changes idle_session). reflexivity. Defined.

(** ** [remove_packages] *)

(** The head state of the package is not valid. *)
Definition hidden (k : string) (s : Session) : Prop :=
  exists pack st rest,
    findPackage k s = Some pack /\ states (transObject pack) = st :: rest /\
    is_valid st = false.

Lemma removePackageInternal_hides p s :
  wp (removePackageInternal p) (fun _ s' => hidden p s') s.
Proof.
  unfold removePackageInternal, set_trans_var_num, hidden.
  wp_all.
  all: eexists _, _, _; split; [views; reflexivity|]; views; split; [reflexivity|done].
Qed.

Lemma removePackageInternal_other k p :
  k <> p -> preserves (other k) (removePackageInternal p).
Proof.
  intros Hkp.
  pose proof (other_stack k). pose proof (other_pack k p Hkp). pose proof (other_cache k).
  assert (Ho : forall o, ptrPackage o = p -> W_obj (other k) o) by apply (other_obj k p Hkp).
  unfold removePackageInternal. frames.
  all: try (apply Ho; reflexivity).
Qed.

Lemma remove_all_packages (l : list (string * Package)) :
  NoDup l.*1 ->
  forall s s',
    forM_ l (fun kv => removePackageInternal kv.1) s = (Done tt, s') ->
    (forall k, k ∈ l.*1 -> hidden k s') /\
    (forall k, k ∉ l.*1 -> findPackage k s' = findPackage k s).
Proof.
  induction l as [|[p pack] l IH]; intros Hnd s s' Hrun.
  - cbn in Hrun. injection Hrun as <-. split; [|done]. intros k Hk. by apply elem_of_nil in Hk.
  - cbn [forM_] in Hrun. apply bind_inv in Hrun as ([] & s1 & H1 & H2).
    cbn [fmap list_fmap fst] in *. apply NoDup_cons in Hnd as [Hp Hnd].
    destruct (IH Hnd s1 s' H2) as [Hin Hout].
    pose proof (removePackageInternal_hides p s) as Hh.
    eapply wpg_run in Hh; [|exact H1].
    split.
    + intros k Hk. apply elem_of_cons in Hk as [->|Hk]; [|by apply Hin].
      unfold hidden. rewrite (Hout p Hp). exact Hh.
    + intros k Hk. apply not_elem_of_cons in Hk as [Hkp Hk].
      rewrite (Hout k Hk).
      pose proof (removePackageInternal_other k p Hkp s) as Ho.
      cbn in H1. rewrite H1 in Ho. exact Ho.
Qed.

Lemma missing_package_hidden p v s :
  VARSIZE_ANY_EXHDR p <= 62 -> findPackage p s = None ->
  package_exists p s = (Done false, s) /\ variable_exists p v s = (Done false, s).
Proof.
  intros Hp Hfp. assert ((VARSIZE_ANY_EXHDR p >=? 63) = false) as Hp' by lia.
  unfold package_exists, variable_exists.
  cbn [bind]. by rewrite !getPackage_eq, Hp', Hfp.
Qed.

(** X16. When [remove_packages] returns, no package is left to see: for
    every name [p] short enough to be looked up, [package_exists] and
    [variable_exists] return false. *)
Theorem remove_packages_hides_all p v s s' :
  VARSIZE_ANY_EXHDR p <= 62 ->
  remove_packages s = (Done tt, s') ->
  package_exists p s' = (Done false, s') /\ variable_exists p v s' = (Done false, s').
Proof.
  intros Hp Hrun. assert ((VARSIZE_ANY_EXHDR p >=? 63) = false) as Hp' by lia.
  unfold remove_packages in Hrun. apply bind_inv in Hrun as (h & s0 & H0 & Hrun).
  injection H0 as <- <-.
  destruct (packagesHash s) as [tbl|] eqn:Hh.
  - apply bind_inv in Hrun as ([] & s1 & H1 & Hrun).
    apply bind_inv in Hrun as ([] & s2 & H2 & Hrun).
    injection Hrun as <-.
    unfold remove_variables_all in H1.
    match type of H1 with
    | on_variables_stats ?c _ = _ =>
        pose proof (on_variables_stats_store c (fun e => eq_refl) s) as Hs
    end.
    rewrite H1 in Hs. destruct Hs as (Hfp & _).
    destruct (remove_all_packages (map_to_list tbl) (NoDup_fst_map_to_list tbl) s1 s2 H2)
      as [Hin Hout].
    destruct (tbl !! p) as [pack|] eqn:Hl.
    + destruct (Hin p) as (pack' & st & rest & Hfp' & Hst & Hv).
      { apply list_elem_of_fmap. exists (p, pack). split; [done|].
        by apply elem_of_map_to_list. }
      destruct (invalid_package_hidden p v 0 pack' st rest (set_cache None None s2))
        as (He & Hve & _); [done|by rewrite findPackage_set_cache|done|done|].
      done.
    + apply missing_package_hidden; [done|].
      rewrite findPackage_set_cache, Hout, Hfp, <- packagesHash_lookup, Hh; [done|].
      intros Hk. apply list_elem_of_fmap in Hk as ([k pack] & E & Hk).
      apply elem_of_map_to_list in Hk. cbn [fst] in E. subst k. unfold text in *. by rewrite Hk in Hl.
  - injection Hrun as <-. apply missing_package_hidden; [done|].
    by rewrite <- packagesHash_lookup, Hh.
Qed.

Lemma remove_packages_hides_all_witness :
  package_exists "p" (exec remove_packages session_after_first_set)
    = (Done false, exec remove_packages session_after_first_set) /\
  variable_exists "p" "x" (exec remove_packages session_after_first_set)
    = (Done false, exec remove_packages session_after_first_set).
Proof.
  apply (remove_packages_hides_all "p" "x" session_after_first_set).
  - vm_compute. discriminate.
  - vm_compute. reflexivity.
Defined.

(** ** Removal inside a subtransaction *)

Lemma objStates_set_is_deleted o p t v b s :
  objStates o (updPackage p (updVariable t v (set_is_deleted b)) s) = objStates o s.
Proof.
  destruct o as [k|k t' v'].
  - rewrite !objStates_PackPtr, findPackage_updPackage. case_decide; [|done]. simplify_eq.
    destruct (findPackage _ s); cbn; [|done]. by rewrite transObject_updVariable.
  - rewrite !objStates_VarPtr, findVariable_updVariable. case_decide; [|done].
    by destruct (findVariable k t' v' s).
Qed.

#[global] Hint Rewrite objStates_set_is_deleted : pgv.

Lemma remove_variable_in_new_level p v t reg pst prest vst vrest n sc c cs s :
  VARSIZE_ANY_EXHDR p <= 62 -> VARSIZE_ANY_EXHDR v <= 62 ->
  var_at p v t reg (pst :: prest) (vst :: vrest) s -> not_in v reg ->
  is_valid pst = true -> body pst = PackBody n -> level (levels pst) <> nestLevel s ->
  is_valid vst = true -> body vst = VarBody (scalar sc) ->
  level (levels vst) <> nestLevel s -> 1 <= nestLevel s ->
  changesStack s = Some (c :: cs) -> quiet s ->
  wpt (remove_variable p v)
    (fun _ s' =>
       (exists pst2 vst2,
          var_at p v t reg (pst2 :: pst :: prest) (vst2 :: vst :: vrest) s' /\
          is_valid vst2 = false) /\
       changesStack s'
         = Some (pushChanged (VarPtr p true v) (pushChanged (PackPtr p) c) :: cs) /\
       nestLevel s' = nestLevel s /\ quiet s') s.
Proof.
  intros Hp Hv (pack & vars & var & Hfp & Hpl & Hreg & Htr & Hvar & Hvl & Ht & Hrec & Htv)
    Hnot Hpv Hpb Hplv Hvv Hvb Hvlv Hl Hcs [Hq1 Hq2].
  assert (H0 : (0 =? nestLevel s) = false) by lia.
  subst t. destruct (findPackage_Some_hash _ _ _ Hfp) as [h Hh].
  assert (Hszp : (VARSIZE_ANY_EXHDR p >=? 63) = false) by lia.
  assert (Hszv : (VARSIZE_ANY_EXHDR v >=? 63) = false) by lia.
  assert (Hps : preparedStack s = Some (c :: cs)) by (unfold preparedStack; by rewrite Hcs).
  apply Z.eqb_neq in Hplv, Hvlv.
  unfold remove_variable, getVariableInternal, set_trans_var_num, resetVariablesCache.
  unfold text in *.
  wp_step. eapply wpg_eq; [apply getPackage_eq|].
  destruct reg as [hr|]; cbn in Hnot.
  all: wp_all.
  all: split; [|split; [by views|split; [by views|unfold quiet; split; by views]]].
  all: eexists _, _; split; [var_at_fin|].
  all: try done.
Qed.

(** [SAVEPOINT; remove p.v; ROLLBACK TO SAVEPOINT]. *)
Definition remove_and_abort (p v : text) : M unit :=
  StartSubTransaction ;;;
  remove_variable p v ;;;
  AbortSubTransaction.

(** X17. In a transaction that has a changes stack, take a valid package [p]
    with [trans_var_num] above 0 and in it a valid transactional scalar
    variable [v].  Opening a subtransaction, removing [p].[v] and aborting
    the subtransaction runs to its end and brings the variable back: the
    states of the variable and of the package, the changes stack and the
    nesting level are as they were, and [variable_get] returns the value
    again. *)
Theorem abort_restores_removed_variable p v t strict reg pst prest vst vrest n sc c cs s :
  VARSIZE_ANY_EXHDR p <= 62 -> VARSIZE_ANY_EXHDR v <= 62 ->
  var_at p v t reg (pst :: prest) (vst :: vrest) s -> not_in v reg ->
  is_valid pst = true -> body pst = PackBody n -> 0 < n ->
  level (levels pst) <= nestLevel s ->
  is_valid vst = true -> body vst = VarBody (scalar sc) ->
  level (levels vst) <= nestLevel s -> 1 <= nestLevel s ->
  changesStack s = Some (c :: cs) -> quiet s ->
  exists s',
    remove_and_abort p v s = (Done tt, s') /\
    objStates (VarPtr p true v) s' = Some (vst :: vrest) /\
    objStates (PackPtr p) s' = Some (pst :: prest) /\
    changesStack s' = Some (c :: cs) /\ nestLevel s' = nestLevel s /\
    variable_get p v t strict s' = (Done (value sc, is_null sc), s').
Proof.
  intros Hp Hv Hva Hnot Hpv Hpb Hn Hpl Hvv Hvb Hvl Hl Hcs Hq.
  apply wpt_unit. unfold remove_and_abort.
  wp_step. eapply wpg_eq; [by apply StartSubTransaction_run|]. wp_step.
  eapply wpg_seq.
  { eapply (remove_variable_in_new_level p v t reg pst prest vst vrest n sc);
      stage_side. }
  cbn [nestLevel set_nestLevel set_changesStack].
  intros _ s2 ((pst2 & vst2 & Hva2 & Hinv) & Hcs2 & Hl2 & Hq2).
  eapply wpg_mono.
  { eapply (abort_sub p v t reg); stage_side. }
  intros _ s3 (Hva3 & Hcs3 & Hl3 & Hq3). rewrite Hl2 in *.
  destruct (var_at_objStates _ _ _ _ _ _ _ Hva3) as [Ho1 Ho2].
  split; [exact Ho2|]. split; [exact Ho1|]. split; [done|]. split; [lia|].
  by eapply (var_at_get p v t reg).
Qed.

Lemma abort_restores_removed_variable_witness :
  exists s',
    remove_and_abort "p" "x" session_after_first_set = (Done tt, s') /\
    objStates (VarPtr "p" true "x") s' = Some (scalar_state 1 1 false true 4 :: []) /\
    objStates (PackPtr "p") s' = Some (pack_state 1 1 :: []) /\
    changesStack s' = Some (frame_of "p" "x" :: []) /\
    nestLevel s' = nestLevel session_after_first_set /\
    variable_get "p" "x" 23 true s'
      = (Done (value (mkScalarVar 1 false true 4), is_null (mkScalarVar 1 false true 4)), s').
Proof.
  apply (abort_restores_removed_variable "p" "x" 23 true None (pack_state 1 1) []
           (scalar_state 1 1 false true 4) [] 1 (mkScalarVar 1 false true 4)
           (frame_of "p" "x") [] session_after_first_set).
  - vm_compute. discriminate.
  - vm_compute. discriminate.
  - unfold var_at. eexists _, _, _. vm_compute. repeat split; reflexivity.
  - exact I.
  - reflexivity.
  - reflexivity.
  - reflexivity.
  - vm_compute. discriminate.
  - reflexivity.
  - reflexivity.
  - vm_compute. discriminate.
  - vm_compute. discriminate.
  - vm_compute. reflexivity.
  - split; reflexivity.
Defined.

(** ** The list of packages and variables *)

Record VariableRec := mkVariableRec {
  rec_package : string;
  rec_variable : string;
  rec_is_transactional : bool
}.

(** The fields of the [FuncCallContext] that the function uses; [user_fctx]
    stays NULL when there is no table of packages. *)
Record FuncCallContext := mkFuncCallContext {
  call_cntr : nat;
  max_calls : nat;
  fctx_recs : option (list VariableRec)
}.

Fixpoint foldM {A B} (l : list A) (acc : B) (f : B -> A -> M B) : M B :=
  match l with
  | [] => ret acc
  | a :: l' => acc' <- f acc a ;; foldM l' acc' f
  end.

(** The loop over one table of a package.  [recs] with [nRecs] is a list
    that grows at its end; [repalloc] gives it the room. *)
Definition listTable (pkey : string) (is_trans : bool) (recs : list VariableRec) :
    M (list VariableRec) :=
  pack <- readPackage pkey ;;
  match pack_htab pack is_trans with
  | None => ret recs
  | Some htab =>
      foldM (map_to_list htab) recs (fun recs kv =>
        st <- GetActualState (VarPtr pkey is_trans kv.1) ;;
        if is_valid st then
          ret (recs ++ [mkVariableRec (name (transObject pack))
                          (name (var_transObject kv.2)) (is_transactional kv.2)])
        else ret recs)
  end.

(** The body of the loop over the packages: the regular table first. *)
Definition listPackage (recs : list VariableRec) (kv : string * Package) :
    M (list VariableRec) :=
  st <- GetActualState (PackPtr kv.1) ;;
  if is_valid st then
    recs <- listTable kv.1 false recs ;;
    listTable kv.1 true recs
  else ret recs.

(** The branch [SRF_IS_FIRSTCALL()]; the declared result type is composite,
    so [get_call_result_type] does not raise. *)
Definition get_packages_and_variables_firstcall : M FuncCallContext :=
  h <- gets packagesHash ;;
  match h with
  | Some tbl =>
      recs <- foldM (map_to_list tbl) [] listPackage ;;
      ret (mkFuncCallContext 0 (length recs) (Some recs))
  | None => ret (mkFuncCallContext 0 0 None)
  end.

(** One call: [funcctx] is [None] at the first call, and the call returns
    the context for the next one; [Some row] is [SRF_RETURN_NEXT], [None]
    is [SRF_RETURN_DONE]. *)
Definition get_packages_and_variables (funcctx : option FuncCallContext) :
    M (option VariableRec * option FuncCallContext) :=
  fc <- match funcctx with
        | None => get_packages_and_variables_firstcall
        | Some fc => ret fc
        end ;;
  if (call_cntr fc <? max_calls fc)%nat then
    recs <- deref (fctx_recs fc) ;;
    row <- deref (recs !! call_cntr fc) ;;
    ret (Some row,
         Some (mkFuncCallContext (S (call_cntr fc)) (max_calls fc) (fctx_recs fc)))
  else ret (None, None).

(** The executor's loop: call until the function is done, at most [fuel]
    times. *)
Fixpoint fetch_all (fuel : nat) (funcctx : option FuncCallContext) :
    M (list VariableRec) :=
  match fuel with
  | O => undefined
  | S n =>
      r <- get_packages_and_variables funcctx ;;
      match r.1 with
      | Some row => rows <- fetch_all n r.2 ;; ret (row :: rows)
      | None => ret []
      end
  end.

(** The variable under the key [vk] of a table of the package under [k] is
    valid, in a valid package, and [r] is its row. *)
Definition listed (s : Session) (r : VariableRec) : Prop :=
  exists k pack pst prest tr var vk vst vrest,
    findPackage k s = Some pack /\
    states (transObject pack) = pst :: prest /\ is_valid pst = true /\
    findVariable k tr vk s = Some var /\
    states (var_transObject var) = vst :: vrest /\ is_valid vst = true /\
    r = mkVariableRec (name (transObject pack)) (name (var_transObject var))
          (is_transactional var).

Lemma foldM_read {A R} (P : A -> R -> Prop) (l : list A) (f : list R -> A -> M (list R)) s :
  (forall a, a ∈ l ->
     forall acc out s', f acc a s = (Done out, s') ->
       s' = s /\ exists r, out = acc ++ r /\ forall x, x ∈ r <-> P a x) ->
  forall acc out s', foldM l acc f s = (Done out, s') ->
    s' = s /\ exists r, out = acc ++ r /\ forall x, x ∈ r <-> exists a, a ∈ l /\ P a x.
Proof.
  induction l as [|a l IH]; intros Hf acc out s' Hrun; cbn [foldM] in Hrun.
  - injection Hrun as <- <-. split; [done|]. exists []. split; [by rewrite app_nil_r|].
    intros x. split; [by intros ?%elem_of_nil|]. by intros (a & ?%elem_of_nil & _).
  - apply bind_inv in Hrun as (acc1 & s1 & H1 & H2).
    destruct (Hf a (list_elem_of_here _ _) acc acc1 s1 H1) as (-> & r1 & -> & Hr1).
    destruct (IH (fun b Hb => Hf b (list_elem_of_further _ _ _ Hb)) _ _ _ H2)
      as (-> & r2 & -> & Hr2).
    split; [done|]. exists (r1 ++ r2). split; [by rewrite app_assoc|].
    intros x. rewrite elem_of_app, Hr1, Hr2. split.
    + intros [Hx|(b & Hb & Hx)]; [exists a|exists b]; (split; [|done]).
      * apply list_elem_of_here.
      * by apply list_elem_of_further.
    + intros (b & Hb & Hx). apply elem_of_cons in Hb as [->|Hb]; [by left|right; eauto].
Qed.

Lemma listTable_read k pack tr acc out s s' :
  findPackage k s = Some pack ->
  listTable k tr acc s = (Done out, s') ->
  s' = s /\ exists r, out = acc ++ r /\
    forall x, x ∈ r <->
      exists vk var vst vrest,
        findVariable k tr vk s = Some var /\
        states (var_transObject var) = vst :: vrest /\ is_valid vst = true /\
        x = mkVariableRec (name (transObject pack)) (name (var_transObject var))
              (is_transactional var).
Proof.
  intros Hfp Hrun. unfold listTable in Hrun.
  apply bind_inv in Hrun as (pack' & s1 & H1 & Hrun).
  rewrite readPackage_eq, Hfp in H1. injection H1 as <- <-.
  destruct (pack_htab pack tr) as [htab|] eqn:Ht.
  - eapply (foldM_read
              (fun kv x => exists vst vrest,
                 states (var_transObject kv.2) = vst :: vrest /\ is_valid vst = true /\
                 x = mkVariableRec (name (transObject pack)) (name (var_transObject kv.2))
                       (is_transactional kv.2))) in Hrun.
    + destruct Hrun as (-> & r & -> & Hr). split; [done|]. exists r. split; [done|].
      intros x. rewrite Hr. split.
      * intros ([vk var] & Hin & vst & vrest & Hst & Hv & ->).
        apply elem_of_map_to_list in Hin. exists vk, var, vst, vrest.
        split; [|done]. by rewrite findVariable_unfold, Hfp, Ht.
      * intros (vk & var & vst & vrest & Hvar & Hst & Hv & ->).
        rewrite findVariable_unfold, Hfp, Ht in Hvar.
        exists (vk, var). split; [by apply elem_of_map_to_list|]. by exists vst, vrest.
    + intros [vk var] Hin acc0 out0 s0 Hstep. apply elem_of_map_to_list in Hin.
      apply bind_inv in Hstep as (st & s2 & H2 & Hstep).
      rewrite GetActualState_eq, objStates_VarPtr, findVariable_unfold, Hfp, Ht in H2.
      cbn [fst snd] in *. rewrite Hin in H2. cbn in H2.
      destruct (states (var_transObject var)) as [|vst vrest] eqn:Hst; [done|].
      injection H2 as <- <-.
      destruct (is_valid vst) eqn:Hv; injection Hstep as <- <-; (split; [done|]).
      * eexists [_]. split; [done|]. intros x. rewrite list_elem_of_singleton.
        split; [intros ->; by exists vst, vrest|].
        intros (vst' & vrest' & Hst' & _ & ->). done.
      * exists []. split; [by rewrite app_nil_r|]. intros x.
        split; [by intros ?%elem_of_nil|].
        intros (vst' & vrest' & Hst' & Hv' & _). congruence.
  - injection Hrun as <- <-. split; [done|]. exists []. split; [by rewrite app_nil_r|].
    intros x. split; [by intros ?%elem_of_nil|].
    intros (vk & var & vst & vrest & Hvar & _).
    by rewrite findVariable_unfold, Hfp, Ht in Hvar.
Qed.

Lemma listPackage_read k pack acc out s s' :
  findPackage k s = Some pack ->
  listPackage acc (k, pack) s = (Done out, s') ->
  s' = s /\ exists r, out = acc ++ r /\
    forall x, x ∈ r <->
      exists pst prest tr var vk vst vrest,
        states (transObject pack) = pst :: prest /\ is_valid pst = true /\
        findVariable k tr vk s = Some var /\
        states (var_transObject var) = vst :: vrest /\ is_valid vst = true /\
        x = mkVariableRec (name (transObject pack)) (name (var_transObject var))
              (is_transactional var).
Proof.
  intros Hfp Hrun. unfold listPackage in Hrun. cbn [fst] in Hrun.
  apply bind_inv in Hrun as (st & s1 & H1 & Hrun).
  rewrite GetActualState_eq, objStates_PackPtr, Hfp in H1. cbn in H1.
  destruct (states (transObject pack)) as [|pst prest] eqn:Hst; [done|].
  injection H1 as <- <-.
  destruct (is_valid pst) eqn:Hv.
  - apply bind_inv in Hrun as (recs & s1 & H1 & H2).
    destruct (listTable_read _ _ _ _ _ _ _ Hfp H1) as (-> & r1 & -> & Hr1).
    destruct (listTable_read _ _ _ _ _ _ _ Hfp H2) as (-> & r2 & -> & Hr2).
    split; [done|]. exists (r1 ++ r2). split; [by rewrite app_assoc|].
    intros x. rewrite elem_of_app, Hr1, Hr2. split.
    + intros [(vk & var & vst & vrest & H)|(vk & var & vst & vrest & H)].
      * by exists pst, prest, false, var, vk, vst, vrest.
      * by exists pst, prest, true, var, vk, vst, vrest.
    + intros (pst' & prest' & tr & var & vk & vst & vrest & _ & _ & H).
      destruct tr; [right|left]; by exists vk, var, vst, vrest.
  - injection Hrun as <- <-. split; [done|]. exists []. split; [by rewrite app_nil_r|].
    intros x. split; [by intros ?%elem_of_nil|].
    intros (pst' & prest' & tr & var & vk & vst & vrest & Hst' & Hv' & _). congruence.
Qed.

Lemma firstcall_read fc s s' :
  get_packages_and_variables_firstcall s = (Done fc, s') ->
  s' = s /\ call_cntr fc = 0%nat /\
  max_calls fc = length (default [] (fctx_recs fc)) /\
  (max_calls fc = 0%nat \/ is_Some (fctx_recs fc)) /\
  forall r, r ∈ default [] (fctx_recs fc) <-> listed s r.
Proof.
  intros Hrun. unfold get_packages_and_variables_firstcall in Hrun.
  apply bind_inv in Hrun as (h & s0 & H0 & Hrun). injection H0 as <- <-.
  destruct (packagesHash s) as [tbl|] eqn:Hh.
  - apply bind_inv in Hrun as (recs & s1 & H1 & Hrun). injection Hrun as <- <-. cbn.
    eapply (foldM_read
              (fun kv x => exists pst prest tr var vk vst vrest,
                 states (transObject kv.2) = pst :: prest /\ is_valid pst = true /\
                 findVariable kv.1 tr vk s = Some var /\
                 states (var_transObject var) = vst :: vrest /\ is_valid vst = true /\
                 x = mkVariableRec (name (transObject kv.2)) (name (var_transObject var))
                       (is_transactional var))) in H1.
    + destruct H1 as (-> & r & -> & Hr). cbn. split; [done|]. split; [done|].
      split; [done|]. split; [by right|].
      intros x. rewrite Hr. unfold listed. split.
      * intros ([k pack] & Hin & pst & prest & tr & var & vk & vst & vrest & H).
        apply elem_of_map_to_list in Hin.
        exists k, pack, pst, prest, tr, var, vk, vst, vrest.
        split; [|exact H]. by rewrite <- packagesHash_lookup, Hh.
      * intros (k & pack & pst & prest & tr & var & vk & vst & vrest & Hfp & H).
        rewrite <- packagesHash_lookup, Hh in Hfp.
        exists (k, pack). split; [by apply elem_of_map_to_list|].
        by exists pst, prest, tr, var, vk, vst, vrest.
    + intros [k pack] Hin acc out s2 Hstep. apply elem_of_map_to_list in Hin.
      apply (listPackage_read k pack acc out s s2); [|done].
      by rewrite <- packagesHash_lookup, Hh.
  - injection Hrun as <- <-. cbn. split; [done|]. split; [done|]. split; [done|].
    split; [by left|].
    intros x. split; [by intros ?%elem_of_nil|].
    intros (k & pack & ? & ? & ? & ? & ? & ? & ? & Hfp & _).
    by rewrite <- packagesHash_lookup, Hh in Hfp.
Qed.

Lemma call_next recs i row s :
  recs !! i = Some row ->
  get_packages_and_variables (Some (mkFuncCallContext i (length recs) (Some recs))) s
  = (Done (Some row, Some (mkFuncCallContext (S i) (length recs) (Some recs))), s).
Proof.
  intros Hrow. assert (Hlt : (i <? length recs)%nat = true).
  { apply Nat.ltb_lt. by eapply lookup_lt_Some. }
  unfold get_packages_and_variables. cbn [bind ret call_cntr max_calls fctx_recs].
  rewrite Hlt. cbn [bind ret deref]. rewrite Hrow. done.
Qed.

Lemma call_done fc s :
  (max_calls fc <= call_cntr fc)%nat ->
  get_packages_and_variables (Some fc) s = (Done (None, None), s).
Proof.
  intros Hle. assert (Hlt : (call_cntr fc <? max_calls fc)%nat = false).
  { by apply Nat.ltb_ge. }
  unfold get_packages_and_variables. cbn [bind ret]. by rewrite Hlt.
Qed.

Lemma fetch_all_S n c :
  fetch_all (S n) c
  = (r <- get_packages_and_variables c ;;
     match r.1 with
     | Some row => rows <- fetch_all n r.2 ;; ret (row :: rows)
     | None => ret []
     end).
Proof. reflexivity. Qed.

Lemma fetch_rest recs s n i :
  (i + n = length recs)%nat ->
  fetch_all (S n) (Some (mkFuncCallContext i (length recs) (Some recs))) s
  = (Done (drop i recs), s).
Proof.
  revert i. induction n as [|n IH]; intros i Hi; rewrite fetch_all_S.
  - erewrite bind_run; [|apply call_done; cbn; lia]. cbn. by rewrite drop_ge by lia.
  - destruct (lookup_lt_is_Some_2 recs i) as [row Hrow]; [lia|].
    erewrite bind_run; [|by apply call_next]. cbn [fst snd].
    erewrite bind_run; [|apply IH; lia]. cbn. by rewrite (drop_S _ _ _ Hrow).
Qed.

Lemma foldM_total {A B} (l : list A) (f : B -> A -> M B) s :
  (forall a, a ∈ l -> forall acc, exists out, f acc a s = (Done out, s)) ->
  forall acc, exists out, foldM l acc f s = (Done out, s).
Proof.
  induction l as [|a l IH]; intros Hf acc; cbn [foldM]; [by eexists|].
  destruct (Hf a (list_elem_of_here _ _) acc) as [acc1 H1].
  destruct (IH (fun b Hb => Hf b (list_elem_of_further _ _ _ Hb)) acc1) as [out H2].
  exists out. by erewrite bind_run by exact H1.
Qed.

(** Every package and every variable of the session has a state. *)
Definition table_with_states (h : option (gmap string VariableEntry)) : Prop :=
  match h with
  | Some vars => map_Forall (fun _ var => states (var_transObject var) <> []) vars
  | None => True
  end.

Definition with_states (s : Session) : Prop :=
  match packagesHash s with
  | Some tbl =>
      map_Forall (fun _ pack =>
        states (transObject pack) <> [] /\
        table_with_states (varHashRegular pack) /\
        table_with_states (varHashTransact pack)) tbl
  | None => True
  end.

Global Instance table_with_states_dec h : Decision (table_with_states h).
Proof. destruct h; apply _. Defined.

Global Instance with_states_dec s : Decision (with_states s).
Proof. unfold with_states. destruct (packagesHash s); apply _. Defined.

Lemma with_states_package s k pack :
  with_states s -> findPackage k s = Some pack -> states (transObject pack) <> [].
Proof.
  unfold with_states. rewrite <- packagesHash_lookup.
  destruct (packagesHash s) as [tbl|]; [|done].
  intros H Hk. by destruct (H k pack Hk).
Qed.

Lemma with_states_variable s k tr vk var :
  with_states s -> findVariable k tr vk s = Some var ->
  states (var_transObject var) <> [].
Proof.
  unfold with_states. rewrite findVariable_unfold, <- packagesHash_lookup.
  destruct (packagesHash s) as [tbl|]; [|done].
  intros H Hv. destruct (tbl !! k) as [pack|] eqn:Hk; [|done].
  destruct (H k pack Hk) as (_ & Hr & Ht).
  destruct tr; cbn in Hv.
  - destruct (varHashTransact pack) as [vars|]; [|done]. by apply (Ht vk var).
  - destruct (varHashRegular pack) as [vars|]; [|done]. by apply (Hr vk var).
Qed.

Lemma listTable_total k pack tr acc s :
  with_states s -> findPackage k s = Some pack ->
  exists out, listTable k tr acc s = (Done out, s).
Proof.
  intros Hs Hfp. unfold listTable.
  erewrite bind_run by (by rewrite readPackage_eq, Hfp).
  destruct (pack_htab pack tr) as [htab|] eqn:Ht; [|by eexists].
  apply foldM_total. intros [vk var] Hin acc0. apply elem_of_map_to_list in Hin.
  assert (Hvar : findVariable k tr vk s = Some var)
    by (by rewrite findVariable_unfold, Hfp, Ht).
  pose proof (with_states_variable _ _ _ _ _ Hs Hvar) as Hne.
  destruct (states (var_transObject var)) as [|vst vrest] eqn:Hst; [done|].
  cbn [fst snd]. erewrite bind_run by (by rewrite GetActualState_eq, objStates_VarPtr, Hvar; cbn; rewrite Hst).
  destruct (is_valid vst); by eexists.
Qed.

Lemma firstcall_total s :
  with_states s -> exists fc, get_packages_and_variables_firstcall s = (Done fc, s).
Proof.
  intros Hs. unfold get_packages_and_variables_firstcall. cbn [bind gets].
  destruct (packagesHash s) as [tbl|] eqn:Hh; [|by eexists].
  destruct (foldM_total (map_to_list tbl) listPackage s) with (acc := @nil VariableRec)
    as [recs Hrecs].
  - intros [k pack] Hin acc. apply elem_of_map_to_list in Hin.
    assert (Hfp : findPackage k s = Some pack) by (by rewrite <- packagesHash_lookup, Hh).
    pose proof (with_states_package _ _ _ Hs Hfp) as Hne.
    destruct (states (transObject pack)) as [|pst prest] eqn:Hst; [done|].
    unfold listPackage. cbn [fst].
    erewrite bind_run
      by (by rewrite GetActualState_eq, objStates_PackPtr, Hfp; cbn; rewrite Hst).
    destruct (is_valid pst); [|by eexists].
    destruct (listTable_total k pack false acc s Hs Hfp) as [r1 H1].
    destruct (listTable_total k pack true r1 s Hs Hfp) as [r2 H2].
    exists r2. by erewrite bind_run by exact H1.
  - eexists. by erewrite bind_run by exact Hrecs.
Qed.

(** X18. In a session where every package and every variable has a state,
    the first call of [get_packages_and_variables] returns, changes nothing
    and collects exactly the rows of the valid variables of the valid
    packages, each with the names of the package and the variable and the
    transactionality flag of the variable; calling the function until it is
    done returns these rows in the order collected, and the session is as
    before. *)
Theorem get_packages_and_variables_lists s :
  with_states s ->
  exists fc,
    get_packages_and_variables_firstcall s = (Done fc, s) /\
    (forall r, r ∈ default [] (fctx_recs fc) <-> listed s r) /\
    fetch_all (S (max_calls fc)) None s = (Done (default [] (fctx_recs fc)), s).
Proof.
  intros Hs. destruct (firstcall_total s Hs) as [fc Hrun]. exists fc.
  destruct (firstcall_read fc s s Hrun) as (_ & Hc & Hm & Hn & Hr).
  split; [done|]. split; [done|].
  rewrite fetch_all_S.
  destruct fc as [i m [recs|]]; cbn [call_cntr max_calls fctx_recs default from_option] in *;
    subst.
  - assert (Hfirst : get_packages_and_variables None s
                     = get_packages_and_variables
                         (Some (mkFuncCallContext 0 (length recs) (Some recs))) s).
    { unfold get_packages_and_variables. by erewrite !bind_run by (exact Hrun || done). }
    destruct recs as [|row recs].
    + erewrite bind_run; [|rewrite Hfirst; apply call_done; cbn; lia]. done.
    + erewrite bind_run; [|rewrite Hfirst; by apply call_next]. cbn [fst snd].
      erewrite bind_run; [|apply (fetch_rest (row :: recs) s (length recs) 1); done].
      done.
  - destruct Hn as [_|[? ?]]; [|done].
    assert (Hfirst : get_packages_and_variables None s = (Done (None, None), s)).
    { unfold get_packages_and_variables. by erewrite bind_run by exact Hrun. }
    by erewrite bind_run by exact Hfirst.
Qed.

Lemma get_packages_and_variables_lists_witness :
  exists fc,
    get_packages_and_variables_firstcall session_after_first_set
      = (Done fc, session_after_first_set) /\
    (forall r, r ∈ default [] (fctx_recs fc) <-> listed session_after_first_set r) /\
    fetch_all (S (max_calls fc)) None session_after_first_set
      = (Done (default [] (fctx_recs fc)), session_after_first_set).
Proof.
  apply (get_packages_and_variables_lists session_after_first_set).
  apply (@bool_decide_unpack _ (with_states_dec _)). vm_compute. exact I.
Defined.

(** [variable_exists] on names short enough, by the tables of the session. *)
Lemma variable_exists_eq p v s :
  VARSIZE_ANY_EXHDR p <= 62 -> VARSIZE_ANY_EXHDR v <= 62 ->
  variable_exists p v s
  = match findPackage p s with
    | None => (Done false, s)
    | Some pack =>
        match states (transObject pack) with
        | [] => (Undefined, s)
        | pst :: _ =>
            if is_valid pst then
              let in_regular := bool_decide (is_Some (findVariable p false v s)) in
              let in_transact := bool_decide (is_Some (findVariable p true v s)) in
              if in_regular || in_transact then
                match findVariable p (negb in_regular) v s with
                | Some var =>
                    match states (var_transObject var) with
                    | vst :: _ => (Done (is_valid vst), s)
                    | [] => (Undefined, s)
                    end
                | None => (Undefined, s)
                end
              else (Done false, s)
            else (Done false, s)
        end
    end.
Proof.
  intros Hp Hv.
  assert (Hp' : (VARSIZE_ANY_EXHDR p >=? 63) = false) by lia.
  assert (Hv' : (VARSIZE_ANY_EXHDR v >=? 63) = false) by lia.
  unfold variable_exists, text in *. cbn [bind]. rewrite getPackage_eq, Hp'.
  rewrite objStates_PackPtr, !findVariable_unfold.
  destruct (findPackage p s) as [pack|] eqn:Hfp; [|done]. cbn [fmap option_fmap option_map].
  destruct (states (transObject pack)) as [|pst prest]; [done|].
  destruct (is_valid pst); [|done].
  unfold getKeyFromName, NAMEDATALEN. cbn [bind ret].
  replace (VARSIZE_ANY_EXHDR v >=? 64 - 1) with false by lia. cbn [bind ret].
  rewrite readPackage_eq, Hfp. cbn [bind ret].
  rewrite pack_htab_false, pack_htab_true.
  assert (Hr : match varHashRegular pack with
               | Some h => bool_decide (is_Some (h !! v))
               | None => false
               end
               = bool_decide (is_Some (match varHashRegular pack with
                                       | Some h => h !! v
                                       | None => None
                                       end))).
  { destruct (varHashRegular pack); [done|]. symmetry. apply bool_decide_eq_false.
    by intros [? ?]. }
  assert (Ht : match varHashTransact pack with
               | Some h => bool_decide (is_Some (h !! v))
               | None => false
               end
               = bool_decide (is_Some (match varHashTransact pack with
                                       | Some h => h !! v
                                       | None => None
                                       end))).
  { destruct (varHashTransact pack); [done|]. symmetry. apply bool_decide_eq_false.
    by intros [? ?]. }
  rewrite Hr, Ht. clear Hr Ht.
  repeat match goal with
         | |- context [bool_decide ?P] => destruct (bool_decide P) eqn:?
         end; cbn [orb negb bind ret]; try done.
  all: rewrite GetActualState_eq, objStates_VarPtr, findVariable_unfold, Hfp.
  all: rewrite ?pack_htab_false, ?pack_htab_true.
  all: match goal with
       | |- context [match ?t with Some _ => _ | None => _ end] =>
           destruct t as [h|]; [|done]
       end.
  all: destruct (h !! v) as [var|]; [|done]; cbn.
  all: by destruct (states (var_transObject var)).
Qed.

(** The names that the objects carry are their keys, a variable carries the
    flag of its table, and no key is in both tables of a package. *)
Definition named_by_keys (s : Session) : Prop :=
  (forall k pack, findPackage k s = Some pack -> name (transObject pack) = k) /\
  (forall k tr vk var,
     findVariable k tr vk s = Some var ->
     name (var_transObject var) = vk /\ is_transactional var = tr) /\
  (forall k vk, findVariable k false vk s = None \/ findVariable k true vk s = None).

(** X19. [get_packages_and_variables] and [variable_exists] agree.  In a
    session where the objects are named by their keys, a variable carries the
    flag of its table and no name is in both tables of a package,
    [variable_exists] returns true for [p] and [v] exactly when the list
    collected by the first call of [get_packages_and_variables] has a row for
    [p] and [v]. *)
Theorem listing_agrees_with_variable_exists p v fc s :
  VARSIZE_ANY_EXHDR p <= 62 -> VARSIZE_ANY_EXHDR v <= 62 ->
  named_by_keys s ->
  get_packages_and_variables_firstcall s = (Done fc, s) ->
  variable_exists p v s = (Done true, s) <->
  exists tr, mkVariableRec p v tr ∈ default [] (fctx_recs fc).
Proof.
  intros Hp Hv (Hnp & Hnv & Hone) Hrun.
  destruct (firstcall_read fc s s Hrun) as (_ & _ & _ & _ & Hr).
  rewrite (variable_exists_eq p v s Hp Hv). split.
  - intros Hex.
    destruct (findPackage p s) as [pack|] eqn:Hfp; [|done].
    destruct (states (transObject pack)) as [|pst prest] eqn:Hps; [done|].
    destruct (is_valid pst) eqn:Hpv; [|done]. cbn zeta in Hex.
    destruct (bool_decide (is_Some (findVariable p false v s))
              || bool_decide (is_Some (findVariable p true v s))); [|done].
    set (tr := negb (bool_decide (is_Some (findVariable p false v s)))) in *.
    destruct (findVariable p tr v s) as [var|] eqn:Hvar; [|done].
    destruct (states (var_transObject var)) as [|vst vrest] eqn:Hvs; [done|].
    injection Hex as Hvv.
    exists tr. apply Hr.
    exists p, pack, pst, prest, tr, var, v, vst, vrest.
    repeat (split; [done|]).
    destruct (Hnv _ _ _ _ Hvar) as [-> ->]. by rewrite (Hnp _ _ Hfp).
  - intros (tr & Hin). apply Hr in Hin.
    destruct Hin as (k & pack & pst & prest & tr' & var & vk & vst & vrest
                     & Hfp & Hps & Hpv & Hvar & Hvs & Hvv & Heq).
    destruct (Hnv _ _ _ _ Hvar) as [Hn Ht]. pose proof (Hnp _ _ Hfp) as Hk.
    injection Heq as -> -> ->. rewrite Hk, Hn in *. clear Hk Hn.
    rewrite Hfp, Hps, Hpv. cbn zeta.
    destruct (Hone k vk) as [Ho|Ho], tr'; rewrite ?Ho, ?Hvar in *; try done.
    all: cbn; by rewrite ?Hvar, ?Hvs, ?Hvv.
Qed.

Lemma session_after_first_set_named : named_by_keys session_after_first_set.
Proof.
  assert (Hfp : forall k,
            findPackage k session_after_first_set
            = if decide (k = "p") then
                Some (mkPackage (mkTransObject "p" [pack_state 1 1]) None
                        (Some {["x" := x_of_p]}))
              else None).
  { intros k. rewrite <- packagesHash_lookup.
    change (packagesHash session_after_first_set) with
      (Some ({["p" := mkPackage (mkTransObject "p" [pack_state 1 1]) None
                        (Some {["x" := x_of_p]})]} : gmap string Package)).
    case_decide as E; [subst; by rewrite lookup_singleton_eq|by rewrite lookup_singleton_ne]. }
  split; [|split].
  - intros k pack. rewrite Hfp. case_decide; [|done]. by intros [= <-].
  - intros k tr vk var. rewrite findVariable_unfold, Hfp. case_decide; [|done].
    destruct tr; cbn; [|done]. destruct (decide (vk = "x")) as [->|E].
    + rewrite lookup_singleton_eq. by intros [= <-].
    + by rewrite lookup_singleton_ne.
  - intros k vk. left. rewrite findVariable_unfold, Hfp. by case_decide.
Qed.

Lemma listing_agrees_with_variable_exists_witness :
  variable_exists "p" "x" session_after_first_set = (Done true, session_after_first_set) <->
  exists tr,
    mkVariableRec "p" "x" tr
    ∈ default [] (fctx_recs (mkFuncCallContext 0 1 (Some [mkVariableRec "p" "x" true]))).
Proof.
  apply (listing_agrees_with_variable_exists "p" "x"
           (mkFuncCallContext 0 1 (Some [mkVariableRec "p" "x" true]))
           session_after_first_set).
  - vm_compute. discriminate.
  - vm_compute. discriminate.
  - exact session_after_first_set_named.
  - vm_compute. reflexivity.
Defined.

(** ** Removal of a package inside a subtransaction *)

Lemma var_transObject_markDeleted var :
  var_transObject (markDeleted var) = var_transObject var.
Proof. unfold markDeleted. by repeat case_match. Qed.

Lemma typid_markDeleted var : typid (markDeleted var) = typid var.
Proof. unfold markDeleted. by repeat case_match. Qed.

Lemma is_record_markDeleted var : is_record (markDeleted var) = is_record var.
Proof. unfold markDeleted. by repeat case_match. Qed.

Lemma is_transactional_markDeleted var :
  is_transactional (markDeleted var) = is_transactional var.
Proof. unfold markDeleted. by repeat case_match. Qed.

Lemma lookup_markDeleted (vars : gmap string VariableEntry) v :
  (markDeleted <$> vars) !! v = markDeleted <$> vars !! v.
Proof. apply lookup_fmap. Qed.

Lemma markAllDeleted_Some h : markAllDeleted (Some h) = Some (markDeleted <$> h).
Proof. done. Qed.

Lemma markAllDeleted_None : markAllDeleted None = None.
Proof. done. Qed.

Lemma objStates_markAllDeleted o k s :
  objStates o
    (updPackage k (fun pack =>
       mkPackage (transObject pack) (markAllDeleted (varHashRegular pack))
         (markAllDeleted (varHashTransact pack))) s)
  = objStates o s.
Proof.
  destruct o as [p|p t v].
  - rewrite !objStates_PackPtr, findPackage_updPackage. case_decide; [|done]. simplify_eq.
    by destruct (findPackage _ s).
  - rewrite !objStates_VarPtr, !findVariable_unfold, findPackage_updPackage.
    case_decide; [|done]. simplify_eq.
    destruct (findPackage _ s) as [pack|]; [|done]. cbn.
    destruct t; cbn.
    + destruct (varHashTransact pack) as [h|]; [|done]. cbn.
      rewrite lookup_fmap. destruct (h !! v); [|done]. cbn.
      by rewrite var_transObject_markDeleted.
    + destruct (varHashRegular pack) as [h|]; [|done]. cbn.
      rewrite lookup_fmap. destruct (h !! v); [|done]. cbn.
      by rewrite var_transObject_markDeleted.
Qed.

#[global] Hint Rewrite var_transObject_markDeleted typid_markDeleted is_record_markDeleted
  is_transactional_markDeleted lookup_markDeleted markAllDeleted_Some markAllDeleted_None
  objStates_markAllDeleted : pgv.

(** The frame of a level that changed the package [p] only. *)
Definition frame_of_package (p : string) : ChangesStackNode :=
  mkChangesStackNode [] [PackPtr p].

Lemma remove_package_in_new_level p v t reg pst prest vl n c cs s :
  VARSIZE_ANY_EXHDR p <= 62 ->
  var_at p v t reg (pst :: prest) vl s ->
  is_valid pst = true -> body pst = PackBody n -> level (levels pst) <> nestLevel s ->
  1 <= nestLevel s ->
  changesStack s = Some (c :: cs) -> quiet s ->
  wpt (remove_package p)
    (fun _ s' =>
       (exists pst2, var_at p v t None (pst2 :: pst :: prest) vl s') /\
       changesStack s' = Some (pushChanged (PackPtr p) c :: cs) /\
       nestLevel s' = nestLevel s /\ quiet s') s.
Proof.
  intros Hp (pack & vars & var & Hfp & Hpl & Hreg & Htr & Hvar & Hvl & Ht & Hrec & Htv)
    Hpv Hpb Hplv Hl Hcs [Hq1 Hq2].
  assert (H0 : (0 =? nestLevel s) = false) by lia.
  subst t. destruct (findPackage_Some_hash _ _ _ Hfp) as [h Hh].
  assert (Hszp : (VARSIZE_ANY_EXHDR p >=? 63) = false) by lia.
  assert (Hps : preparedStack s = Some (c :: cs)) by (unfold preparedStack; by rewrite Hcs).
  apply Z.eqb_neq in Hplv.
  unfold remove_package, remove_variables_package, removePackageInternal,
    set_trans_var_num, resetVariablesCache.
  unfold text in *.
  wp_step. eapply wpg_eq; [apply getPackage_eq|].
  destruct reg as [hr|].
  all: wq_all.
  all: split; [|split; [by views|split; [by views|unfold quiet; split; by views]]].
  all: eexists; var_at_fin.
Qed.

Lemma abort_sub_package p v t pst2 pst prest vl n c cs s :
  var_at p v t None (pst2 :: pst :: prest) vl s ->
  body pst = PackBody n -> 0 < n ->
  changesStack s = Some (frame_of_package p :: c :: cs) -> quiet s ->
  wpt AbortSubTransaction
    (fun _ s' =>
       var_at p v t None (pst :: prest) vl s' /\
       changesStack s' = Some (c :: cs) /\
       nestLevel s' = nestLevel s - 1 /\ quiet s') s.
Proof.
  intros (pack & vars & var & Hfp & Hpl & Hreg & Htr & Hvar & Hvl & Ht & Hrec & Htv)
    Hpb Hn Hcs [Hq1 Hq2].
  unfold frame_of_package in *.
  unfold AbortSubTransaction, pgvSubTransCallback, processChanges,
    remove_variables_level, remove_packages_level, applyAction, rollbackSavepoint,
    isPackageEmpty.
  cbn [forM_]. unfold text in *.
  wq_all.
  all: try (exfalso;
            match goal with
            | H : (_ =? 0) = true |- _ => apply Z.eqb_eq in H; lia
            end).
  all: split; [|split; [by views|split; [by views|unfold quiet; split; by views]]].
  all: var_at_fin.
Qed.

(** [SAVEPOINT; remove package p; ROLLBACK TO SAVEPOINT]. *)
Definition remove_package_and_abort (p : text) : M unit :=
  StartSubTransaction ;;;
  remove_package p ;;;
  AbortSubTransaction.

(** X20. In a transaction that has a changes stack, take a valid package [p]
    with [trans_var_num] above 0 and in it a valid transactional scalar
    variable [v].  Opening a subtransaction, removing the package and
    aborting the subtransaction runs to its end and brings back the package
    and the transactional variable, which [variable_get] reads as before;
    the regular variables of the package do not come back: its regular table
    is gone. *)
Theorem abort_restores_removed_package p v t strict reg pst prest vst vrest n sc c cs s :
  VARSIZE_ANY_EXHDR p <= 62 -> VARSIZE_ANY_EXHDR v <= 62 ->
  var_at p v t reg (pst :: prest) (vst :: vrest) s ->
  is_valid pst = true -> body pst = PackBody n -> 0 < n ->
  level (levels pst) <= nestLevel s ->
  is_valid vst = true -> body vst = VarBody (scalar sc) ->
  1 <= nestLevel s ->
  changesStack s = Some (c :: cs) -> quiet s ->
  exists s',
    remove_package_and_abort p s = (Done tt, s') /\
    objStates (VarPtr p true v) s' = Some (vst :: vrest) /\
    objStates (PackPtr p) s' = Some (pst :: prest) /\
    changesStack s' = Some (c :: cs) /\ nestLevel s' = nestLevel s /\
    variable_get p v t strict s' = (Done (value sc, is_null sc), s') /\
    forall r, findVariable p false r s' = None.
Proof.
  intros Hp Hv Hva Hpv Hpb Hn Hpl Hvv Hvb Hl Hcs Hq.
  apply wpt_unit. unfold remove_package_and_abort.
  wp_step. eapply wpg_eq; [by apply StartSubTransaction_run|]. wp_step.
  eapply wpg_seq.
  { eapply (remove_package_in_new_level p v t reg pst prest (vst :: vrest) n); stage_side. }
  cbn [nestLevel set_nestLevel set_changesStack].
  intros _ s2 ((pst2 & Hva2) & Hcs2 & Hl2 & Hq2).
  eapply wpg_mono.
  { eapply (abort_sub_package p v t); stage_side. }
  intros _ s3 (Hva3 & Hcs3 & Hl3 & Hq3). rewrite Hl2 in *.
  destruct (var_at_objStates _ _ _ _ _ _ _ Hva3) as [Ho1 Ho2].
  split; [exact Ho2|]. split; [exact Ho1|]. split; [done|]. split; [lia|].
  split; [by eapply (var_at_get p v t None)|].
  destruct Hva3 as (pack & vars & var & Hfp & _ & Hreg & _).
  intros r. by rewrite findVariable_unfold, Hfp, pack_htab_false, Hreg.
Qed.

(** [BEGIN; set p.x := 1 (transactional); set p.r := 5 (regular)]. *)
Definition session_with_both_kinds : Session :=
  exec (StartTransaction ;;;
        variable_set "p" "x" 23 1 false true ;;;
        variable_set "p" "r" 23 5 false false) (emptySession cat0 0).

Definition regular_of_p : option (gmap string VariableEntry) :=
  match findPackage "p" session_with_both_kinds with
  | Some pack => varHashRegular pack
  | None => None
  end.

Lemma abort_restores_removed_package_witness :
  exists s',
    remove_package_and_abort "p" session_with_both_kinds = (Done tt, s') /\
    objStates (VarPtr "p" true "x") s' = Some (scalar_state 1 1 false true 4 :: []) /\
    objStates (PackPtr "p") s' = Some (pack_state 1 1 :: []) /\
    changesStack s' = Some (frame_of "p" "x" :: []) /\
    nestLevel s' = nestLevel session_with_both_kinds /\
    variable_get "p" "x" 23 true s'
      = (Done (value (mkScalarVar 1 false true 4), is_null (mkScalarVar 1 false true 4)), s') /\
    forall r, findVariable "p" false r s' = None.
Proof.
  apply (abort_restores_removed_package "p" "x" 23 true regular_of_p (pack_state 1 1) []
           (scalar_state 1 1 false true 4) [] 1 (mkScalarVar 1 false true 4)
           (frame_of "p" "x") [] session_with_both_kinds).
  - vm_compute. discriminate.
  - vm_compute. discriminate.
  - unfold var_at. eexists _, _, _. vm_compute. repeat split; reflexivity.
  - reflexivity.
  - reflexivity.
  - reflexivity.
  - vm_compute. discriminate.
  - reflexivity.
  - reflexivity.
  - vm_compute. discriminate.
  - vm_compute. reflexivity.
  - split; reflexivity.
Defined.

(** ** Removal and commit in one transaction *)

(** The last transactional variable of a package without regular variables is
    removed at the level that changed it. *)
Lemma remove_variable_same_level p v t pst prest vst vrest sc c cs s :
  VARSIZE_ANY_EXHDR p <= 62 -> VARSIZE_ANY_EXHDR v <= 62 ->
  var_at p v t None (pst :: prest) (vst :: vrest) s ->
  is_valid pst = true -> body pst = PackBody 1 -> level (levels pst) = nestLevel s ->
  is_valid vst = true -> body vst = VarBody (scalar sc) ->
  level (levels vst) = nestLevel s -> 1 <= nestLevel s ->
  changesStack s = Some (c :: cs) -> quiet s ->
  wpt (remove_variable p v)
    (fun _ s' =>
       var_at p v t None
         (mkTransState false (levels pst) (PackBody 0) :: prest)
         (with_is_valid false vst :: vrest) s' /\
       changesStack s' = Some (c :: cs) /\
       nestLevel s' = nestLevel s /\ quiet s') s.
Proof.
  intros Hp Hv (pack & vars & var & Hfp & Hpl & Hreg & Htr & Hvar & Hvl & Ht & Hrec & Htv)
    Hpv Hpb Hplv Hvv Hvb Hvlv Hl Hcs [Hq1 Hq2].
  assert (H0 : (0 =? nestLevel s) = false) by lia.
  subst t. destruct (findPackage_Some_hash _ _ _ Hfp) as [h Hh].
  assert (Hszp : (VARSIZE_ANY_EXHDR p >=? 63) = false) by lia.
  assert (Hszv : (VARSIZE_ANY_EXHDR v >=? 63) = false) by lia.
  apply Z.eqb_eq in Hplv, Hvlv.
  unfold remove_variable, getVariableInternal, set_trans_var_num, resetVariablesCache.
  unfold text in *.
  wp_step. eapply wpg_eq; [apply getPackage_eq|].
  wp_all.
  all: split; [|split; [by views|split; [by views|unfold quiet; split; by views]]].
  all: var_at_fin.
Qed.

Lemma no_next_state {A} (x : A) : bool_decide (2 <= length [x])%nat = false.
Proof. apply bool_decide_eq_false. cbn. lia. Qed.

#[global] Hint Rewrite @no_next_state : pgv.

Lemma commit_top_removed p v t pst vst n s :
  var_at p v t None [pst] [vst] s ->
  is_valid pst = false -> body pst = PackBody n -> is_valid vst = false ->
  changesStack s = Some [frame_of p v] -> quiet s ->
  wpt CommitTransaction
    (fun _ s' =>
       findPackage p s' = None /\
       (forall k, k <> p -> findPackage k s' = findPackage k s) /\
       changesStack s' = None /\ nestLevel s' = 0 /\ quiet s') s.
Proof.
  intros (pack & vars & var & Hfp & Hpl & Hreg & Htr & Hvar & Hvl & Ht & Hrec & Htv)
    Hpv Hpb Hvv Hcs [Hq1 Hq2].
  pose proof (hash_present_findPackage _ _ _ Hfp) as Hh.
  unfold frame_of in *.
  unfold CommitTransaction, pgvTransCallback, processChanges,
    applyAction, releaseSavepoint, removeObject, isPackageEmpty,
    remove_variables_variable, resetVariablesCache.
  cbn [forM_]. unfold text in *.
  wq_all.
  all: split; [by views|].
  all: split; [|split; [by views|split; [by views|unfold quiet; split; by views]]].
  all: intros k Hk; views;
    try match goal with
        | H : forall k, findPackage k _ = None |- _ => specialize (H k); revert H
        end;
    other_package; try (intros ->); done.
Qed.

Lemma wpg_and_preserves {A} U E (c : M A) (Q : A -> Session -> Prop)
    (R : Session -> Session -> Prop) s :
  preserves R c -> wpg U E c Q s -> wpg U E c (fun a s' => Q a s' /\ R s s') s.
Proof.
  intros HR. specialize (HR s). unfold wpg, post.
  by destruct (c s) as [[a| |] s1].
Qed.

(** [BEGIN; set p.v := x; remove p.v; COMMIT]. *)
Definition set_remove_commit (p v : text) (t : Oid) (x : Datum) (isnull : bool) : M unit :=
  StartTransaction ;;;
  variable_set p v t x isnull true ;;;
  remove_variable p v ;;;
  CommitTransaction.

(** X21. With no package [p] and no transactional change pending, the
    transaction that sets the transactional variable [p].[v], removes it and
    commits runs to its end and leaves no trace of them: there is no package
    [p], [package_exists] and [variable_exists] return false, every other
    package is as it was, and no changes stack is left. *)
Theorem commit_forgets_removed_variable p v t x isnull s :
  VARSIZE_ANY_EXHDR p <= 62 -> VARSIZE_ANY_EXHDR v <= 62 ->
  findPackage p s = None -> changesStack s = None -> quiet s ->
  exists s',
    set_remove_commit p v t x isnull s = (Done tt, s') /\
    findPackage p s' = None /\
    (forall k, k <> p -> findPackage k s' = findPackage k s) /\
    changesStack s' = None /\
    package_exists p s' = (Done false, s') /\
    variable_exists p v s' = (Done false, s').
Proof.
  intros Hp Hv Hfp Hcs Hq. apply wpt_unit. unfold set_remove_commit, StartTransaction.
  wp_step. wp_step.
  eapply wpg_seq.
  { apply (first_set p v t x isnull emptyFrame []); stage_side. }
  cbn [nestLevel set_nestLevel typcache].
  intros _ s1 (Hva1 & Hcs1 & Hl1 & Hq1 & Hoth1).
  eapply wpg_seq.
  { eapply (wpg_and_preserves _ _ _ _
             (fun s s' => forall k, k <> p -> findPackage k s' = findPackage k s)).
    - intros s0 k Hk. by apply (remove_variable_other k p).
    - eapply (remove_variable_same_level p v t); stage_side. }
  intros _ s2 ((Hva2 & Hcs2 & Hl2 & Hq2) & Hoth2).
  eapply wpg_mono.
  { eapply (commit_top_removed p v t); stage_side. }
  intros _ s3 (Hfp3 & Hoth3 & Hcs3 & Hl3 & Hq3).
  split; [done|]. split.
  { intros k Hk. rewrite Hoth3, Hoth2, Hoth1 by done. by views. }
  split; [done|].
  by apply exists_of_missing_package.
Qed.

Lemma commit_forgets_removed_variable_witness :
  exists s',
    set_remove_commit "p" "x" 23 1 false (emptySession cat0 0) = (Done tt, s') /\
    findPackage "p" s' = None /\
    (forall k, k <> "p" -> findPackage k s' = findPackage k (emptySession cat0 0)) /\
    changesStack s' = None /\
    package_exists "p" s' = (Done false, s') /\
    variable_exists "p" "x" s' = (Done false, s').
Proof.
  apply (commit_forgets_removed_variable "p" "x" 23 1 false (emptySession cat0 0)).
  - vm_compute. discriminate.
  - vm_compute. discriminate.
  - vm_compute. reflexivity.
  - reflexivity.
  - split; reflexivity.
Defined.

(** * The names, the package that comes back, and the memory of a datum *)

(** ** The bound on names, by entry point *)



(** ** A package that comes back: what is left of its variables *)

(** A name that the regular table of the package does not hold is not put
    there. *)
Definition stays_out (nm k : string) (s s' : Session) : Prop :=
  findVariable nm false k s = None -> findVariable nm false k s' = None.

Global Instance stays_out_preorder nm k : PreOrder (stays_out nm k).
Proof.
  split; [intros s H; exact H|]. intros s1 s2 s3 H1 H2 H. apply H2, H1, H.
Qed.

Lemma createPackage_stays_out nm k tr : preserves (stays_out nm k) (createPackage nm tr).
Proof.
  assert (Hs : W_stack (stays_out nm k))
    by (intros c s H; by rewrite findVariable_set_changesStack).
  assert (Hc : W_cache (stays_out nm k))
    by (intros lp lv s H; by rewrite findVariable_set_cache).
  assert (Ho : forall o, o <> VarPtr nm false k -> W_obj (stays_out nm k) o).
  { intros o Hne h s H. by rewrite findVariable_modStates_ne. }
  assert (Hm : forall key t, preserves (stays_out nm k) (makePackHTAB key t)).
  { intros key t. unfold makePackHTAB. frames. intros H.
    rewrite findVariable_set_pack_htab. case_decide; [|done].
    destruct (findPackage nm _); [apply lookup_empty|done]. }
  unfold createPackage.
  repeat first [ apply Hm | progress frames ].
  all: try (apply Ho; done).
  - intros s. unfold ensurePackagesHashExists. cbn.
    destruct (packagesHash s) eqn:E; cbn; [done|].
    intros H. rewrite findVariable_unfold in *.
    by rewrite findPackage_set_packagesHash_new.
  - intros H. rewrite findVariable_unfold in *. rewrite findPackage_storePackage.
    case_decide; [done|]. done.
Qed.

(** [createPackage] on [removed_session]: the package [p] and the variable
    [x] were changed at the current level already. *)
Definition resurrected_session : Session := exec (createPackage "p" true) removed_session.

(** C5, as the claim states it, fails.  In [removed_session] the package [p]
    and its variable [x] were changed at the current level: [createPackage]
    returns and pushes no savepoint state on either, so each has as many
    states as before; and the former value of [x] is still read by a
    non-strict [variable_get]. *)
Lemma resurrection_without_savepoint :
  createPackage "p" true removed_session = (Done "p", resurrected_session) /\
  length <$> objStates (PackPtr "p") resurrected_session
    = length <$> objStates (PackPtr "p") removed_session /\
  length <$> objStates (VarPtr "p" true "x") resurrected_session
    = length <$> objStates (VarPtr "p" true "x") removed_session /\
  variable_get "p" "x" 23 false removed_session = (Done (0, true), removed_session) /\
  variable_get "p" "x" 23 false resurrected_session = (Done (5, false), resurrected_session).
Proof.
  split; [vm_compute; reflexivity|]. split; [vm_compute; reflexivity|].
  split; [vm_compute; reflexivity|]. split; vm_compute; reflexivity.
Qed.

(** C5, amended.  [createPackage] on a package whose head state is not
    valid: the call returns; the head state of the package is valid and of
    the current level, over the states that were there (the old head is kept
    beneath as the savepoint, unless it was the state of the current level
    already: then it is replaced); and every transactional variable that was
    in the package has a head state of the current level that is not valid,
    over its old states in the same way.  The package exists again, and
    these variables do not: [package_exists] returns true, and
    [variable_exists] returns false for each of them that is not in the
    regular table as well. *)
Theorem createPackage_resurrects nm tr s pst prest n :
  VARSIZE_ANY_EXHDR nm <= 62 ->
  objStates (PackPtr nm) s = Some (pst :: prest) ->
  is_valid pst = false -> body pst = PackBody n ->
  forallb (fun kv => saveable kv.2) (transVars nm s) = true ->
  1 <= nestLevel s -> changesStack s <> Some [] ->
  exists s',
    createPackage nm tr s = (Done nm, s') /\
    (exists hd,
       is_valid hd = true /\ level (levels hd) = nestLevel s /\
       (objStates (PackPtr nm) s' = Some (hd :: pst :: prest) \/
        objStates (PackPtr nm) s' = Some (hd :: prest) /\
        level (levels pst) = nestLevel s)) /\
    (forall k var, findVariable nm true k s = Some var ->
                   marked_removed (VarPtr nm true k) s s') /\
    package_exists nm s' = (Done true, s') /\
    (forall k var,
       findVariable nm true k s = Some var -> findVariable nm false k s = None ->
       VARSIZE_ANY_EXHDR k <= 62 ->
       variable_exists nm k s' = (Done false, s')).
Proof.
  intros Hnm Hp Hpv Hb Hall Hl Hs.
  rewrite objStates_PackPtr in Hp. unfold transVars in Hall.
  destruct (findPackage nm s) as [pack|] eqn:Hfp; [|done]. cbn in Hp. simplify_eq.
  assert (Hvars : forall k var, findVariable nm true k s = Some var ->
                                can_be_saved (VarPtr nm true k) s).
  { intros k var Hk. unfold can_be_saved. rewrite objStates_VarPtr, Hk. cbn.
    rewrite findVariable_unfold, Hfp in Hk. cbn in Hk.
    destruct (varHashTransact pack) as [vars|]; [|done]. cbn in Hall.
    rewrite forallb_forall in Hall. specialize (Hall (k, var)).
    assert (Hin : In (k, var) (map_to_list vars))
      by (by apply list_elem_of_In, elem_of_map_to_list).
    specialize (Hall Hin). change (saveable var = true) in Hall.
    unfold saveable in Hall.
    destruct (states (var_transObject var)) as [|st rest]; [done|].
    destruct (copyBody TRANS_VARIABLE (body st)) as [b|] eqn:Eb; [eauto|done]. }
  destruct (wpt_inv _ _ _ (createPackage_resurrects_run nm tr s pack pst prest n
                             Hnm Hfp Hp Hpv Hb Hvars Hl Hs))
    as (key & s' & Hrun & -> & (hd & Hhd & Hlv & Hpack) & Hmk).
  assert (Hnm' : (VARSIZE_ANY_EXHDR nm >=? 63) = false) by lia.
  assert (Hhead : exists X, objStates (PackPtr nm) s' = Some (hd :: X)).
  { destruct Hpack as [H|[H _]]; eauto. }
  destruct Hhead as [X HX]. rewrite objStates_PackPtr in HX.
  destruct (findPackage nm s') as [pack'|] eqn:Hfp'; [|done]. cbn in HX.
  exists s'. split; [done|]. split; [eauto|]. split; [done|]. split.
  - unfold package_exists. cbn [bind].
    rewrite getPackage_eq, Hnm', Hfp', objStates_PackPtr, Hfp'. cbn.
    injection HX as HX. by rewrite HX, Hhd.
  - intros k var Hk Hreg Hsz.
    pose proof (createPackage_stays_out nm k tr s) as Hout. rewrite Hrun in Hout.
    specialize (Hout Hreg). cbn in Hout.
    destruct (Hmk k var Hk) as (hd0 & st & rest & Hst & Hhd0 & Hlv0 & Hres).
    assert (Hk' : exists Y, objStates (VarPtr nm true k) s' = Some (hd0 :: Y)).
    { destruct Hres as [H|[H _]]; eauto. }
    destruct Hk' as [Y HY]. rewrite objStates_VarPtr in HY.
    destruct (findVariable nm true k s') as [var'|] eqn:Hvar'; [|done]. cbn in HY.
    rewrite variable_exists_eq by lia. rewrite Hfp'.
    injection HX as HX. rewrite HX, Hhd. cbn zeta. rewrite Hout, Hvar'. cbn.
    rewrite Hvar'. injection HY as HY. by rewrite HY, Hhd0.
Qed.

Lemma createPackage_resurrects_witness :
  exists s',
    createPackage "p" true removed_session = (Done "p", s') /\
    (exists hd,
       is_valid hd = true /\ level (levels hd) = nestLevel removed_session /\
       (objStates (PackPtr "p") s'
          = Some [hd; mkTransState false (mkLevels 2) (PackBody 0);
                  mkTransState true (mkLevels 1) (PackBody 2)] \/
        objStates (PackPtr "p") s'
          = Some [hd; mkTransState true (mkLevels 1) (PackBody 2)] /\
        level (levels (mkTransState false (mkLevels 2) (PackBody 0)))
          = nestLevel removed_session)) /\
    (forall k var, findVariable "p" true k removed_session = Some var ->
                   marked_removed (VarPtr "p" true k) removed_session s') /\
    package_exists "p" s' = (Done true, s') /\
    (forall k var,
       findVariable "p" true k removed_session = Some var ->
       findVariable "p" false k removed_session = None ->
       VARSIZE_ANY_EXHDR k <= 62 ->
       variable_exists "p" k s' = (Done false, s')).
Proof.
  apply (createPackage_resurrects "p" true removed_session
           (mkTransState false (mkLevels 2) (PackBody 0))
           [mkTransState true (mkLevels 1) (PackBody 2)] 0).
  all: try (vm_compute; reflexivity).
  all: vm_compute; discriminate.
Defined.

(** ** The memory of by-reference datums

    The model above takes a datum for its value, so that the copy of a datum
    is the datum.  For a type that is passed by reference the [Datum] is a
    pointer to a chunk that [palloc] gave.  This module keeps the chunks and
    follows the statements of [variable_set] and [variable_get] that touch
    them, from the actual value [scalar] of the variable on. *)
Module Memory.

Definition Chunk := list Byte.byte.

(** The chunks in use, by address; a chunk that was freed is not there. *)
Definition Heap := gmap Z Chunk.

(** The host's [pfree]; freeing what is not allocated is undefined. *)
Definition pfree (ptr : Datum) (h : Heap) : option Heap :=
  match h !! ptr with
  | Some _ => Some (delete ptr h)
  | None => None
  end.

(** The host's [palloc] and [memcpy]: the new chunk is at an address that is
    not in use. *)
Definition palloc (c : Chunk) (h : Heap) : Datum * Heap :=
  let ptr := fresh (dom h) in (ptr, <[ptr := c]> h).

(** The host's [datumCopy]: a datum passed by value is returned as it is,
    one passed by reference is read and copied into a new chunk; reading a
    chunk that was freed is undefined. *)
Definition datumCopy (v : Datum) (typByVal : bool) (typLen : Z) (h : Heap) :
    option (Datum * Heap) :=
  if typByVal then Some (v, h)
  else match h !! v with
       | Some c => Some (palloc c h)
       | None => None
       end.

(** [variable_set] after [scalar = &(GetActualValue(variable).scalar)]: the
    old datum is freed, then the argument is copied. *)
Definition variable_set (scalar : ScalarVar) (v : Datum) (isnull : bool) (h : Heap) :
    option (ScalarVar * Heap) :=
  h1 ← (if negb (typbyval scalar) && negb (is_null scalar)
        then pfree (value scalar) h else Some h) ;
  if isnull then Some (mkScalarVar 0 true (typbyval scalar) (typlen scalar), h1)
  else
    '(d, h2) ← datumCopy v (typbyval scalar) (typlen scalar) h1 ;
    Some (mkScalarVar d false (typbyval scalar) (typlen scalar), h2).

(** [variable_get] from the same point on: the datum returned is the stored
    one, for a by-reference type the pointer to the chunk of the store. *)
Definition variable_get (scalar : ScalarVar) : Datum * bool :=
  (value scalar, is_null scalar).

(** What a by-reference datum points to. *)
Definition read (d : Datum) (h : Heap) : option Chunk := h !! d.

(** An argument that is not the stored datum is copied into a new chunk:
    [variable_get] returns the pointer to the copy, which holds what the
    argument points to. *)
Lemma set_copies scalar x c h :
  typbyval scalar = false ->
  h !! x = Some c ->
  (is_null scalar = false -> x <> value scalar /\ is_Some (h !! value scalar)) ->
  exists scalar' h',
    variable_set scalar x false h = Some (scalar', h') /\
    (variable_get scalar').2 = false /\
    (variable_get scalar').1 <> x /\
    read (variable_get scalar').1 h' = Some c /\
    read x h' = Some c.
Proof.
  intros Hv Hx Hold. unfold variable_set, variable_get, pfree, datumCopy, palloc, read.
  rewrite Hv. unfold Heap, Datum in *. cbn [negb andb].
  destruct (is_null scalar) eqn:Hn; cbn [negb mbind option_bind].
  - rewrite Hx. cbn. eexists _, _. split; [reflexivity|]. cbn.
    assert (Hf : fresh (dom h) <> x).
    { intros E. apply (is_fresh (dom h)). rewrite E. by apply elem_of_dom. }
    split; [done|]. split; [done|]. split; [by rewrite lookup_insert_eq|].
    by rewrite lookup_insert_ne.
  - destruct (Hold eq_refl) as [Hne [c0 Hc0]]. rewrite Hc0. cbn.
    rewrite lookup_delete_ne by done. rewrite Hx. cbn.
    eexists _, _. split; [reflexivity|]. cbn.
    assert (Hf : fresh (dom (delete (value scalar) h)) <> x).
    { intros E. apply (is_fresh (dom (delete (value scalar) h))). rewrite E.
      apply elem_of_dom. by rewrite lookup_delete_ne. }
    split; [done|]. split; [done|]. split; [by rewrite lookup_insert_eq|].
    rewrite lookup_insert_ne by done. by rewrite lookup_delete_ne.
Qed.

(** An argument that is the stored datum itself, as [variable_get] returned
    it: the chunk is freed before it is read. *)
Lemma set_of_stored_datum scalar h :
  typbyval scalar = false -> is_null scalar = false ->
  variable_set scalar (variable_get scalar).1 false h = None.
Proof.
  intros Hv Hn. unfold variable_set, variable_get, pfree, datumCopy. rewrite Hv, Hn. cbn.
  destruct (h !! value scalar) eqn:E; [|done]. cbn.
  unfold Heap, Datum in *. by rewrite lookup_delete_eq.
Qed.

End Memory.

(** The type [text]: passed by reference, of variable length. *)
Definition TEXTOID : Oid := 25.
Definition cat_text (t : Oid) : Z * bool := (-1, false).

(** [BEGIN; pgv_set('p','v', x)] for a regular variable and a text [x]; the
    copy that the store holds is at the address 100. *)
Definition session_with_text : Session :=
  exec (StartTransaction ;;; variable_set "p" "v" TEXTOID 100 false false)
       (emptySession cat_text 0).

Definition chunk_abc : Memory.Chunk := [Byte.x61; Byte.x62; Byte.x63].

(** C3.  [pgv_set('p','v', pgv_get('p','v', NULL::text))] on the regular
    variable of [session_with_text]: [variable_get] returns the pointer that
    the store holds; [variable_set] with that pointer comes to its
    assignment with the state that holds it, a datum passed by reference and
    not NULL; and the assignment frees the chunk before [datumCopy] reads
    it, which is undefined.  With a pointer to another chunk of the same
    bytes the assignment stores a new copy. *)
Lemma set_of_got_value_reads_freed_memory :
  let h : Memory.Heap := {[ 100 := chunk_abc; 200 := chunk_abc ]} in
  let reach :=
    (pkey <- createPackage "p" false ;;
     o <- createVariableInternal pkey "v" TEXTOID false false ;;
     GetActualState o) session_with_text in
  exists st sc,
    variable_get "p" "v" TEXTOID true session_with_text
      = (Done (100, false), session_with_text) /\
    reach.1 = Done st /\ body st = VarBody (scalar sc) /\
    Memory.variable_get sc = (100, false) /\ typbyval sc = false /\
    Memory.variable_set sc 100 false h = None /\
    exists sc' h',
      Memory.variable_set sc 200 false h = Some (sc', h') /\
      Memory.read (Memory.variable_get sc').1 h' = Some chunk_abc.
Proof.
  eexists _, _. split; [vm_compute; reflexivity|].
  split; [vm_compute; reflexivity|]. split; [reflexivity|].
  split; [reflexivity|]. split; [reflexivity|].
  split; [vm_compute; reflexivity|].
  eexists _, _. split; [vm_compute; reflexivity|]. vm_compute. reflexivity.
Qed.

(** ** Two levels folded by release and commit *)


